(** * Rieltorbot: lead classification and deduplicating storage

    A shallow embedding of [userbot.py]: the classifier
    [LeadAnalyzer.analyze], the SQLite-backed [LeadStorage.insert_message]
    and [resolve_notification_target], followed by the properties the
    specification states about them.

    Python values are modelled as the interpreter has them: a [str] is a
    sequence of Unicode code points, an [int] is an unbounded integer, a
    JSON object is a finite map with string keys.  What the code takes from
    the Python runtime and its libraries (the Unicode tables behind
    [str.lower] and [str.strip], the [re] engine, [hashlib.sha256],
    [datetime.isoformat], [int(str)]) is the interface [PyRuntime]; every
    property below holds for every implementation of that interface, and
    [Reference.runtime] is one that computes.

    The arguments are the ones the type hints of the source admit: the text
    of a message is [None] or a [str], the identities given to
    [insert_message] are any [int], and the configuration entries the code
    reads are JSON scalars and arrays of scalars.  What [sqlite3] refuses of
    them is modelled in [SQLite] and [LeadStorage.execute_insert]: an [int]
    outside 64 bits, a [str] that does not encode as UTF-8 or goes over the
    length limit, a table with no rowid left.  The database file itself is
    one SQLite can read and write: a locked or read-only file and a full
    disk are outside the model. *)

From stdpp Require Import gmap strings list.
From Stdlib Require Import ZArith NArith Ascii String Decimal Bool Lia.
From Stdlib Require Import Sorted.
Import ListNotations.

Open Scope Z_scope.

(** ** Python strings *)

(** A [str] is a list of code points. *)
Abbreviation pystr := (list N).

Module Py.

(** The bytes of a literal of this file, which is encoded as UTF-8. *)
Fixpoint bytes_of_string (s : string) : list N :=
  match s with
  | EmptyString => []
  | String a s' => N_of_ascii a :: bytes_of_string s'
  end.

(** UTF-8 decoding, used only to write [str] literals readably. *)
Fixpoint utf8_decode (bs : list N) : pystr :=
  match bs with
  | [] => []
  | b0 :: r0 =>
      if (b0 <? 128)%N then b0 :: utf8_decode r0
      else if (b0 <? 224)%N then
        match r0 with
        | b1 :: r1 =>
            N.lor (N.shiftl (N.land b0 31) 6) (N.land b1 63) :: utf8_decode r1
        | _ => []
        end
      else if (b0 <? 240)%N then
        match r0 with
        | b1 :: b2 :: r2 =>
            N.lor (N.shiftl (N.land b0 15) 12)
              (N.lor (N.shiftl (N.land b1 63) 6) (N.land b2 63))
            :: utf8_decode r2
        | _ => []
        end
      else
        match r0 with
        | b1 :: b2 :: b3 :: r3 =>
            N.lor (N.shiftl (N.land b0 7) 18)
              (N.lor (N.shiftl (N.land b1 63) 12)
                 (N.lor (N.shiftl (N.land b2 63) 6) (N.land b3 63)))
            :: utf8_decode r3
        | _ => []
        end
  end.

(** [str_lit "..."] is the Python literal with the same text. *)
Definition str_lit (s : string) : pystr := utf8_decode (bytes_of_string s).

(** [bool(s)] for a [str]: non-empty. *)
Definition str_bool (s : pystr) : bool :=
  match s with [] => false | _ :: _ => true end.

(** [bool(l)] for a [list]: non-empty. *)
Definition list_bool {A} (l : list A) : bool :=
  match l with [] => false | _ :: _ => true end.

Fixpoint lstrip_with (sp : N -> bool) (s : pystr) : pystr :=
  match s with
  | [] => []
  | c :: s' => if sp c then lstrip_with sp s' else s
  end.

Definition rstrip_with (sp : N -> bool) (s : pystr) : pystr :=
  List.rev (lstrip_with sp (List.rev s)).

(** [s.strip()] for the whitespace predicate [sp]. *)
Definition strip_with (sp : N -> bool) (s : pystr) : pystr :=
  rstrip_with sp (lstrip_with sp s).

(** [s.startswith(p)]. *)
Fixpoint startswith (s p : pystr) : bool :=
  match p, s with
  | [], _ => true
  | _ :: _, [] => false
  | a :: p', b :: s' => (a =? b)%N && startswith s' p'
  end.

(** [sub in s]: [sub] occurs in [s] as a contiguous run of code points. *)
Fixpoint str_in (sub s : pystr) : bool :=
  startswith s sub ||
  match s with
  | [] => false
  | _ :: s' => str_in sub s'
  end.

(** [sep.join(parts)]. *)
Fixpoint join (sep : pystr) (parts : list pystr) : pystr :=
  match parts with
  | [] => []
  | [p] => p
  | p :: rest => p ++ sep ++ join sep rest
  end.

Fixpoint digits (d : Decimal.uint) : pystr :=
  match d with
  | Nil => []
  | D0 d' => 48%N :: digits d'
  | D1 d' => 49%N :: digits d'
  | D2 d' => 50%N :: digits d'
  | D3 d' => 51%N :: digits d'
  | D4 d' => 52%N :: digits d'
  | D5 d' => 53%N :: digits d'
  | D6 d' => 54%N :: digits d'
  | D7 d' => 55%N :: digits d'
  | D8 d' => 56%N :: digits d'
  | D9 d' => 57%N :: digits d'
  end.

(** [str(n)] for a length. *)
Definition str_of_nat (n : nat) : pystr := digits (Nat.to_uint n).

(** [str(z)] for an [int]. *)
Definition str_of_int (z : Z) : pystr :=
  match Z.to_int z with
  | Decimal.Pos d => digits d
  | Decimal.Neg d => 45%N :: digits d
  end.

(** [any(tok in s for tok in toks)]. *)
Definition any_in (toks : list pystr) (s : pystr) : bool :=
  existsb (fun tok => str_in tok s) toks.

(** The exceptions the modelled code can raise. *)
Inductive exn :=
  | KeyError (key : string)
  | TypeError
  | ValueError
  | OverflowError
  | UnicodeEncodeError
  | IntegrityError
  | ProgrammingError
  | DataError
  | OperationalError.

(** The outcome of a call: a value or a raised exception. *)
Inductive result (A : Type) :=
  | Returned (a : A)
  | Raised (e : exn).
Arguments Returned {A} a.
Arguments Raised {A} e.

Definition bind {A B} (r : result A) (k : A -> result B) : result B :=
  match r with
  | Returned a => k a
  | Raised e => Raised e
  end.

(** [s.encode("utf-8")]: the code points U+D800 to U+DFFF have no
    encoding, and the call raises [UnicodeEncodeError] on a [str] that
    holds one ([None] here).  A [str] holds no code point above
    U+10FFFF. *)
Definition utf8_char (c : N) : option (list N) :=
  let cont (sh : N) := N.lor 128 (N.land (N.shiftr c sh) 63) in
  if (c <? 128)%N then Some [c]
  else if (c <? 2048)%N then Some [N.lor 192 (N.shiftr c 6); cont 0%N]
  else if (c <? 55296)%N || ((57343 <? c) && (c <? 65536))%N
  then Some [N.lor 224 (N.shiftr c 12); cont 6%N; cont 0%N]
  else if (65536 <=? c)%N && (c <? 1114112)%N
  then Some [N.lor 240 (N.shiftr c 18); cont 12%N; cont 6%N; cont 0%N]
  else None.

Fixpoint utf8_encode (s : pystr) : option (list N) :=
  match s with
  | [] => Some []
  | c :: s' =>
      match utf8_char c, utf8_encode s' with
      | Some b, Some bs => Some (b ++ bs)
      | _, _ => None
      end
  end.

(** The scalar values of a JSON document after [json.load]: [None],
    [bool], [int] and [str]. *)
Inductive value :=
  | VNone
  | VBool (b : bool)
  | VInt (z : Z)
  | VStr (s : pystr).

(** [bool(v)]. *)
Definition truthy (v : value) : bool :=
  match v with
  | VNone => false
  | VBool b => b
  | VInt z => negb (z =? 0)
  | VStr s => str_bool s
  end.

(** [str(v)]. *)
Definition str_of (v : value) : pystr :=
  match v with
  | VNone => str_lit "None"
  | VBool true => str_lit "True"
  | VBool false => str_lit "False"
  | VInt z => str_of_int z
  | VStr s => s
  end.

End Py.

(** [py "..."] reads like the literal in the source. *)
Abbreviation py := Py.str_lit.

(** ** What the code takes from the Python runtime *)

Class PyRuntime := {
  (** [datetime.datetime] values. *)
  datetime : Type;
  (** [c.isspace()] for one code point: what [str.strip] removes. *)
  isspace : N -> bool;
  (** [s.lower()]. *)
  str_lower : pystr -> pystr;
  str_lower_empty : str_lower [] = [];
  (** [re.compile(pattern, re.IGNORECASE if ignorecase else 0).search(s)
      is not None]. *)
  re_search : string -> bool -> pystr -> bool;
  (** [hashlib.sha256(b).hexdigest()] for the bytes [b]. *)
  sha256_hexdigest : list N -> pystr;
  (** [d.isoformat()]. *)
  isoformat : datetime -> pystr;
  (** [int(s)] for a [str]: [None] when it raises [ValueError]. *)
  int_of_str : pystr -> option Z;
}.

Section Builtins.
Context `{rt : PyRuntime}.

(** [s.strip()]. *)
Definition str_strip (s : pystr) : pystr := Py.strip_with isspace s.

(** [int(v)]: [int(None)] raises [TypeError], [int(True)] is [1], a
    [str] is parsed by the runtime. *)
Definition py_int (v : Py.value) : Py.result Z :=
  match v with
  | Py.VNone => Py.Raised Py.TypeError
  | Py.VBool b => Py.Returned (Z.b2z b)
  | Py.VInt z => Py.Returned z
  | Py.VStr s =>
      match int_of_str s with
      | Some z => Py.Returned z
      | None => Py.Raised Py.ValueError
      end
  end.

End Builtins.

(** [d.get(key)]: [None] when the key is absent. *)
Definition dict_get (d : gmap string Py.value) (key : string) : Py.value :=
  default Py.VNone (d !! key).

(** [d.get(key, dflt)]. *)
Definition dict_get_or {V} (d : gmap string V) (key : string) (dflt : V) : V :=
  default dflt (d !! key).

(** ** The configuration document

    [load_config] returns a dict with the three sections [notification],
    [keywords] and [rules]; [keywords] maps a category to a JSON array. *)
Record Config := {
  notification : gmap string Py.value;
  keywords : gmap string (list Py.value);
  rules : gmap string Py.value;
}.

(** ** [LeadDecision] *)
Record LeadDecision := {
  is_lead : bool;
  reasons : list pystr;
  category : pystr;
}.

(** ** [LeadAnalyzer] *)
Module LeadAnalyzer.

Record t := {
  buy_keywords : list pystr;
  sell_keywords : list pystr;
  urgency_keywords : list pystr;
  realtor_keywords : list pystr;
  detail_keywords : list pystr;
  require_explicit_intent : bool;
  min_details_required : Z;
  contact_bonus : bool;
}.

(** [PHONE_REGEX] and [EMAIL_REGEX] (the latter compiled with
    [re.IGNORECASE]), and the two patterns [analyze] searches inline. *)
Definition PHONE_REGEX : string :=
  "(?:(?:\+7|7|8)[\s\-()]*)?(?:\d[\s\-()]*){10,11}".
Definition EMAIL_REGEX : string :=
  "[\w.+\-]+@[\w\-]+\.[\w.\-]+".
Definition BUDGET_PATTERN : string :=
  "\b\d{2,}\s?(?:₽|руб|рублей|р\.)".
Definition AREA_PATTERN : string :=
  "\b\d{1,4}\s?(?:м²|кв\.м|м2)\b".

Section WithRuntime.
Context `{rt : PyRuntime}.

(** [[v.strip().lower() for v in values if isinstance(v, str) and v.strip()]] *)
Fixpoint _normalize_list (values : list Py.value) : list pystr :=
  match values with
  | [] => []
  | Py.VStr v :: rest =>
      if Py.str_bool (str_strip v)
      then str_lower (str_strip v) :: _normalize_list rest
      else _normalize_list rest
  | _ :: rest => _normalize_list rest
  end.

(** [LeadAnalyzer(config)]: raises when [int(...)] does. *)
Definition __init__ (config : Config) : Py.result t :=
  let keywords := keywords config in
  let rules := rules config in
  Py.bind
    (py_int (dict_get_or rules "min_details_required" (Py.VInt 1)))
    (fun min_details =>
       Py.Returned
         {| buy_keywords := _normalize_list (dict_get_or keywords "buy" []);
            sell_keywords := _normalize_list (dict_get_or keywords "sell" []);
            urgency_keywords :=
              _normalize_list (dict_get_or keywords "urgency_interest" []);
            realtor_keywords :=
              _normalize_list (dict_get_or keywords "realtor_help" []);
            detail_keywords :=
              _normalize_list (dict_get_or keywords "details" []);
            require_explicit_intent :=
              Py.truthy
                (dict_get_or rules "require_explicit_intent" (Py.VBool true));
            min_details_required :=
              if min_details <? 0 then 0 else min_details;
            contact_bonus :=
              Py.truthy (dict_get_or rules "contact_bonus" (Py.VBool true));
         |}).

(** [(text or "").strip().lower()]; [text] is [None] or a [str]. *)
Definition text_or_empty (text : option pystr) : pystr :=
  match text with
  | Some s => if Py.str_bool s then s else []
  | None => []
  end.

Definition clean (text : option pystr) : pystr :=
  str_lower (str_strip (text_or_empty text)).

(** [[kw for kw in kws if kw in cleaned]] *)
Definition hits (kws : list pystr) (cleaned : pystr) : list pystr :=
  List.filter (fun kw => Py.str_in kw cleaned) kws.

Definition buy_hits (self : t) cleaned := hits (buy_keywords self) cleaned.
Definition sell_hits (self : t) cleaned := hits (sell_keywords self) cleaned.
Definition urgency_hits (self : t) cleaned :=
  hits (urgency_keywords self) cleaned.
Definition realtor_hits (self : t) cleaned :=
  hits (realtor_keywords self) cleaned.
Definition detail_hits (self : t) cleaned :=
  hits (detail_keywords self) cleaned.

Definition has_budget (cleaned : pystr) : bool :=
  re_search BUDGET_PATTERN false cleaned
  || Py.any_in [py "бюджет"; py "₽"; py "руб"; py "рублей"] cleaned.

Definition has_location (cleaned : pystr) : bool :=
  Py.any_in
    [py "район"; py "метро"; py "ул."; py "улица"; py "город"; py "жк";
     py "этаж"] cleaned.

Definition has_area (cleaned : pystr) : bool :=
  re_search AREA_PATTERN false cleaned
  || Py.any_in [py "площадь"; py "м²"; py "кв.м"] cleaned.

Definition has_contact (cleaned : pystr) : bool :=
  re_search PHONE_REGEX false cleaned || re_search EMAIL_REGEX true cleaned.

(** [sum([has_budget, has_location, has_area])] *)
Definition details_score (cleaned : pystr) : Z :=
  Z.b2z (has_budget cleaned) + Z.b2z (has_location cleaned)
  + Z.b2z (has_area cleaned).

Definition intent_hits (self : t) cleaned : list pystr :=
  buy_hits self cleaned ++ sell_hits self cleaned.

(** The [if]/[elif] chain that sets [category]. *)
Definition category_of (self : t) (cleaned : pystr) : pystr :=
  let buy := Py.list_bool (buy_hits self cleaned) in
  let sell := Py.list_bool (sell_hits self cleaned) in
  if buy && negb sell then py "buy"
  else if sell && negb buy then py "sell"
  else if buy && sell then py "mixed"
  else if Py.list_bool (realtor_hits self cleaned) then py "realtor_help"
  else py "none".

(** [if c: reasons.append(tag)] *)
Definition append_if (c : bool) (tag : pystr) (reasons : list pystr) :=
  if c then reasons ++ [tag] else reasons.

(** [f"{prefix}{len(hits)}"] *)
Definition count_tag (prefix : pystr) (hs : list pystr) : pystr :=
  prefix ++ Py.str_of_nat (List.length hs).

(** The block that fills [reasons] before the gates. *)
Definition reasons_of (self : t) (cleaned : pystr) : list pystr :=
  let reasons := [] in
  let reasons :=
    append_if (Py.list_bool (buy_hits self cleaned))
      (count_tag (py "buy_keywords:") (buy_hits self cleaned)) reasons in
  let reasons :=
    append_if (Py.list_bool (sell_hits self cleaned))
      (count_tag (py "sell_keywords:") (sell_hits self cleaned)) reasons in
  let reasons :=
    append_if (Py.list_bool (urgency_hits self cleaned))
      (count_tag (py "urgency_keywords:") (urgency_hits self cleaned))
      reasons in
  let reasons :=
    append_if (Py.list_bool (realtor_hits self cleaned))
      (count_tag (py "realtor_keywords:") (realtor_hits self cleaned))
      reasons in
  let reasons :=
    append_if (Py.list_bool (detail_hits self cleaned))
      (count_tag (py "detail_keywords:") (detail_hits self cleaned))
      reasons in
  let reasons := append_if (has_budget cleaned) (py "has_budget") reasons in
  let reasons :=
    append_if (has_location cleaned) (py "has_location") reasons in
  let reasons := append_if (has_area cleaned) (py "has_area") reasons in
  let reasons := append_if (has_contact cleaned) (py "has_contact") reasons in
  reasons.

(** [if c: lead_score += n] *)
Definition add_if (c : bool) (n : Z) (lead_score : Z) : Z :=
  if c then lead_score + n else lead_score.

(** The block that computes [lead_score] after the gates. *)
Definition lead_score (self : t) (cleaned : pystr) : Z :=
  let lead_score := 0 in
  let lead_score :=
    add_if (Py.list_bool (intent_hits self cleaned)) 2 lead_score in
  let lead_score :=
    add_if (0 <? details_score cleaned) (details_score cleaned) lead_score in
  let lead_score :=
    add_if (Py.list_bool (urgency_hits self cleaned)) 1 lead_score in
  let lead_score :=
    add_if (Py.list_bool (realtor_hits self cleaned)) 1 lead_score in
  let lead_score :=
    add_if (contact_bonus self && has_contact cleaned) 1 lead_score in
  lead_score.

(** The condition of the first early return after [reasons] is filled. *)
Definition gate1_rejects (self : t) (cleaned : pystr) : bool :=
  require_explicit_intent self
  && negb (Py.list_bool (intent_hits self cleaned))
  && negb (Py.list_bool (realtor_hits self cleaned)).

(** The condition of the second early return. *)
Definition gate2_rejects (self : t) (cleaned : pystr) : bool :=
  (details_score cleaned <? min_details_required self)
  && negb (has_contact cleaned).

Definition analyze (self : t) (text : option pystr) : LeadDecision :=
  let cleaned := clean text in
  if negb (Py.str_bool cleaned) then
    {| is_lead := false; reasons := [py "empty_message"];
       category := py "none" |}
  else
    let category := category_of self cleaned in
    let reasons := reasons_of self cleaned in
    if gate1_rejects self cleaned then
      {| is_lead := false; reasons := reasons ++ [py "no_intent"];
         category := category |}
    else if gate2_rejects self cleaned then
      {| is_lead := false; reasons := reasons ++ [py "insufficient_details"];
         category := category |}
    else
      {| is_lead := 3 <=? lead_score self cleaned; reasons := reasons;
         category := category |}.

(** The three decisions [analyze] can return for a text: the one of the
    empty text, the one of a gate that rejects with [tag], and the one of
    the scoring branch. *)
Definition empty_decision : LeadDecision :=
  {| is_lead := false; reasons := [py "empty_message"];
     category := py "none" |}.

Definition rejected (tag : pystr) (self : t) (cleaned : pystr)
  : LeadDecision :=
  {| is_lead := false;
     reasons := reasons_of self cleaned ++ [tag];
     category := category_of self cleaned |}.

Definition scored (self : t) (cleaned : pystr) : LeadDecision :=
  {| is_lead := 3 <=? lead_score self cleaned;
     reasons := reasons_of self cleaned;
     category := category_of self cleaned |}.

(** A reason that starts with neither [n] nor [i], as every tag assembled
    before the gates does. *)
Definition plain_tag (r : pystr) : Prop :=
  head r <> Some 110%N /\ head r <> Some 105%N.

End WithRuntime.
End LeadAnalyzer.

(** ** What [sqlite3] takes as the parameters of a statement

    The conversions of [sqlite3]'s parameter binding and the size of a
    record in SQLite's file format, which decide what an [INSERT] raises
    apart from the uniqueness constraint. *)
Module SQLite.

(** A parameter given for a [?]: [None], an [int] or a [str]. *)
Inductive value :=
  | Null
  | Integer (z : Z)
  | Text (s : pystr).

(** The largest rowid, the largest C [int], and SQLITE_MAX_LENGTH, the
    limit in bytes on a string and on a record. *)
Definition MAX_ROWID : Z := 9223372036854775807.
Definition INT_MAX : Z := 2147483647.
Definition MAX_LENGTH : Z := 1000000000.

(** Binding one parameter: an [int] outside the signed 64-bit range raises
    [OverflowError]; a [str] is encoded as UTF-8, which raises
    [UnicodeEncodeError] on a lone surrogate, then [OverflowError] over
    [INT_MAX] bytes and [DataError] over the length limit.  (When the
    first parameter fails right after a statement SQLite refused, CPython
    from 3.11 on can report that statement's error again in place of
    [OverflowError]; the connection here carries no such pending error.) *)
Definition bind_param (v : value) : Py.result unit :=
  match v with
  | Null => Py.Returned tt
  | Integer z =>
      if (- MAX_ROWID - 1 <=? z) && (z <=? MAX_ROWID) then Py.Returned tt
      else Py.Raised Py.OverflowError
  | Text s =>
      match Py.utf8_encode s with
      | None => Py.Raised Py.UnicodeEncodeError
      | Some bytes =>
          if INT_MAX <? Z.of_nat (List.length bytes)
          then Py.Raised Py.OverflowError
          else if MAX_LENGTH <? Z.of_nat (List.length bytes)
          then Py.Raised Py.DataError
          else Py.Returned tt
      end
  end.

(** The parameters are bound in order: the first that fails decides the
    exception. *)
Fixpoint bind_parameters (vs : list value) : Py.result unit :=
  match vs with
  | [] => Py.Returned tt
  | v :: rest => Py.bind (bind_param v) (fun _ => bind_parameters rest)
  end.

(** The bytes of a variable-length integer. *)
Definition varint_len (v : Z) : Z :=
  if v <? 128 then 1
  else if v <? 16384 then 2
  else if v <? 2097152 then 3
  else if v <? 268435456 then 4
  else if v <? 34359738368 then 5
  else if v <? 4398046511104 then 6
  else if v <? 562949953421312 then 7
  else if v <? 72057594037927936 then 8
  else 9.

(** The bytes an integer takes in a record: none for [0] and [1], which
    have serial types of their own. *)
Definition int_size (z : Z) : Z :=
  if (z =? 0) || (z =? 1) then 0
  else
    let u := if z <? 0 then - z - 1 else z in
    if u <=? 127 then 1
    else if u <=? 32767 then 2
    else if u <=? 8388607 then 3
    else if u <=? 2147483647 then 4
    else if u <=? 140737488355327 then 6
    else 8.

(** The bytes of a bound [str]. *)
Definition text_size (s : pystr) : Z :=
  match Py.utf8_encode s with
  | Some bytes => Z.of_nat (List.length bytes)
  | None => 0
  end.

(** The bytes of the serial type of a column in the record header: a text
    of [n] bytes has serial type [2 * n + 13]. *)
Definition serial_type_len (v : value) : Z :=
  match v with
  | Text s => varint_len (2 * text_size s + 13)
  | _ => 1
  end.

Definition data_size (v : value) : Z :=
  match v with
  | Null => 0
  | Integer z => int_size z
  | Text s => text_size s
  end.

(** The header holds its own size as a variable-length integer. *)
Definition header_size (types : Z) : Z :=
  if types <=? 126 then types + 1
  else
    let n := varint_len types in
    if n <? varint_len (types + n) then types + n + 1 else types + n.

Definition total (zs : list Z) : Z := fold_right Z.add 0 zs.

Definition record_size (cols : list value) : Z :=
  header_size (total (map serial_type_len cols)) + total (map data_size cols).

(** SQLITE_TOOBIG, which [sqlite3] raises as [DataError]. *)
Definition too_big (cols : list value) : bool :=
  MAX_LENGTH <? record_size cols.

End SQLite.

(** ** [LeadStorage] *)
Module LeadStorage.

(** The columns of table [leads] other than [id]. *)
Record row := {
  message_id : Z;
  chat_id : Z;
  user_id : option Z;
  chat_title : pystr;
  message_text : pystr;
  message_hash : pystr;
  category : pystr;
  status : pystr;
  reasons : pystr;
  created_at : pystr;
}.

(** The database file: the rows of [leads] in insertion order, each under
    its [id], and the AUTOINCREMENT counter. *)
Record database := {
  leads : list (Z * row);
  last_id : Z;
}.

(** A [LeadStorage]: its connection and whether it is still open. *)
Record t := {
  conn_open : bool;
  conn : database;
}.

(** [CREATE TABLE IF NOT EXISTS leads]: a file without the table gets an
    empty one, an existing table is left as it is. *)
Definition _init_schema (file : option database) : database :=
  match file with
  | Some d => d
  | None => {| leads := []; last_id := 0 |}
  end.

(** [LeadStorage(db_path)], for the content of the file at [db_path]. *)
Definition __init__ (file : option database) : t :=
  {| conn_open := true; conn := _init_schema file |}.

Definition same_key (chat msg : Z) (r : row) : bool :=
  (chat_id r =? chat) && (message_id r =? msg).

(** Whether [UNIQUE(chat_id, message_id)] forbids a row with this key. *)
Definition key_taken (d : database) (chat msg : Z) : bool :=
  existsb (fun ir => same_key chat msg ir.2) (leads d).

(** [SELECT * FROM leads WHERE chat_id = ? AND message_id = ?], without
    the [id] column. *)
Definition select_key (d : database) (chat msg : Z) : list row :=
  List.filter (same_key chat msg) (map snd (leads d)).

(** The [id] AUTOINCREMENT gives the next row: one above the counter and
    above every [id] of the table. *)
Definition new_rowid (d : database) : Z :=
  fold_right Z.max (last_id d) (map fst (leads d)) + 1.

(** The rows the table can still take before its ids run out. *)
Definition room (d : database) : Z := SQLite.MAX_ROWID + 1 - new_rowid d.

(** A new row at the end of the table, under the next [id]. *)
Definition append_row (d : database) (r : row) : database :=
  let new_id := new_rowid d in
  {| leads := leads d ++ [(new_id, r)]; last_id := new_id |}.

(** The ten values of the [INSERT] statement, in the order of its [?]. *)
Definition parameters (r : row) : list SQLite.value :=
  [ SQLite.Integer (message_id r);
    SQLite.Integer (chat_id r);
    match user_id r with
    | Some z => SQLite.Integer z
    | None => SQLite.Null
    end;
    SQLite.Text (chat_title r);
    SQLite.Text (message_text r);
    SQLite.Text (message_hash r);
    SQLite.Text (category r);
    SQLite.Text (status r);
    SQLite.Text (reasons r);
    SQLite.Text (created_at r) ].

(** [self.conn.execute("INSERT INTO leads (...) VALUES (...)", r)].  A
    closed connection raises [ProgrammingError]; then the parameters are
    bound; then the statement runs: it takes the next [id]
    ([OperationalError] when none is left), makes the key of
    [idx_leads_status] ([DataError] when too big; the keys of the other
    two indexes hold integers only), checks [UNIQUE(chat_id, message_id)]
    ([IntegrityError]) and makes the record of the row, in which the [id]
    column is null ([DataError] when too big).  Every exception leaves the
    table as it is. *)
Definition execute_insert (self : t) (r : row) : Py.result t :=
  if negb (conn_open self) then Py.Raised Py.ProgrammingError
  else
    match SQLite.bind_parameters (parameters r) with
    | Py.Raised e => Py.Raised e
    | Py.Returned _ =>
        if SQLite.MAX_ROWID <? new_rowid (conn self)
        then Py.Raised Py.OperationalError
        else if SQLite.too_big
                  [SQLite.Text (status r);
                   SQLite.Integer (new_rowid (conn self))]
        then Py.Raised Py.DataError
        else if key_taken (conn self) (chat_id r) (message_id r)
        then Py.Raised Py.IntegrityError
        else if SQLite.too_big (SQLite.Null :: parameters r)
        then Py.Raised Py.DataError
        else
          Py.Returned
            {| conn_open := true; conn := append_row (conn self) r |}
    end.

(** [self.conn.commit()]. *)
Definition commit (self : t) : Py.result t :=
  if conn_open self then Py.Returned self
  else Py.Raised Py.ProgrammingError.

(** [self.conn.close()]. *)
Definition close (self : t) : t :=
  {| conn_open := false; conn := conn self |}.

Section WithRuntime.
Context `{rt : PyRuntime}.

(** The tuple bound to the [INSERT] statement, as the row it makes. *)
Definition values (message_id chat_id : Z) (user_id : option Z)
    (chat_title message_text message_hash category status : pystr)
    (reasons : list pystr) (created_at : datetime) : row :=
  {| message_id := message_id;
     chat_id := chat_id;
     user_id := user_id;
     chat_title := chat_title;
     message_text := message_text;
     message_hash := message_hash;
     category := category;
     status := status;
     reasons := Py.join (py ",") reasons;
     created_at := isoformat created_at |}.

(** [sha256(message_text.strip().lower().encode("utf-8")).hexdigest()],
    which raises [UnicodeEncodeError] when the text does not encode. *)
Definition hash_text (message_text : pystr) : Py.result pystr :=
  match Py.utf8_encode (str_lower (str_strip message_text)) with
  | Some bytes => Py.Returned (sha256_hexdigest bytes)
  | None => Py.Raised Py.UnicodeEncodeError
  end.

(** [insert_message]: the value it returns or the exception it lets
    through, and the storage afterwards.  The hash is computed before the
    [try], and [IntegrityError] is the one exception the [try] catches. *)
Definition insert_message (self : t) (message_id chat_id : Z)
    (user_id : option Z) (chat_title message_text category status : pystr)
    (reasons : list pystr) (created_at : datetime) : Py.result bool * t :=
  match hash_text message_text with
  | Py.Raised e => (Py.Raised e, self)
  | Py.Returned message_hash =>
      match
        Py.bind
          (execute_insert self
             (values message_id chat_id user_id chat_title message_text
                message_hash category status reasons created_at))
          commit
      with
      | Py.Returned self' => (Py.Returned true, self')
      | Py.Raised Py.IntegrityError => (Py.Returned false, self)
      | Py.Raised e => (Py.Raised e, self)
      end
  end.

(** The keyword arguments of one [insert_message] call. *)
Record call := {
  c_message_id : Z;
  c_chat_id : Z;
  c_user_id : option Z;
  c_chat_title : pystr;
  c_message_text : pystr;
  c_category : pystr;
  c_status : pystr;
  c_reasons : list pystr;
  c_created_at : datetime;
}.

Definition insert (self : t) (c : call) : Py.result bool * t :=
  insert_message self (c_message_id c) (c_chat_id c) (c_user_id c)
    (c_chat_title c) (c_message_text c) (c_category c) (c_status c)
    (c_reasons c) (c_created_at c).

(** The row a call stores when it returns [True]: its values and the hash
    of its text (which has one whenever the call gets as far as the
    statement). *)
Definition row_of (c : call) : row :=
  values (c_message_id c) (c_chat_id c) (c_user_id c) (c_chat_title c)
    (c_message_text c)
    match hash_text (c_message_text c) with
    | Py.Returned message_hash => message_hash
    | Py.Raised _ => []
    end
    (c_category c) (c_status c) (c_reasons c) (c_created_at c).

(** Whether SQLite takes the values of a call: the text has a hash, every
    parameter binds, and the record of the row is within the length
    limit. *)
Definition storable (c : call) : bool :=
  match hash_text (c_message_text c),
        SQLite.bind_parameters (parameters (row_of c)) with
  | Py.Returned _, Py.Returned _ =>
      negb (SQLite.too_big (SQLite.Null :: parameters (row_of c)))
  | _, _ => false
  end.

(** A sequence of [insert_message] calls on one storage: what each call
    gave, and the storage at the end. *)
Fixpoint run (self : t) (calls : list call) : list (Py.result bool) * t :=
  match calls with
  | [] => ([], self)
  | c :: rest =>
      let '(r, self') := insert self c in
      let '(rs, self'') := run self' rest in
      (r :: rs, self'')
  end.

(** Calls [a] then [b] on [self], followed by the calls [later]: both
    return [True], each row is the one stored under its key at the end, and
    the two rows carry the same [message_hash], the digest of the UTF-8
    bytes of the stripped, lowercased text. *)
Definition both_stored (self : t) (a b : call) (later : list call) : Prop :=
  let s1 := (insert self a).2 in
  let s2 := (insert s1 b).2 in
  let s3 := (run s2 later).2 in
  (insert self a).1 = Py.Returned true
  /\ (insert s1 b).1 = Py.Returned true
  /\ select_key (conn s3) (c_chat_id a) (c_message_id a) = [row_of a]
  /\ select_key (conn s3) (c_chat_id b) (c_message_id b) = [row_of b]
  /\ message_hash (row_of a) = message_hash (row_of b)
  /\ (exists bytes,
        Py.utf8_encode (str_lower (str_strip (c_message_text a))) = Some bytes
        /\ message_hash (row_of a) = sha256_hexdigest bytes).

End WithRuntime.
End LeadStorage.

(** ** The notification target *)

(** [int | str] *)
Inductive target :=
  | TargetId (z : Z)
  | TargetName (s : pystr).

Section Notification.
Context `{rt : PyRuntime}.

Definition is_str (v : Py.value) : bool :=
  match v with Py.VStr _ => true | _ => false end.

Definition is_none (v : Py.value) : bool :=
  match v with Py.VNone => true | _ => false end.

(** [validate_runtime_config]: returns or raises [ValueError]. *)
Definition validate_runtime_config (config : Config) : Py.result unit :=
  let notification := notification config in
  let target_id := dict_get notification "target_telegram_id" in
  let target_bot_username := dict_get notification "target_bot_username" in
  if is_none target_id && negb (Py.truthy target_bot_username) then
    Py.Raised Py.ValueError
  else
    let int_ok :=
      if negb (is_none target_id) then
        match py_int target_id with
        | Py.Returned _ => true
        | Py.Raised _ => false
        end
      else true in
    if negb int_ok then Py.Raised Py.ValueError
    else if Py.truthy target_bot_username then
      if negb (is_str target_bot_username)
         || negb (Py.startswith (str_strip (Py.str_of target_bot_username))
                    (py "@"))
      then Py.Raised Py.ValueError
      else Py.Returned tt
    else Py.Returned tt.

Definition resolve_notification_target (config : Config)
  : Py.result target :=
  let notification := notification config in
  if Py.truthy (dict_get notification "target_bot_username") then
    match notification !! "target_bot_username" with
    | Some v => Py.Returned (TargetName (str_strip (Py.str_of v)))
    | None => Py.Raised (Py.KeyError "target_bot_username")
    end
  else
    match notification !! "target_telegram_id" with
    | Some v => Py.bind (py_int v) (fun z => Py.Returned (TargetId z))
    | None => Py.Raised (Py.KeyError "target_telegram_id")
    end.

End Notification.

(** ** A reference runtime

    An executable [PyRuntime] used to run the code on concrete inputs: the
    Unicode tables restricted to Latin-1 and Cyrillic, a small regular
    expression matcher for the four patterns of [LeadAnalyzer], SHA-256,
    and UTC timestamps. *)
Module Reference.

Definition between (lo hi c : N) : bool := ((lo <=? c) && (c <=? hi))%N.

(** [str.isspace] for one code point. *)
Definition isspace (c : N) : bool :=
  between 9 13 c || between 28 32 c || (c =? 133)%N || (c =? 160)%N
  || (c =? 5760)%N || between 8192 8202 c || (c =? 8232)%N
  || (c =? 8233)%N || (c =? 8239)%N || (c =? 8287)%N || (c =? 12288)%N.

(** [c.lower()] for the capitals of ASCII, Latin-1 and the Cyrillic block
    U+0400 to U+042F; every other code point is left as it is. *)
Definition lower_char (c : N) : N :=
  if between 65 90 c then (c + 32)%N
  else if between 192 222 c && negb (c =? 215)%N then (c + 32)%N
  else if between 1024 1039 c then (c + 80)%N
  else if between 1040 1071 c then (c + 32)%N
  else c.

Definition str_lower (s : pystr) : pystr := map lower_char s.

(** [\d] for the ASCII digits; the digits of other scripts are not
    counted. *)
Definition isdigit (c : N) : bool := between 48 57 c.

(** [\w]: the letters and digits of ASCII, Latin-1 and Cyrillic, and the
    underscore. *)
Definition isword (c : N) : bool :=
  isdigit c || between 65 90 c || between 97 122 c || (c =? 95)%N
  || (c =? 170)%N || (c =? 178)%N || (c =? 179)%N || (c =? 181)%N
  || (c =? 185)%N || (c =? 186)%N
  || (between 192 255 c && negb (c =? 215)%N && negb (c =? 247)%N)
  || between 1024 1153 c || between 1162 1327 c.

(** Regular expressions, as far as the four patterns need them. *)
Inductive regex :=
  | Chr (p : N -> bool)
  | Lit (s : pystr)
  | Cat (a b : regex)
  | Alt (a b : regex)
  | Rep (a : regex) (lo : nat) (hi : option nat)
  | WordBoundary.

(** A position in the subject: the code point before it and the rest. *)
Definition position : Type := option N * pystr.

Definition word_before (p : position) : bool :=
  match p.1 with Some c => isword c | None => false end.

Definition word_after (p : position) : bool :=
  match p.2 with c :: _ => isword c | [] => false end.

Fixpoint advance (l : pystr) (p : position) : position :=
  match l, p.2 with
  | _ :: l', c :: s' => advance l' (Some c, s')
  | _, _ => p
  end.

Fixpoint iter_exact (f : position -> list position) (n : nat) (p : position)
  : list position :=
  match n with
  | O => [p]
  | S n' => flat_map (iter_exact f n') (f p)
  end.

Fixpoint iter_upto (f : position -> list position) (n : nat) (p : position)
  : list position :=
  match n with
  | O => [p]
  | S n' => p :: flat_map (iter_upto f n') (f p)
  end.

(** The positions at which a match of [r] starting at [p] can end. *)
Fixpoint ends (r : regex) (p : position) : list position :=
  match r with
  | Chr q =>
      match p.2 with
      | c :: s' => if q c then [(Some c, s')] else []
      | [] => []
      end
  | Lit l => if Py.startswith p.2 l then [advance l p] else []
  | Cat a b => flat_map (ends b) (ends a p)
  | Alt a b => ends a p ++ ends b p
  | Rep a lo hi =>
      let more :=
        match hi with
        | Some h => (h - lo)%nat
        | None => List.length p.2
        end in
      flat_map (iter_upto (ends a) more) (iter_exact (ends a) lo p)
  | WordBoundary => if xorb (word_before p) (word_after p) then [p] else []
  end.

(** [re.search]: a match starting at some position. *)
Fixpoint search_from (r : regex) (prev : option N) (s : pystr) : bool :=
  Py.list_bool (ends r (prev, s)) ||
  match s with
  | c :: s' => search_from r (Some c) s'
  | [] => false
  end.

Definition digit : regex := Chr isdigit.
Definition opt (r : regex) : regex := Rep r 0 (Some 1%nat).
Definition star (r : regex) : regex := Rep r 0 None.
Definition plus (r : regex) : regex := Rep r 1 None.
Definition one_of (l : pystr) : N -> bool :=
  fun c => existsb (N.eqb c) l.

(** [[\s\-()]] *)
Definition separator (c : N) : bool := isspace c || one_of (py "-()") c.

Definition budget_regex : regex :=
  Cat WordBoundary
    (Cat (Rep digit 2 None)
       (Cat (opt (Chr isspace))
          (Alt (Lit (py "₽"))
             (Alt (Lit (py "руб"))
                (Alt (Lit (py "рублей")) (Lit (py "р."))))))).

Definition area_regex : regex :=
  Cat WordBoundary
    (Cat (Rep digit 1 (Some 4%nat))
       (Cat (opt (Chr isspace))
          (Cat (Alt (Lit (py "м²")) (Alt (Lit (py "кв.м")) (Lit (py "м2"))))
             WordBoundary))).

Definition phone_regex : regex :=
  Cat (opt (Cat (Alt (Lit (py "+7")) (Alt (Lit (py "7")) (Lit (py "8"))))
             (star (Chr separator))))
    (Rep (Cat digit (star (Chr separator))) 10 (Some 11%nat)).

Definition email_regex : regex :=
  Cat (plus (Chr (fun c => isword c || one_of (py ".+-") c)))
    (Cat (Lit (py "@"))
       (Cat (plus (Chr (fun c => isword c || one_of (py "-") c)))
          (Cat (Lit (py "."))
             (plus (Chr (fun c => isword c || one_of (py ".-") c)))))).

(** The patterns the matcher knows; the case-insensitive flag changes
    nothing for [EMAIL_REGEX], whose classes are closed under case. *)
Definition re_search (pattern : string) (ignorecase : bool) (s : pystr)
  : bool :=
  if String.eqb pattern LeadAnalyzer.BUDGET_PATTERN
  then search_from budget_regex None s
  else if String.eqb pattern LeadAnalyzer.AREA_PATTERN
  then search_from area_regex None s
  else if String.eqb pattern LeadAnalyzer.PHONE_REGEX
  then search_from phone_regex None s
  else if String.eqb pattern LeadAnalyzer.EMAIL_REGEX
  then search_from email_regex None s
  else false.

(** *** SHA-256 (FIPS 180-4) on 32-bit words held in [N] *)
Module SHA256.

Definition mask32 : N := N.ones 32.
Definition add32 (x y : N) : N := N.land (x + y) mask32.
Definition rotr (n x : N) : N :=
  N.lor (N.shiftr x n) (N.land (N.shiftl x (32 - n)) mask32).
Definition ch (x y z : N) : N :=
  N.lxor (N.land x y) (N.land (N.lxor x mask32) z).
Definition maj (x y z : N) : N :=
  N.lxor (N.lxor (N.land x y) (N.land x z)) (N.land y z).
Definition bsig0 (x : N) : N := N.lxor (N.lxor (rotr 2 x) (rotr 13 x)) (rotr 22 x).
Definition bsig1 (x : N) : N := N.lxor (N.lxor (rotr 6 x) (rotr 11 x)) (rotr 25 x).
Definition ssig0 (x : N) : N := N.lxor (N.lxor (rotr 7 x) (rotr 18 x)) (N.shiftr x 3).
Definition ssig1 (x : N) : N := N.lxor (N.lxor (rotr 17 x) (rotr 19 x)) (N.shiftr x 10).

(** The first 64 primes. *)
Definition is_prime (n : nat) : bool :=
  forallb (fun d => negb (n mod d =? 0)%nat) (seq 2 (n - 2)).
Definition primes : list N :=
  map N.of_nat (List.filter is_prime (seq 2 310)).

(** The integer cube root, bit by bit from the top. *)
Definition cbrt (n : N) : N :=
  fold_left
    (fun r b =>
       let r' := N.lor r (N.shiftl 1 (N.of_nat b)) in
       if (r' * r' * r' <=? n)%N then r' else r)
    (List.rev (seq 0 40)) 0%N.

(** The round constants: fractional parts of the cube roots of the
    primes; the initial hash value: of the square roots of the first 8. *)
Definition K : list N := Eval vm_compute in
    map (fun p => N.land (cbrt (N.shiftl p 96)) mask32) primes.
Definition H0 : list N := Eval vm_compute in
    map (fun p => N.land (N.sqrt (N.shiftl p 64)) mask32) (firstn 8 primes).

Definition be_bytes (width : nat) (x : N) : list N :=
  map (fun i => N.land (N.shiftr x (8 * N.of_nat i)) 255)
    (List.rev (seq 0 width)).

Definition pad (msg : list N) : list N :=
  let len := List.length msg in
  let zeros := ((119 - len mod 64) mod 64)%nat in
  msg ++ [128%N] ++ repeat 0%N zeros ++ be_bytes 8 (8 * N.of_nat len).

Fixpoint be_words (bs : list N) : list N :=
  match bs with
  | b0 :: b1 :: b2 :: b3 :: rest =>
      N.lor (N.shiftl b0 24) (N.lor (N.shiftl b1 16) (N.lor (N.shiftl b2 8) b3))
      :: be_words rest
  | _ => []
  end.

(** The message schedule, newest word first. *)
Fixpoint schedule (n : nat) (w : list N) : list N :=
  match n with
  | O => w
  | S n' =>
      let at_ i := nth i w 0%N in
      schedule n'
        (add32 (add32 (ssig1 (at_ 1%nat)) (at_ 6%nat))
           (add32 (ssig0 (at_ 14%nat)) (at_ 15%nat)) :: w)
  end.

Definition round (v : list N) (kw : N * N) : list N :=
  match v with
  | [a; b; c; d; e; f; g; h] =>
      let t1 := add32 (add32 (add32 h (bsig1 e)) (ch e f g))
                  (add32 kw.1 kw.2) in
      let t2 := add32 (bsig0 a) (maj a b c) in
      [add32 t1 t2; a; b; c; add32 d t1; e; f; g]
  | _ => v
  end.

Definition compress (h : list N) (block : list N) : list N :=
  let w := List.rev (schedule 48 (List.rev block)) in
  map (fun xy => add32 xy.1 xy.2)
    (combine h (fold_left round (combine K w) h)).

Fixpoint blocks (n : nat) (ws : list N) : list (list N) :=
  match n with
  | O => []
  | S n' => firstn 16 ws :: blocks n' (skipn 16 ws)
  end.

Definition digest (msg : list N) : list N :=
  let ws := be_words (pad msg) in
  flat_map (be_bytes 4)
    (fold_left compress (blocks (List.length ws / 16) ws) H0).

Definition hex_digit (x : N) : N :=
  if (x <? 10)%N then (48 + x)%N else (87 + x)%N.

Definition hexdigest (msg : list N) : pystr :=
  flat_map (fun b => [hex_digit (N.shiftr b 4); hex_digit (N.land b 15)])
    (digest msg).

End SHA256.

(** A [datetime] in UTC, and its [isoformat()]. *)
Record datetime := {
  year : nat; month : nat; day : nat;
  hour : nat; minute : nat; second : nat;
}.

Definition zero_pad (width : nat) (n : nat) : pystr :=
  let d := Py.str_of_nat n in
  repeat 48%N (width - List.length d) ++ d.

Definition isoformat (d : datetime) : pystr :=
  zero_pad 4 (year d) ++ py "-" ++ zero_pad 2 (month d) ++ py "-"
  ++ zero_pad 2 (day d) ++ py "T" ++ zero_pad 2 (hour d) ++ py ":"
  ++ zero_pad 2 (minute d) ++ py ":" ++ zero_pad 2 (second d)
  ++ py "+00:00".

(** [int(s)] for an optional sign and ASCII digits between whitespace,
    with single underscores between digits. *)
Fixpoint well_grouped (after_digit : bool) (s : pystr) : bool :=
  match s with
  | [] => after_digit
  | c :: s' =>
      if isdigit c then well_grouped true s'
      else (c =? 95)%N && after_digit && well_grouped false s'
  end.

Definition digits_value (s : pystr) : option Z :=
  if well_grouped false s
  then Some (fold_left (fun acc c => 10 * acc + Z.of_N (c - 48))
               (List.filter isdigit s) 0)
  else None.

Definition int_of_str (s : pystr) : option Z :=
  match Py.strip_with isspace s with
  | 45%N :: ds => Z.opp <$> digits_value ds
  | 43%N :: ds => digits_value ds
  | ds => digits_value ds
  end.

Definition runtime : PyRuntime :=
  Build_PyRuntime datetime isspace str_lower eq_refl re_search
    SHA256.hexdigest isoformat int_of_str.

End Reference.

(** ** Concrete inputs

    A configuration in the shape of the repository's [config.json], the
    analyzer built from it, and the arguments of the storage test of
    [tests/test_core.py]. *)
Module Demo.

#[local] Existing Instance Reference.runtime.

Definition config : Config :=
  {| notification :=
       list_to_map
         [("target_telegram_id", Py.VInt 123456789);
          ("target_bot_username", Py.VStr (py " @my_leads_bot "))];
     keywords :=
       list_to_map
         [("buy", [Py.VStr (py "Куплю"); Py.VStr (py "ищу квартиру")]);
          ("sell", [Py.VStr (py "продам"); Py.VStr (py " Продаю ")]);
          ("urgency_interest", [Py.VStr (py "срочно")]);
          ("realtor_help", [Py.VStr (py "нужен риелтор"); Py.VNone]);
          ("details", [Py.VStr (py "квартир"); Py.VStr (py "ремонт")])];
     rules := list_to_map [("min_details_required", Py.VInt 1)] |}.

Definition analyzer : LeadAnalyzer.t :=
  {| LeadAnalyzer.buy_keywords := [py "куплю"; py "ищу квартиру"];
     LeadAnalyzer.sell_keywords := [py "продам"; py "продаю"];
     LeadAnalyzer.urgency_keywords := [py "срочно"];
     LeadAnalyzer.realtor_keywords := [py "нужен риелтор"];
     LeadAnalyzer.detail_keywords := [py "квартир"; py "ремонт"];
     LeadAnalyzer.require_explicit_intent := true;
     LeadAnalyzer.min_details_required := 1;
     LeadAnalyzer.contact_bonus := true |}.

(** The same keywords without the intent gate and without a detail
    threshold. *)
Definition lenient : LeadAnalyzer.t :=
  {| LeadAnalyzer.buy_keywords := LeadAnalyzer.buy_keywords analyzer;
     LeadAnalyzer.sell_keywords := LeadAnalyzer.sell_keywords analyzer;
     LeadAnalyzer.urgency_keywords := LeadAnalyzer.urgency_keywords analyzer;
     LeadAnalyzer.realtor_keywords := LeadAnalyzer.realtor_keywords analyzer;
     LeadAnalyzer.detail_keywords := LeadAnalyzer.detail_keywords analyzer;
     LeadAnalyzer.require_explicit_intent := false;
     LeadAnalyzer.min_details_required := 0;
     LeadAnalyzer.contact_bonus := true |}.

Definition buy_text : pystr :=
  py "Куплю квартиру срочно, бюджет 12 000 000 рублей, район Приморский, звоните +79991234567".

Definition news_text : pystr := py "Добрый день, обсуждаем новости рынка".

Definition sell_text : pystr := py "продам квартиру, бюджет 8 000 000 рублей".

Definition now : Reference.datetime :=
  {| Reference.year := 2024; Reference.month := 5; Reference.day := 17;
     Reference.hour := 9; Reference.minute := 30; Reference.second := 0 |}.

(** The call of [test_storage_deduplicates_by_chat_and_message]. *)
Definition call1 : LeadStorage.call :=
  {| LeadStorage.c_message_id := 1;
     LeadStorage.c_chat_id := 100;
     LeadStorage.c_user_id := Some 200;
     LeadStorage.c_chat_title := py "Test";
     LeadStorage.c_message_text := sell_text;
     LeadStorage.c_category := py "sell";
     LeadStorage.c_status := py "lead";
     LeadStorage.c_reasons := [py "sell_keywords:1"; py "has_budget"];
     LeadStorage.c_created_at := now |}.

(** The same text under another message identity. *)
Definition call2 : LeadStorage.call :=
  {| LeadStorage.c_message_id := 2;
     LeadStorage.c_chat_id := 100;
     LeadStorage.c_user_id := None;
     LeadStorage.c_chat_title := py "Test";
     LeadStorage.c_message_text := sell_text;
     LeadStorage.c_category := py "sell";
     LeadStorage.c_status := py "lead";
     LeadStorage.c_reasons := [py "sell_keywords:1"; py "has_budget"];
     LeadStorage.c_created_at := now |}.

(** A redelivery of [call1]'s identity with other field values. *)
Definition call1_again : LeadStorage.call :=
  {| LeadStorage.c_message_id := 1;
     LeadStorage.c_chat_id := 100;
     LeadStorage.c_user_id := Some 201;
     LeadStorage.c_chat_title := py "Renamed";
     LeadStorage.c_message_text := news_text;
     LeadStorage.c_category := py "none";
     LeadStorage.c_status := py "not_lead";
     LeadStorage.c_reasons := [py "no_intent"];
     LeadStorage.c_created_at := now |}.

(** A text that ends in the lone surrogate U+D800, which a [str] can hold
    and UTF-8 cannot encode. *)
Definition unpaired_text : pystr := sell_text ++ [55296%N].

(** A redelivery of [call1]'s identity with that text, and the same text
    under [call2]'s identity. *)
Definition call1_unpaired : LeadStorage.call :=
  {| LeadStorage.c_message_id := 1;
     LeadStorage.c_chat_id := 100;
     LeadStorage.c_user_id := Some 200;
     LeadStorage.c_chat_title := py "Test";
     LeadStorage.c_message_text := unpaired_text;
     LeadStorage.c_category := py "sell";
     LeadStorage.c_status := py "lead";
     LeadStorage.c_reasons := [py "sell_keywords:1"; py "has_budget"];
     LeadStorage.c_created_at := now |}.

Definition call2_unpaired : LeadStorage.call :=
  {| LeadStorage.c_message_id := 2;
     LeadStorage.c_chat_id := 100;
     LeadStorage.c_user_id := None;
     LeadStorage.c_chat_title := py "Test";
     LeadStorage.c_message_text := unpaired_text;
     LeadStorage.c_category := py "sell";
     LeadStorage.c_status := py "lead";
     LeadStorage.c_reasons := [py "sell_keywords:1"; py "has_budget"];
     LeadStorage.c_created_at := now |}.

(** [call1] under the message identity 2^63, one above the largest
    integer of an INTEGER column. *)
Definition call_beyond_int64 : LeadStorage.call :=
  {| LeadStorage.c_message_id := 9223372036854775808;
     LeadStorage.c_chat_id := 100;
     LeadStorage.c_user_id := Some 200;
     LeadStorage.c_chat_title := py "Test";
     LeadStorage.c_message_text := sell_text;
     LeadStorage.c_category := py "sell";
     LeadStorage.c_status := py "lead";
     LeadStorage.c_reasons := [py "sell_keywords:1"; py "has_budget"];
     LeadStorage.c_created_at := now |}.

(** A chat title one byte over SQLITE_MAX_LENGTH, and a redelivery of
    [call1]'s identity with it. *)
Definition oversized_title : pystr :=
  repeat 97%N (Z.to_nat (SQLite.MAX_LENGTH + 1)).

Definition call1_oversized : LeadStorage.call :=
  {| LeadStorage.c_message_id := 1;
     LeadStorage.c_chat_id := 100;
     LeadStorage.c_user_id := Some 200;
     LeadStorage.c_chat_title := oversized_title;
     LeadStorage.c_message_text := sell_text;
     LeadStorage.c_category := py "sell";
     LeadStorage.c_status := py "lead";
     LeadStorage.c_reasons := [py "sell_keywords:1"; py "has_budget"];
     LeadStorage.c_created_at := now |}.

(** A table whose one row has the largest rowid, under the key (100, 3):
    AUTOINCREMENT has no id left to give. *)
Definition exhausted : LeadStorage.database :=
  {| LeadStorage.leads :=
       [(SQLite.MAX_ROWID,
         {| LeadStorage.message_id := 3;
            LeadStorage.chat_id := 100;
            LeadStorage.user_id := None;
            LeadStorage.chat_title := py "Test";
            LeadStorage.message_text := news_text;
            LeadStorage.message_hash := [];
            LeadStorage.category := py "none";
            LeadStorage.status := py "not_lead";
            LeadStorage.reasons := py "no_intent";
            LeadStorage.created_at := py "2024-05-17T09:30:00+00:00" |})];
     LeadStorage.last_id := SQLite.MAX_ROWID |}.

(** A call with the key of that row. *)
Definition call3 : LeadStorage.call :=
  {| LeadStorage.c_message_id := 3;
     LeadStorage.c_chat_id := 100;
     LeadStorage.c_user_id := None;
     LeadStorage.c_chat_title := py "Test";
     LeadStorage.c_message_text := news_text;
     LeadStorage.c_category := py "none";
     LeadStorage.c_status := py "not_lead";
     LeadStorage.c_reasons := [py "no_intent"];
     LeadStorage.c_created_at := now |}.

End Demo.

(** ** The rest of the module: startup helpers and the message handler *)

(** [prompt_if_empty(value, label)], for the line [input] reads: a given
    value is returned as it is, without a prompt; otherwise the stripped
    line is returned, and an empty one raises [ValueError]. *)
Section Prompt.
Context `{rt : PyRuntime}.

Definition prompt_if_empty (value : option pystr) (typed : pystr)
  : Py.result pystr :=
  if Py.str_bool (LeadAnalyzer.text_or_empty value) then
    Py.Returned (LeadAnalyzer.text_or_empty value)
  else
    let user_value := str_strip typed in
    if negb (Py.str_bool user_value) then Py.Raised Py.ValueError
    else Py.Returned user_value.

End Prompt.

(** The stored table seen as keys and ids, and the results a sequence of
    calls has when only the set of stored keys is tracked. *)
Module Table.

Definition key_of (r : LeadStorage.row) : Z * Z :=
  (LeadStorage.chat_id r, LeadStorage.message_id r).

Definition keys (d : LeadStorage.database) : list (Z * Z) :=
  map (fun ir => key_of ir.2) (LeadStorage.leads d).

Definition ids (d : LeadStorage.database) : list Z :=
  map fst (LeadStorage.leads d).

(** [UNIQUE(chat_id, message_id)] holds, the ids are increasing in
    insertion order, and none is above the AUTOINCREMENT counter. *)
Definition consistent (d : LeadStorage.database) : Prop :=
  NoDup (keys d)
  /\ StronglySorted Z.lt (ids d)
  /\ Forall (fun i => i <= LeadStorage.last_id d) (ids d).

Fixpoint results_by_keys (seen : gset (Z * Z)) (ks : list (Z * Z))
  : list bool :=
  match ks with
  | [] => []
  | k :: rest =>
      if decide (k ∈ seen) then false :: results_by_keys seen rest
      else true :: results_by_keys ({[k]} ∪ seen) rest
  end.

(** Whether a call returned [True]. *)
Definition inserted (r : Py.result bool) : bool :=
  match r with
  | Py.Returned true => true
  | _ => false
  end.

Section WithRuntime.
Context `{rt : PyRuntime}.

Definition call_key (c : LeadStorage.call) : Z * Z :=
  (LeadStorage.c_chat_id c, LeadStorage.c_message_id c).

(** The calls of a sequence that returned [True], in order. *)
Definition inserted_calls (self : LeadStorage.t)
    (calls : list LeadStorage.call) : list LeadStorage.call :=
  map fst
    (List.filter (fun cr => inserted cr.2)
       (combine calls (LeadStorage.run self calls).1)).

End WithRuntime.
End Table.

Module Bot.

(** How [client.send_message] ends: it returns, or raises
    [FloodWaitError], [RpcError] or some other exception. *)
Inductive send_outcome :=
  | Delivered
  | FloodWaitError (seconds : Z)
  | RpcError
  | OtherError.

(** The records the handler writes to the log. *)
Inductive log_record :=
  | LogDuplicate (chat_id message_id : Z)
  | LogLead (chat_title : pystr) (chat_id : Z) (user_id : option Z)
  | LogFloodWait (seconds : Z)
  | LogSendFailed
  | LogStats (processed leads : Z)
  | LogException.

Section WithRuntime.
Context `{rt : PyRuntime}.

(** What the handler reads of a [NewMessage] event: [title] is
    [getattr(event.chat, "title", None)] and [date] is
    [event.message.date]. *)
Record event := {
  is_group : bool;
  is_channel : bool;
  raw_text : option pystr;
  title : option pystr;
  chat_id : Z;
  message_id : Z;
  sender_id : option Z;
  date : datetime;
}.

(** What one handler run takes from outside: the local time
    [build_notification] formats, and how the send ends. *)
Record world := {
  created : pystr;
  outcome : send_outcome;
}.

(** The variables the handler shares with [run_bot], the calls made to
    [client.send_message] and the log. *)
Record state := {
  storage : LeadStorage.t;
  processed_count : Z;
  lead_count : Z;
  outbox : list (target * pystr);
  log : list log_record;
}.

Definition nl : pystr := [10%N].

(** [build_notification(event, decision)], with [created] for the
    formatted current time. *)
Definition build_notification (created : pystr) (ev : event)
    (decision : LeadDecision) : pystr :=
  let sender :=
    match sender_id ev with
    | Some z => Py.VInt z
    | None => Py.VNone
    end in
  let chat_name :=
    if Py.str_bool (LeadAnalyzer.text_or_empty (title ev))
    then LeadAnalyzer.text_or_empty (title ev)
    else py "Unknown chat" in
  let text := firstn 700 (LeadAnalyzer.text_or_empty (raw_text ev)) in
  py "🏠 *Новый лид найден*" ++ nl
  ++ py "• Категория: `" ++ category decision ++ py "`" ++ nl
  ++ py "• Чат: " ++ chat_name ++ nl
  ++ py "• User ID: `" ++ Py.str_of sender ++ py "`" ++ nl
  ++ py "• Время: " ++ created ++ nl
  ++ py "• Причины: " ++ Py.join (py ", ") (firstn 8 (reasons decision))
  ++ nl ++ nl
  ++ py "Сообщение:" ++ nl ++ py "```" ++ nl ++ text ++ nl ++ py "```".

Section Handler.
(** The analyzer, the resolved target and [astimezone(timezone.utc)] are
    fixed when [run_bot] starts. *)
Variable analyzer : LeadAnalyzer.t.
Variable notify_target : target.
Variable astimezone_utc : datetime -> datetime.

(** [if processed_count % 100 == 0: logging.info("Stats: ...")] *)
Definition log_stats (processed leads : Z) (log : list log_record)
  : list log_record :=
  if processed mod 100 =? 0 then log ++ [LogStats processed leads] else log.

(** ["lead" if decision.is_lead else "not_lead"] *)
Definition status_of (decision : LeadDecision) : pystr :=
  if is_lead decision then py "lead" else py "not_lead".

(** [getattr(event.chat, "title", None) or str(event.chat_id)] *)
Definition chat_title_of (ev : event) : pystr :=
  if Py.str_bool (LeadAnalyzer.text_or_empty (title ev))
  then LeadAnalyzer.text_or_empty (title ev)
  else Py.str_of_int (chat_id ev).

(** The body of [handler(event)]: every exception is caught and logged, so
    a run always ends in a state. *)
Definition handler (w : world) (st : state) (ev : event) : state :=
  if negb (is_group ev || is_channel ev) then st
  else if negb (Py.str_bool (LeadAnalyzer.text_or_empty (raw_text ev)))
  then st
  else
    let processed_count := processed_count st + 1 in
    let decision := LeadAnalyzer.analyze analyzer (raw_text ev) in
    let status := status_of decision in
    let chat_title := chat_title_of ev in
    match
      LeadStorage.insert_message (storage st) (message_id ev) (chat_id ev)
        (sender_id ev) chat_title (LeadAnalyzer.text_or_empty (raw_text ev))
        (category decision) status (reasons decision)
        (astimezone_utc (date ev))
    with
    | (Py.Raised _, storage') =>
        {| storage := storage'; processed_count := processed_count;
           lead_count := lead_count st; outbox := outbox st;
           log := log st ++ [LogException] |}
    | (Py.Returned false, storage') =>
        {| storage := storage'; processed_count := processed_count;
           lead_count := lead_count st; outbox := outbox st;
           log := log st ++ [LogDuplicate (chat_id ev) (message_id ev)] |}
    | (Py.Returned true, storage') =>
        if is_lead decision then
          let lead_count := lead_count st + 1 in
          let log :=
            log st ++ [LogLead chat_title (chat_id ev) (sender_id ev)] in
          let outbox :=
            outbox st
            ++ [(notify_target, build_notification (created w) ev decision)] in
          match outcome w with
          | Delivered =>
              {| storage := storage'; processed_count := processed_count;
                 lead_count := lead_count; outbox := outbox;
                 log := log_stats processed_count lead_count log |}
          | FloodWaitError seconds =>
              {| storage := storage'; processed_count := processed_count;
                 lead_count := lead_count; outbox := outbox;
                 log := log_stats processed_count lead_count
                          (log ++ [LogFloodWait seconds]) |}
          | RpcError =>
              {| storage := storage'; processed_count := processed_count;
                 lead_count := lead_count; outbox := outbox;
                 log := log_stats processed_count lead_count
                          (log ++ [LogSendFailed]) |}
          | OtherError =>
              {| storage := storage'; processed_count := processed_count;
                 lead_count := lead_count; outbox := outbox;
                 log := log ++ [LogException] |}
          end
        else
          {| storage := storage'; processed_count := processed_count;
             lead_count := lead_count st; outbox := outbox st;
             log := log_stats processed_count (lead_count st) (log st) |}
    end.

(** The keyword arguments the handler gives [insert_message] for an
    event. *)
Definition call_of (ev : event) : LeadStorage.call :=
  let decision := LeadAnalyzer.analyze analyzer (raw_text ev) in
  {| LeadStorage.c_message_id := message_id ev;
     LeadStorage.c_chat_id := chat_id ev;
     LeadStorage.c_user_id := sender_id ev;
     LeadStorage.c_chat_title := chat_title_of ev;
     LeadStorage.c_message_text := LeadAnalyzer.text_or_empty (raw_text ev);
     LeadStorage.c_category := category decision;
     LeadStorage.c_status := status_of decision;
     LeadStorage.c_reasons := reasons decision;
     LeadStorage.c_created_at := astimezone_utc (date ev) |}.

(** A stored row agrees with what the analyzer says of its text. *)
Definition classified (r : LeadStorage.row) : Prop :=
  let decision :=
    LeadAnalyzer.analyze analyzer (Some (LeadStorage.message_text r)) in
  LeadStorage.message_text r <> []
  /\ LeadStorage.status r = status_of decision
  /\ LeadStorage.category r = category decision
  /\ LeadStorage.reasons r = Py.join (py ",") (reasons decision).

(** The handler over the events of a session, each with what it takes
    from outside. *)
Fixpoint handle_all (st : state) (evs : list (world * event)) : state :=
  match evs with
  | [] => st
  | (w, ev) :: rest => handle_all (handler w st ev) rest
  end.

(** The state [run_bot] starts the handler in. *)
Definition start (storage : LeadStorage.t) : state :=
  {| storage := storage; processed_count := 0; lead_count := 0;
     outbox := []; log := [] |}.

(** Whether the handler goes past its two early returns. *)
Definition accepted (ev : event) : bool :=
  (is_group ev || is_channel ev)
  && Py.str_bool (LeadAnalyzer.text_or_empty (raw_text ev)).

End Handler.

(** The stored rows with status [lead]. *)
Definition lead_rows (d : LeadStorage.database) : list LeadStorage.row :=
  List.filter (fun r => bool_decide (LeadStorage.status r = py "lead"))
    (map snd (LeadStorage.leads d)).

End WithRuntime.
End Bot.

(** Events for the handler under the reference runtime: a lead posted in
    a group, and a private message the handler ignores. *)
Module Samples.

#[local] Existing Instance Reference.runtime.

Definition lead_event : Bot.event :=
  {| Bot.is_group := true; Bot.is_channel := false;
     Bot.raw_text := Some Demo.buy_text; Bot.title := Some (py "Приморский");
     Bot.chat_id := 100; Bot.message_id := 7; Bot.sender_id := Some 200;
     Bot.date := Demo.now |}.

Definition private_event : Bot.event :=
  {| Bot.is_group := false; Bot.is_channel := false;
     Bot.raw_text := Some Demo.buy_text; Bot.title := None;
     Bot.chat_id := 5; Bot.message_id := 1; Bot.sender_id := Some 5;
     Bot.date := Demo.now |}.

Definition delivered : Bot.world :=
  {| Bot.created := py "2024-05-17 12:30:00 MSK"; Bot.outcome := Bot.Delivered |}.

Definition flood_wait : Bot.world :=
  {| Bot.created := py "2024-05-17 12:30:00 MSK";
     Bot.outcome := Bot.FloodWaitError 30 |}.

Definition target : target := TargetName (py "@my_leads_bot").

Definition handler :=
  Bot.handler Demo.analyzer target (fun d => d).

Definition handle_all :=
  Bot.handle_all Demo.analyzer target (fun d => d).

Definition fresh : Bot.state := Bot.start (LeadStorage.__init__ None).

(** The state of a session whose storage was closed at shutdown. *)
Definition closed : Bot.state :=
  Bot.start (LeadStorage.close (LeadStorage.__init__ None)).

(** A configuration with detail keywords only and default rules, and the
    analyzer built from it. *)
Definition details_only_config : Config :=
  {| notification := list_to_map [("target_telegram_id", Py.VInt 42)];
     keywords :=
       list_to_map [("details", [Py.VStr (py "ремонт"); Py.VStr (py "  ")])];
     rules := ∅ |}.

Definition details_only : LeadAnalyzer.t :=
  {| LeadAnalyzer.buy_keywords := [];
     LeadAnalyzer.sell_keywords := [];
     LeadAnalyzer.urgency_keywords := [];
     LeadAnalyzer.realtor_keywords := [];
     LeadAnalyzer.detail_keywords := [py "ремонт"];
     LeadAnalyzer.require_explicit_intent := true;
     LeadAnalyzer.min_details_required := 1;
     LeadAnalyzer.contact_bonus := true |}.

(** [Demo.call1] with whitespace around its text. *)
Definition padded_call : LeadStorage.call :=
  {| LeadStorage.c_message_id := 3;
     LeadStorage.c_chat_id := 100;
     LeadStorage.c_user_id := Some 200;
     LeadStorage.c_chat_title := py "Test";
     LeadStorage.c_message_text := py "  " ++ Demo.sell_text ++ py " ";
     LeadStorage.c_category := py "sell";
     LeadStorage.c_status := py "lead";
     LeadStorage.c_reasons := [py "sell_keywords:1"; py "has_budget"];
     LeadStorage.c_created_at := Demo.now |}.

End Samples.

(** A reason that starts with none of [n], [i] and [e]: no tag assembled
    before the gates is [no_intent], [insufficient_details] or
    [empty_message]. *)
Definition signal_tag (r : pystr) : Prop :=
  head r <> Some 110%N /\ head r <> Some 105%N /\ head r <> Some 101%N.

(** A string that is not empty and holds no comma, so that it can be an
    item of a comma-separated column. *)
Definition comma_free (s : pystr) : Prop :=
  s <> [] /\ forallb (fun c => negb (c =? 44)%N) s = true.

(** The tail of a joined string after its first item: nothing, or a comma
    and the rest. *)
Definition tail_ok (t : pystr) : Prop := t = [] \/ exists r, t = 44%N :: r.

(** All keywords of an analyzer. *)
Definition all_keywords (a : LeadAnalyzer.t) : list pystr :=
  LeadAnalyzer.buy_keywords a ++ LeadAnalyzer.sell_keywords a
  ++ LeadAnalyzer.urgency_keywords a ++ LeadAnalyzer.realtor_keywords a
  ++ LeadAnalyzer.detail_keywords a.

(** ** The claims' own wording

    The scoring rule, the category table and the reason tags as the
    specification words them, to be compared with what the code computes. *)
Module Claimed.
Section WithRuntime.
Context `{rt : PyRuntime}.

Import LeadAnalyzer.

(** "2 if there is any buy or sell hit, plus details_score if
    details_score > 0, plus 1 if any urgency hit, plus 1 if any realtor hit,
    plus 1 if contact_bonus is enabled and has_contact is true". *)
Definition score (self : t) (cleaned : pystr) : Z :=
  (if Py.list_bool (buy_hits self cleaned)
      || Py.list_bool (sell_hits self cleaned) then 2 else 0)
  + (if 0 <? details_score cleaned then details_score cleaned else 0)
  + (if Py.list_bool (urgency_hits self cleaned) then 1 else 0)
  + (if Py.list_bool (realtor_hits self cleaned) then 1 else 0)
  + (if contact_bonus self && has_contact cleaned then 1 else 0).

(** "<category>_keywords:<count>", present when the category has a hit. *)
Definition count_tag (category : string) (hs : list pystr) : list pystr :=
  if Py.list_bool hs
  then [py category ++ py "_keywords:" ++ Py.str_of_nat (List.length hs)]
  else [].

(** A flag tag, present when the signal is true. *)
Definition flag_tag (name : string) (signal : bool) : list pystr :=
  if signal then [py name] else [].

(** The count tags in the order buy, sell, urgency, realtor, details, then
    the flag tags in the order has_budget, has_location, has_area,
    has_contact; [details] is the name the details category has in its
    tag. *)
Definition reasons (details : string) (self : t) (cleaned : pystr)
  : list pystr :=
  count_tag "buy" (buy_hits self cleaned)
  ++ count_tag "sell" (sell_hits self cleaned)
  ++ count_tag "urgency" (urgency_hits self cleaned)
  ++ count_tag "realtor" (realtor_hits self cleaned)
  ++ count_tag details (detail_hits self cleaned)
  ++ flag_tag "has_budget" (has_budget cleaned)
  ++ flag_tag "has_location" (has_location cleaned)
  ++ flag_tag "has_area" (has_area cleaned)
  ++ flag_tag "has_contact" (has_contact cleaned).

End WithRuntime.
End Claimed.

(** * Properties *)

(** ** Python strings *)
Section StringFacts.

Lemma str_bool_false (s : pystr) : Py.str_bool s = false <-> s = [].
Proof. destruct s; simpl; split; congruence. Qed.

Lemma str_bool_true (s : pystr) : Py.str_bool s = true <-> s <> [].
Proof. destruct s; simpl; split; congruence. Qed.

Lemma list_bool_false {A} (l : list A) : Py.list_bool l = false <-> l = [].
Proof. destruct l; simpl; split; congruence. Qed.

Lemma list_bool_app {A} (l1 l2 : list A) :
  Py.list_bool (l1 ++ l2) = Py.list_bool l1 || Py.list_bool l2.
Proof. destruct l1; reflexivity. Qed.

Lemma lstrip_all_space (sp : N -> bool) (s : pystr) :
  forallb sp s = true -> Py.lstrip_with sp s = [].
Proof.
  induction s as [|c s IH]; simpl; [reflexivity|].
  intros H. apply andb_prop in H as [Hc Hs]. rewrite Hc. auto.
Qed.

Lemma strip_all_space (sp : N -> bool) (s : pystr) :
  forallb sp s = true -> Py.strip_with sp s = [].
Proof.
  intros H. unfold Py.strip_with, Py.rstrip_with.
  rewrite (lstrip_all_space sp s H). reflexivity.
Qed.

(** What [lstrip] leaves does not start with whitespace. *)
Lemma lstrip_head (sp : N -> bool) (s : pystr) c rest :
  Py.lstrip_with sp s = c :: rest -> sp c = false.
Proof.
  induction s as [|a s IH]; simpl; [discriminate|].
  destruct (sp a) eqn:Ha; [exact IH|].
  intros [= -> _]. exact Ha.
Qed.

Lemma lstrip_split (sp : N -> bool) (s : pystr) :
  exists pre, s = pre ++ Py.lstrip_with sp s /\ forallb sp pre = true.
Proof.
  induction s as [|a s (pre & Hs & Hpre)]; simpl.
  - exists []. split; reflexivity.
  - destruct (sp a) eqn:Ha.
    + exists (a :: pre). simpl. rewrite Ha, Hpre, <- Hs.
      split; reflexivity.
    + exists []. split; reflexivity.
Qed.

Lemma forallb_rev (sp : N -> bool) (s : pystr) :
  forallb sp s = true -> forallb sp (List.rev s) = true.
Proof.
  rewrite !forallb_forall. intros H x Hx. apply H, in_rev, Hx.
Qed.

Lemma rstrip_split (sp : N -> bool) (s : pystr) :
  exists post, s = Py.rstrip_with sp s ++ post /\ forallb sp post = true.
Proof.
  destruct (lstrip_split sp (List.rev s)) as (pre & Hs & Hpre).
  exists (List.rev pre). split; [|apply forallb_rev, Hpre].
  unfold Py.rstrip_with.
  rewrite <- rev_app_distr, <- Hs, rev_involutive. reflexivity.
Qed.

(** [strip] removes a run of whitespace at each end and nothing else;
    what is left neither starts nor ends with whitespace. *)
Lemma strip_spec (sp : N -> bool) (s : pystr) :
  (exists pre post,
     s = pre ++ Py.strip_with sp s ++ post
     /\ forallb sp pre = true /\ forallb sp post = true)
  /\ (forall c rest, Py.strip_with sp s = c :: rest -> sp c = false)
  /\ (forall c rest, Py.strip_with sp s = rest ++ [c] -> sp c = false).
Proof.
  unfold Py.strip_with.
  destruct (lstrip_split sp s) as (pre & Hs & Hpre).
  destruct (rstrip_split sp (Py.lstrip_with sp s)) as (post & Hl & Hpost).
  split; [|split].
  - exists pre, post. rewrite <- Hl. auto.
  - intros c rest Hc. rewrite Hc in Hl.
    apply (lstrip_head sp s c (rest ++ post)). exact Hl.
  - intros c rest Hc. unfold Py.rstrip_with in Hc.
    apply (f_equal (@List.rev N)) in Hc.
    rewrite rev_involutive, rev_app_distr in Hc. simpl in Hc.
    exact (lstrip_head sp (List.rev (Py.lstrip_with sp s)) c (List.rev rest) Hc).
Qed.

(** A keyword list without an occurrence in the text has no hits. *)
Lemma hits_none (kws : list pystr) (cleaned : pystr) :
  (forall kw, In kw kws -> Py.str_in kw cleaned = false) ->
  LeadAnalyzer.hits kws cleaned = [].
Proof.
  induction kws as [|kw kws IH]; intros H; [reflexivity|].
  unfold LeadAnalyzer.hits in *. simpl.
  rewrite (H kw (or_introl eq_refl)).
  apply IH. intros k Hk. apply H. right. exact Hk.
Qed.

End StringFacts.

(** ** The classifier *)
Section AnalyzerFacts.
Context `{rt : PyRuntime}.
Import LeadAnalyzer.

Lemma clean_None : clean None = [].
Proof. unfold clean, str_strip. simpl. apply str_lower_empty. Qed.

Lemma clean_whitespace (s : pystr) :
  forallb isspace s = true -> clean (Some s) = [].
Proof.
  intros H. unfold clean, str_strip, text_or_empty.
  destruct (Py.str_bool s).
  - rewrite (strip_all_space isspace s H). apply str_lower_empty.
  - apply str_lower_empty.
Qed.

Lemma analyze_empty (self : t) (text : option pystr) :
  clean text = [] -> analyze self text = empty_decision.
Proof. intros H. unfold analyze. rewrite H. reflexivity. Qed.

Lemma analyze_nonempty (self : t) (text : option pystr) :
  clean text <> [] ->
  analyze self text =
    if gate1_rejects self (clean text)
    then rejected (py "no_intent") self (clean text)
    else if gate2_rejects self (clean text)
    then rejected (py "insufficient_details") self (clean text)
    else scored self (clean text).
Proof.
  intros H. unfold analyze.
  rewrite (proj2 (str_bool_true (clean text)) H). reflexivity.
Qed.

Lemma analyze_category (self : t) (text : option pystr) :
  clean text <> [] ->
  category (analyze self text) = category_of self (clean text).
Proof.
  intros H. rewrite (analyze_nonempty self text H).
  destruct (gate1_rejects self (clean text));
    [|destruct (gate2_rejects self (clean text))]; reflexivity.
Qed.

Lemma append_if_Forall (P : pystr -> Prop) c tag l :
  Forall P l -> P tag -> Forall P (append_if c tag l).
Proof.
  intros Hl Ht. unfold append_if. destruct c; [|exact Hl].
  apply Forall_app. split; [exact Hl|]. constructor; [exact Ht|constructor].
Qed.

Lemma reasons_of_plain (self : t) (cleaned : pystr) :
  Forall plain_tag (reasons_of self cleaned).
Proof.
  unfold reasons_of. cbv zeta.
  repeat (apply append_if_Forall; [|split; vm_compute; discriminate]).
  constructor.
Qed.

Lemma reasons_of_no_gate_tag (self : t) (cleaned : pystr) :
  ~ In (py "no_intent") (reasons_of self cleaned)
  /\ ~ In (py "insufficient_details") (reasons_of self cleaned).
Proof.
  pose proof (reasons_of_plain self cleaned) as HF.
  rewrite Forall_forall in HF.
  split; intros Hin; apply list_elem_of_In, HF in Hin;
    destruct Hin as [H1 H2]; [apply H1 | apply H2]; reflexivity.
Qed.

Lemma lead_score_claimed (self : t) (cleaned : pystr) :
  lead_score self cleaned = Claimed.score self cleaned.
Proof.
  unfold lead_score, Claimed.score, add_if, intent_hits.
  rewrite list_bool_app.
  destruct (Py.list_bool (buy_hits self cleaned)),
    (Py.list_bool (sell_hits self cleaned)),
    (0 <? details_score cleaned),
    (Py.list_bool (urgency_hits self cleaned)),
    (Py.list_bool (realtor_hits self cleaned)),
    (contact_bonus self && has_contact cleaned); simpl; lia.
Qed.

Lemma reasons_of_claimed (self : t) (cleaned : pystr) :
  reasons_of self cleaned = Claimed.reasons "detail" self cleaned.
Proof.
  unfold reasons_of, Claimed.reasons, Claimed.count_tag, Claimed.flag_tag,
    append_if, count_tag.
  destruct (Py.list_bool (buy_hits self cleaned)),
    (Py.list_bool (sell_hits self cleaned)),
    (Py.list_bool (urgency_hits self cleaned)),
    (Py.list_bool (realtor_hits self cleaned)),
    (Py.list_bool (detail_hits self cleaned)),
    (has_budget cleaned), (has_location cleaned), (has_area cleaned),
    (has_contact cleaned); reflexivity.
Qed.

Lemma gate1_passes_hits (self : t) (cleaned : pystr) :
  require_explicit_intent self = true ->
  gate1_rejects self cleaned = false ->
  Py.list_bool (buy_hits self cleaned) = true
  \/ Py.list_bool (sell_hits self cleaned) = true
  \/ Py.list_bool (realtor_hits self cleaned) = true.
Proof.
  unfold gate1_rejects, intent_hits. intros -> H.
  rewrite list_bool_app in H.
  destruct (Py.list_bool (buy_hits self cleaned)),
    (Py.list_bool (sell_hits self cleaned)),
    (Py.list_bool (realtor_hits self cleaned)); simpl in H; auto.
Qed.

(** C7: [analyze] is a total function of the analyzer and the text, so it
    returns a decision for every input; when the trimmed, lowercased text is
    empty, which includes an absent text and a text of whitespace only, the
    decision is not a lead, has category [none] and the single reason
    [empty_message]. *)
Theorem analyze_empty_message (self : t) (text : option pystr) :
  text = None
  \/ (exists s, text = Some s /\ forallb isspace s = true)
  \/ clean text = [] ->
  analyze self text = empty_decision
  /\ is_lead (analyze self text) = false
  /\ category (analyze self text) = py "none"
  /\ In (py "empty_message") (reasons (analyze self text)).
Proof.
  intros H.
  assert (Hc : clean text = []).
  { destruct H as [-> | [(s & -> & Hs) | H]].
    - apply clean_None.
    - apply clean_whitespace, Hs.
    - exact H. }
  rewrite (analyze_empty self text Hc).
  repeat split. left. reflexivity.
Qed.

(** C5: for a non-empty normalized text the decision's category follows
    the table buy / sell / mixed / realtor_help / none of the keyword hits,
    and it is the category computed before the gates whichever branch
    returns, a rejecting gate included. *)
Theorem category_resolution (self : t) (text : option pystr) :
  clean text <> [] ->
  let cleaned := clean text in
  let d := analyze self text in
  category d = category_of self cleaned
  /\ (buy_hits self cleaned <> [] -> sell_hits self cleaned = [] ->
      category d = py "buy")
  /\ (sell_hits self cleaned <> [] -> buy_hits self cleaned = [] ->
      category d = py "sell")
  /\ (buy_hits self cleaned <> [] -> sell_hits self cleaned <> [] ->
      category d = py "mixed")
  /\ (buy_hits self cleaned = [] -> sell_hits self cleaned = [] ->
      realtor_hits self cleaned <> [] -> category d = py "realtor_help")
  /\ (buy_hits self cleaned = [] -> sell_hits self cleaned = [] ->
      realtor_hits self cleaned = [] -> category d = py "none")
  /\ (gate1_rejects self cleaned = true ->
      d = rejected (py "no_intent") self cleaned)
  /\ (gate1_rejects self cleaned = false ->
      gate2_rejects self cleaned = true ->
      d = rejected (py "insufficient_details") self cleaned).
Proof.
  intros Hne cleaned d. subst cleaned d.
  rewrite (analyze_category self text Hne).
  split; [reflexivity|]. unfold category_of.
  repeat split.
  - intros Hb ->.
    destruct (buy_hits self (clean text)); [congruence|reflexivity].
  - intros Hs ->.
    destruct (sell_hits self (clean text)); [congruence|reflexivity].
  - intros Hb Hs.
    destruct (buy_hits self (clean text)); [congruence|].
    destruct (sell_hits self (clean text)); [congruence|reflexivity].
  - intros -> -> Hr.
    destruct (realtor_hits self (clean text)); [congruence|reflexivity].
  - intros -> -> ->. reflexivity.
  - intros Hg. rewrite (analyze_nonempty self text Hne), Hg. reflexivity.
  - intros Hg1 Hg2.
    rewrite (analyze_nonempty self text Hne), Hg1, Hg2. reflexivity.
Qed.

(** C9: with [require_explicit_intent] set, a decision that is a lead has
    one of the categories buy, sell, mixed and realtor_help, never none. *)
Theorem lead_has_category (self : t) (text : option pystr) :
  require_explicit_intent self = true ->
  is_lead (analyze self text) = true ->
  In (category (analyze self text))
    [py "buy"; py "sell"; py "mixed"; py "realtor_help"]
  /\ category (analyze self text) <> py "none".
Proof.
  intros Hreq Hlead.
  destruct (Py.str_bool (clean text)) eqn:Hc.
  2:{ apply str_bool_false in Hc.
      rewrite (analyze_empty self text Hc) in Hlead. discriminate. }
  apply str_bool_true in Hc.
  rewrite (analyze_category self text Hc).
  rewrite (analyze_nonempty self text Hc) in Hlead.
  destruct (gate1_rejects self (clean text)) eqn:Hg1; [discriminate|].
  pose proof (gate1_passes_hits self (clean text) Hreq Hg1) as Hhits.
  unfold category_of.
  destruct (Py.list_bool (buy_hits self (clean text))),
    (Py.list_bool (sell_hits self (clean text))),
    (Py.list_bool (realtor_hits self (clean text)));
    simpl;
    try (split; [tauto | vm_compute; discriminate]).
  destruct Hhits as [H | [H | H]]; discriminate.
Qed.

(** C2: for a non-empty normalized text that passes both gates, the score
    is 2 for an intent hit, plus a positive [details_score], plus 1 each for
    an urgency hit, a realtor hit and a contact under [contact_bonus]; the
    decision is a lead exactly when the score is at least 3, and its reasons
    hold neither [no_intent] nor [insufficient_details]. *)
Theorem lead_scoring (self : t) (text : option pystr) :
  clean text <> [] ->
  gate1_rejects self (clean text) = false ->
  gate2_rejects self (clean text) = false ->
  let cleaned := clean text in
  let d := analyze self text in
  lead_score self cleaned = Claimed.score self cleaned
  /\ (is_lead d = true <-> 3 <= Claimed.score self cleaned)
  /\ ~ In (py "no_intent") (reasons d)
  /\ ~ In (py "insufficient_details") (reasons d).
Proof.
  intros Hne Hg1 Hg2 cleaned d. subst cleaned d.
  rewrite (analyze_nonempty self text Hne), Hg1, Hg2.
  unfold scored. simpl.
  rewrite <- (lead_score_claimed self (clean text)).
  split; [reflexivity|].
  split; [apply Z.leb_le|].
  apply reasons_of_no_gate_tag.
Qed.

(** C4: for a text that reaches the second gate, a [details_score] equal
    to [min_details_required] without a contact passes; a [details_score]
    below it without a contact is rejected as not a lead, with
    [insufficient_details] appended and the category kept; with a contact
    the gate never rejects. *)
Theorem sufficiency_gate (self : t) (text : option pystr) :
  clean text <> [] ->
  gate1_rejects self (clean text) = false ->
  let cleaned := clean text in
  let d := analyze self text in
  (details_score cleaned = min_details_required self ->
   has_contact cleaned = false ->
   gate2_rejects self cleaned = false /\ d = scored self cleaned)
  /\ (details_score cleaned < min_details_required self ->
      has_contact cleaned = false ->
      gate2_rejects self cleaned = true
      /\ d = rejected (py "insufficient_details") self cleaned)
  /\ (has_contact cleaned = true ->
      gate2_rejects self cleaned = false /\ d = scored self cleaned).
Proof.
  intros Hne Hg1 cleaned d. subst cleaned d.
  rewrite (analyze_nonempty self text Hne), Hg1.
  assert (Hpass : gate2_rejects self (clean text) = false ->
                  gate2_rejects self (clean text) = false
                  /\ (if gate2_rejects self (clean text)
                      then rejected (py "insufficient_details") self
                             (clean text)
                      else scored self (clean text))
                     = scored self (clean text)).
  { intros Hg. rewrite Hg. split; reflexivity. }
  split; [|split].
  - intros Heq Hcontact. apply Hpass. unfold gate2_rejects.
    rewrite Heq, Z.ltb_irrefl. reflexivity.
  - intros Hlt Hcontact.
    assert (Hg : gate2_rejects self (clean text) = true).
    { unfold gate2_rejects. rewrite Hcontact.
      apply Z.ltb_lt in Hlt. rewrite Hlt. reflexivity. }
    rewrite Hg. split; reflexivity.
  - intros Hcontact. apply Hpass. unfold gate2_rejects.
    rewrite Hcontact. apply andb_false_r.
Qed.

(** C3, as amended: with [require_explicit_intent] set, a text whose
    normalized form is not empty and holds none of the buy, sell and
    realtor-help keywords is not a lead; its reasons are the assembled
    reasons followed by [no_intent], and its category is the computed one,
    which is [none]. *)
Theorem intent_gate (self : t) (text : option pystr) :
  require_explicit_intent self = true ->
  clean text <> [] ->
  (forall kw,
     In kw (buy_keywords self ++ sell_keywords self ++ realtor_keywords self) ->
     Py.str_in kw (clean text) = false) ->
  let cleaned := clean text in
  let d := analyze self text in
  is_lead d = false
  /\ reasons d = reasons_of self cleaned ++ [py "no_intent"]
  /\ category d = category_of self cleaned
  /\ category d = py "none".
Proof.
  intros Hreq Hne Hkw cleaned d. subst cleaned d.
  assert (Hb : buy_hits self (clean text) = []).
  { apply hits_none. intros kw Hin. apply Hkw, in_or_app. left. exact Hin. }
  assert (Hs : sell_hits self (clean text) = []).
  { apply hits_none. intros kw Hin.
    apply Hkw, in_or_app. right. apply in_or_app. left. exact Hin. }
  assert (Hr : realtor_hits self (clean text) = []).
  { apply hits_none. intros kw Hin.
    apply Hkw, in_or_app. right. apply in_or_app. right. exact Hin. }
  assert (Hg : gate1_rejects self (clean text) = true).
  { unfold gate1_rejects, intent_hits. rewrite Hreq, Hb, Hs, Hr. reflexivity. }
  rewrite (analyze_nonempty self text Hne), Hg.
  unfold rejected. simpl. repeat split.
  unfold category_of. rewrite Hb, Hs, Hr. reflexivity.
Qed.

(** C6, as amended: for a non-empty normalized text the assembled reasons
    are one count tag per keyword category with a hit, in the order
    [buy_keywords:n], [sell_keywords:n], [urgency_keywords:n],
    [realtor_keywords:n], [detail_keywords:n], followed by one flag tag per
    true signal in the order [has_budget], [has_location], [has_area],
    [has_contact]; the decision's reasons are these, followed by the tag of
    the gate that rejected, if one did. *)
Theorem reasons_assembly (self : t) (text : option pystr) :
  clean text <> [] ->
  let cleaned := clean text in
  let d := analyze self text in
  reasons_of self cleaned = Claimed.reasons "detail" self cleaned
  /\ (reasons d = reasons_of self cleaned
      \/ reasons d = reasons_of self cleaned ++ [py "no_intent"]
      \/ reasons d = reasons_of self cleaned ++ [py "insufficient_details"]).
Proof.
  intros Hne cleaned d. subst cleaned d.
  split; [apply reasons_of_claimed|].
  rewrite (analyze_nonempty self text Hne).
  destruct (gate1_rejects self (clean text)); [right; left; reflexivity|].
  destruct (gate2_rejects self (clean text)); [right; right|left];
    reflexivity.
Qed.

End AnalyzerFacts.

(** ** The store *)
Section StorageFacts.
Context `{rt : PyRuntime}.
Import LeadStorage.

Lemma key_taken_select (d : database) (chat msg : Z) :
  key_taken d chat msg = Py.list_bool (select_key d chat msg).
Proof.
  unfold key_taken, select_key.
  induction (leads d) as [|[i r] rows IH]; simpl; [reflexivity|].
  destruct (same_key chat msg r); simpl; [reflexivity|exact IH].
Qed.

Lemma select_append (d : database) (r : row) (chat msg : Z) :
  select_key (append_row d r) chat msg
  = select_key d chat msg ++ (if same_key chat msg r then [r] else []).
Proof.
  unfold select_key, append_row. simpl.
  rewrite map_app, List.filter_app. reflexivity.
Qed.

Lemma same_key_row_of (c : call) :
  same_key (c_chat_id c) (c_message_id c) (row_of c) = true.
Proof.
  unfold same_key.
  change (chat_id (row_of c)) with (c_chat_id c).
  change (message_id (row_of c)) with (c_message_id c).
  rewrite !Z.eqb_refl. reflexivity.
Qed.

Lemma same_key_other (chat msg : Z) (c : call) :
  (chat, msg) <> (c_chat_id c, c_message_id c) ->
  same_key chat msg (row_of c) = false.
Proof.
  intros Hne. unfold same_key.
  change (chat_id (row_of c)) with (c_chat_id c).
  change (message_id (row_of c)) with (c_message_id c).
  destruct (Z.eqb_spec (c_chat_id c) chat) as [Hc|]; [|reflexivity].
  destruct (Z.eqb_spec (c_message_id c) msg) as [Hm|]; [|reflexivity].
  congruence.
Qed.

(** *** Binding and record sizes *)

Lemma bind_param_raises (v : SQLite.value) (e : Py.exn) :
  SQLite.bind_param v = Py.Raised e -> e <> Py.IntegrityError.
Proof.
  destruct v as [|z|s]; unfold SQLite.bind_param.
  - discriminate.
  - destruct (_ && _); [discriminate|]. intros [= <-]. discriminate.
  - destruct (Py.utf8_encode s) as [bytes|]; [|intros [= <-]; discriminate].
    destruct (SQLite.INT_MAX <? _); [intros [= <-]; discriminate|].
    destruct (SQLite.MAX_LENGTH <? _); [intros [= <-]|]; discriminate.
Qed.

Lemma bind_parameters_raises (vs : list SQLite.value) (e : Py.exn) :
  SQLite.bind_parameters vs = Py.Raised e -> e <> Py.IntegrityError.
Proof.
  induction vs as [|v rest IH]; [discriminate|].
  cbn [SQLite.bind_parameters]. destruct (SQLite.bind_param v) eqn:Hv;
    cbn [Py.bind].
  - exact IH.
  - intros [= <-]. exact (bind_param_raises v _ Hv).
Qed.

Lemma varint_len_bounds (v : Z) : 1 <= SQLite.varint_len v <= 9.
Proof.
  unfold SQLite.varint_len.
  repeat match goal with |- context [?a <? ?b] => destruct (a <? b) end; lia.
Qed.

Lemma int_size_bounds (z : Z) : 0 <= SQLite.int_size z <= 8.
Proof.
  unfold SQLite.int_size. destruct (_ || _); [lia|]. cbv zeta.
  repeat match goal with |- context [?a <=? ?b] => destruct (a <=? b) end;
    lia.
Qed.

Lemma text_size_nonneg (s : pystr) : 0 <= SQLite.text_size s.
Proof. unfold SQLite.text_size. destruct (Py.utf8_encode s); lia. Qed.

Lemma header_size_lower (types : Z) : types + 1 <= SQLite.header_size types.
Proof.
  unfold SQLite.header_size. destruct (types <=? 126); [lia|]. cbv zeta.
  pose proof (varint_len_bounds types).
  destruct (_ <? _); lia.
Qed.

Lemma header_size_small (types : Z) :
  types <= 126 -> SQLite.header_size types = types + 1.
Proof.
  intros H. unfold SQLite.header_size.
  destruct (Z.leb_spec types 126); [reflexivity | lia].
Qed.

(** A row whose record fits has a status whose index key fits, under any
    rowid. *)
Lemma index_fits (r : row) (rowid : Z) :
  SQLite.too_big (SQLite.Null :: parameters r) = false ->
  SQLite.too_big [SQLite.Text (status r); SQLite.Integer rowid] = false.
Proof.
  unfold SQLite.too_big, SQLite.record_size, parameters.
  cbn [map SQLite.total fold_right SQLite.serial_type_len SQLite.data_size].
  intros H. apply Z.ltb_ge in H. apply Z.ltb_ge.
  pose proof (varint_len_bounds (2 * SQLite.text_size (status r) + 13)).
  pose proof (varint_len_bounds (2 * SQLite.text_size (chat_title r) + 13)).
  pose proof (varint_len_bounds (2 * SQLite.text_size (message_text r) + 13)).
  pose proof (varint_len_bounds (2 * SQLite.text_size (message_hash r) + 13)).
  pose proof (varint_len_bounds (2 * SQLite.text_size (category r) + 13)).
  pose proof (varint_len_bounds (2 * SQLite.text_size (reasons r) + 13)).
  pose proof (varint_len_bounds (2 * SQLite.text_size (created_at r) + 13)).
  pose proof (int_size_bounds rowid).
  pose proof (int_size_bounds (message_id r)).
  pose proof (int_size_bounds (chat_id r)).
  pose proof (text_size_nonneg (chat_title r)).
  pose proof (text_size_nonneg (message_text r)).
  pose proof (text_size_nonneg (message_hash r)).
  pose proof (text_size_nonneg (category r)).
  pose proof (text_size_nonneg (reasons r)).
  pose proof (text_size_nonneg (created_at r)).
  rewrite header_size_small by lia.
  match type of H with
  | SQLite.header_size ?t + _ <= _ => pose proof (header_size_lower t)
  end.
  destruct (user_id r) as [u|];
    cbn [SQLite.serial_type_len SQLite.data_size] in *;
    [pose proof (int_size_bounds u)|]; lia.
Qed.

(** *** The next rowid *)

Lemma fold_max_lower (b : Z) (l : list Z) : b <= fold_right Z.max b l.
Proof. induction l as [|x l IH]; cbn [fold_right]; lia. Qed.

Lemma fold_max_upper (b : Z) (l : list Z) :
  Forall (fun i => i <= fold_right Z.max b l) l.
Proof.
  induction l as [|x l IH]; cbn [fold_right]; constructor; [lia|].
  eapply Forall_impl; [exact IH|]. intros i Hi. cbn in Hi. lia.
Qed.

Lemma fold_max_above (b : Z) (l : list Z) :
  Forall (fun i => i <= b) l -> fold_right Z.max b l = b.
Proof.
  induction 1 as [|x l Hx _ IH]; cbn [fold_right]; [reflexivity|].
  rewrite IH. lia.
Qed.

Lemma new_rowid_append (d : database) (r : row) :
  new_rowid (append_row d r) = new_rowid d + 1.
Proof.
  unfold append_row. cbv zeta. unfold new_rowid at 1. cbn [leads last_id].
  rewrite map_app, fold_right_app. cbn [map fst fold_right].
  rewrite Z.max_id. f_equal. apply fold_max_above.
  eapply Forall_impl; [apply (fold_max_upper (last_id d))|].
  intros i Hi. cbn in Hi. unfold new_rowid. lia.
Qed.

(** *** One call *)

(** What one call does, stage by stage. *)
Lemma insert_cases (self : t) (c : call) :
  insert self c =
    match hash_text (c_message_text c) with
    | Py.Raised e => (Py.Raised e, self)
    | Py.Returned _ =>
        if negb (conn_open self) then (Py.Raised Py.ProgrammingError, self)
        else
          match SQLite.bind_parameters (parameters (row_of c)) with
          | Py.Raised e => (Py.Raised e, self)
          | Py.Returned _ =>
              if SQLite.MAX_ROWID <? new_rowid (conn self)
              then (Py.Raised Py.OperationalError, self)
              else if SQLite.too_big
                        [SQLite.Text (c_status c);
                         SQLite.Integer (new_rowid (conn self))]
              then (Py.Raised Py.DataError, self)
              else if key_taken (conn self) (c_chat_id c) (c_message_id c)
              then (Py.Returned false, self)
              else if SQLite.too_big
                        (SQLite.Null :: parameters (row_of c))
              then (Py.Raised Py.DataError, self)
              else
                (Py.Returned true,
                 {| conn_open := true;
                    conn := append_row (conn self) (row_of c) |})
          end
    end.
Proof.
  unfold insert, insert_message.
  destruct (hash_text (c_message_text c)) as [h|e] eqn:Hh; [|reflexivity].
  assert (Hrow : values (c_message_id c) (c_chat_id c) (c_user_id c)
                   (c_chat_title c) (c_message_text c) h (c_category c)
                   (c_status c) (c_reasons c) (c_created_at c) = row_of c).
  { unfold row_of. rewrite Hh. reflexivity. }
  rewrite Hrow. unfold execute_insert.
  change (chat_id (row_of c)) with (c_chat_id c).
  change (message_id (row_of c)) with (c_message_id c).
  change (status (row_of c)) with (c_status c).
  destruct (conn_open self); cbn [negb Py.bind]; [|reflexivity].
  destruct (SQLite.bind_parameters (parameters (row_of c))) as [[]|e] eqn:Hb;
    cbn [Py.bind].
  - destruct (SQLite.MAX_ROWID <? _); cbn [Py.bind]; [reflexivity|].
    destruct (SQLite.too_big [_; _]); cbn [Py.bind]; [reflexivity|].
    destruct (key_taken _ _ _); cbn [Py.bind]; [reflexivity|].
    destruct (SQLite.too_big (_ :: _)); reflexivity.
  - pose proof (bind_parameters_raises _ _ Hb) as Hne.
    destruct e; try reflexivity. contradiction.
Qed.

(** A call either leaves the storage exactly as it was, and then it did
    not return [True]; or its key was free on an open storage, it returned
    [True] and its row is the new last row. *)
Lemma insert_outcome (self : t) (c : call) :
  (exists r, insert self c = (r, self) /\ Table.inserted r = false)
  \/ (conn_open self = true
      /\ key_taken (conn self) (c_chat_id c) (c_message_id c) = false
      /\ insert self c
         = (Py.Returned true,
            {| conn_open := true;
               conn := append_row (conn self) (row_of c) |})).
Proof.
  rewrite insert_cases.
  destruct (hash_text _); [|left; eexists; split; reflexivity].
  destruct (conn_open self); cbn [negb];
    [|left; eexists; split; reflexivity].
  destruct (SQLite.bind_parameters _) as [[]|e];
    [|left; eexists; split; reflexivity].
  destruct (SQLite.MAX_ROWID <? _); [left; eexists; split; reflexivity|].
  destruct (SQLite.too_big [_; _]); [left; eexists; split; reflexivity|].
  destruct (key_taken _ _ _) eqn:Hk; [left; eexists; split; reflexivity|].
  destruct (SQLite.too_big (_ :: _)); [left; eexists; split; reflexivity|].
  right. repeat split.
Qed.

(** A call SQLite takes, on an open storage with a rowid left, is decided
    by its key alone. *)
Lemma insert_storable (self : t) (c : call) :
  storable c = true ->
  conn_open self = true ->
  1 <= room (conn self) ->
  insert self c =
    if key_taken (conn self) (c_chat_id c) (c_message_id c)
    then (Py.Returned false, self)
    else (Py.Returned true,
          {| conn_open := true; conn := append_row (conn self) (row_of c) |}).
Proof.
  unfold storable, room. intros Hs Ho Hroom. rewrite insert_cases, Ho.
  destruct (hash_text _); [|discriminate].
  destruct (SQLite.bind_parameters _) as [[]|e]; [|discriminate].
  apply negb_true_iff in Hs. cbn [negb].
  destruct (Z.ltb_spec SQLite.MAX_ROWID (new_rowid (conn self))); [lia|].
  change (c_status c) with (status (row_of c)).
  rewrite (index_fits _ _ Hs), Hs. reflexivity.
Qed.

Lemma insert_keeps_open (self : t) (c : call) :
  conn_open (insert self c).2 = conn_open self.
Proof.
  destruct (insert_outcome self c) as [(r & -> & _) | (Ho & _ & ->)];
    [reflexivity | symmetry; exact Ho].
Qed.

Lemma run_cons (self : t) (c : call) (rest : list call) :
  (run self (c :: rest)).2 = (run (insert self c).2 rest).2.
Proof.
  cbn [run]. destruct (insert self c) as [r self']. cbn [snd].
  destruct (run self' rest) as [rs self'']. reflexivity.
Qed.

Lemma run_keeps_open (calls : list call) (self : t) :
  conn_open (run self calls).2 = conn_open self.
Proof.
  revert self. induction calls as [|c rest IH]; intros self; [reflexivity|].
  rewrite run_cons, IH. apply insert_keeps_open.
Qed.

(** Each call takes at most one rowid. *)
Lemma insert_room (self : t) (c : call) :
  room (conn self) - 1 <= room (conn (insert self c).2).
Proof.
  destruct (insert_outcome self c) as [(r & -> & _) | (_ & _ & ->)];
    cbn [snd conn]; [lia|].
  unfold room. rewrite new_rowid_append. lia.
Qed.

Lemma run_room (calls : list call) (self : t) :
  room (conn self) - Z.of_nat (List.length calls)
  <= room (conn (run self calls).2).
Proof.
  revert self. induction calls as [|c rest IH]; intros self.
  - cbn. lia.
  - rewrite run_cons. specialize (IH (insert self c).2).
    pose proof (insert_room self c). cbn [List.length]. lia.
Qed.

(** The rows stored under a taken key are out of reach of any later
    call. *)
Lemma insert_keeps_taken (self : t) (c : call) (chat msg : Z) :
  key_taken (conn self) chat msg = true ->
  select_key (conn (insert self c).2) chat msg
  = select_key (conn self) chat msg.
Proof.
  intros Htaken.
  destruct (insert_outcome self c) as [(r & -> & _) | (_ & Hc & ->)];
    [reflexivity|].
  cbn [snd conn]. rewrite select_append.
  rewrite same_key_other; [apply app_nil_r|].
  intros [= -> ->]. congruence.
Qed.

Lemma run_keeps_taken (calls : list call) (self : t) (chat msg : Z) :
  key_taken (conn self) chat msg = true ->
  select_key (conn (run self calls).2) chat msg
  = select_key (conn self) chat msg.
Proof.
  revert self. induction calls as [|c rest IH]; intros self Htaken;
    [reflexivity|].
  rewrite run_cons.
  pose proof (insert_keeps_taken self c chat msg Htaken) as Hstep.
  rewrite IH; [exact Hstep|].
  rewrite key_taken_select, Hstep, <- key_taken_select. exact Htaken.
Qed.

(** After a call SQLite takes, on an open storage with a rowid left, its
    key is taken, whether the call inserted or not. *)
Lemma insert_takes_key (self : t) (c : call) :
  storable c = true ->
  conn_open self = true ->
  1 <= room (conn self) ->
  key_taken (conn (insert self c).2) (c_chat_id c) (c_message_id c) = true.
Proof.
  intros Hs Ho Hroom. rewrite (insert_storable self c Hs Ho Hroom).
  destruct (key_taken (conn self) (c_chat_id c) (c_message_id c)) eqn:Hc;
    cbn [fst snd conn conn_open negb]; [exact Hc|].
  rewrite key_taken_select, select_append, same_key_row_of.
  rewrite list_bool_app. apply orb_true_r.
Qed.

Lemma insert_fresh (self : t) (c : call) :
  storable c = true ->
  conn_open self = true ->
  1 <= room (conn self) ->
  key_taken (conn self) (c_chat_id c) (c_message_id c) = false ->
  (insert self c).1 = Py.Returned true
  /\ select_key (conn (insert self c).2) (c_chat_id c) (c_message_id c)
     = [row_of c].
Proof.
  intros Hs Ho Hroom Hfree.
  rewrite (insert_storable self c Hs Ho Hroom), Hfree.
  cbn [fst snd conn conn_open negb].
  split; [reflexivity|].
  rewrite select_append, same_key_row_of.
  rewrite key_taken_select in Hfree. apply list_bool_false in Hfree.
  rewrite Hfree. reflexivity.
Qed.

Lemma insert_duplicate (self : t) (c : call) :
  storable c = true ->
  conn_open self = true ->
  1 <= room (conn self) ->
  key_taken (conn self) (c_chat_id c) (c_message_id c) = true ->
  insert self c = (Py.Returned false, self).
Proof.
  intros Hs Ho Hroom Htaken.
  rewrite (insert_storable self c Hs Ho Hroom), Htaken. reflexivity.
Qed.

(** Whatever a call passes, on a taken key it neither returns [True] nor
    changes the storage. *)
Lemma insert_on_taken_key (self : t) (c : call) :
  key_taken (conn self) (c_chat_id c) (c_message_id c) = true ->
  (insert self c).2 = self /\ Table.inserted (insert self c).1 = false.
Proof.
  intros Hk.
  destruct (insert_outcome self c) as [(r & -> & Hr) | (_ & Hfree & _)];
    [split; [reflexivity | exact Hr] | congruence].
Qed.

(** C1: in every sequence of [insert_message] calls on a storage, a call
    that SQLite takes (its integers are within 64 bits, its texts encode
    as UTF-8 and its row is within the length limit), made while the table
    has a rowid left, returns [False] when its (chat_id, message_id) is
    already stored (it does not raise) and leaves the storage as it was;
    when its key is not yet stored it returns [True] and stores its row;
    from then on every such call with that key returns [False] and changes
    nothing, whatever values it passes, and the rows stored under the key
    stay as they are through all later calls. *)
Theorem duplicate_insert (file : option database)
    (before : list call) (c : call) (after : list call) :
  storable c = true ->
  1 <= room (conn (run (__init__ file) before).2) ->
  let s1 := (run (__init__ file) before).2 in
  let s2 := (insert s1 c).2 in
  let s3 := (run s2 after).2 in
  let taken := key_taken (conn s1) (c_chat_id c) (c_message_id c) in
  (insert s1 c).1 = Py.Returned (negb taken)
  /\ (taken = true -> s2 = s1)
  /\ (taken = false ->
      select_key (conn s2) (c_chat_id c) (c_message_id c) = [row_of c])
  /\ (forall c',
        c_chat_id c' = c_chat_id c -> c_message_id c' = c_message_id c ->
        storable c' = true -> 1 <= room (conn s2) ->
        insert s2 c' = (Py.Returned false, s2))
  /\ select_key (conn s3) (c_chat_id c) (c_message_id c)
     = select_key (conn s2) (c_chat_id c) (c_message_id c).
Proof.
  intros Hs Hroom s1 s2 s3 taken. fold s1 in Hroom.
  assert (Ho1 : conn_open s1 = true).
  { subst s1. rewrite run_keeps_open. reflexivity. }
  assert (Ho2 : conn_open s2 = true).
  { subst s2. rewrite insert_keeps_open. exact Ho1. }
  assert (Hk2 : key_taken (conn s2) (c_chat_id c) (c_message_id c) = true).
  { subst s2. apply insert_takes_key; assumption. }
  split; [|split; [|split; [|split]]].
  - destruct taken eqn:Ht; subst taken.
    + rewrite (insert_duplicate s1 c Hs Ho1 Hroom Ht). reflexivity.
    + apply (insert_fresh s1 c Hs Ho1 Hroom Ht).
  - intros Ht. subst taken s2.
    rewrite (insert_duplicate s1 c Hs Ho1 Hroom Ht). reflexivity.
  - intros Ht. subst taken s2. apply (insert_fresh s1 c Hs Ho1 Hroom Ht).
  - intros c' Hchat Hmsg Hs' Hroom'. apply insert_duplicate; try assumption.
    rewrite Hchat, Hmsg. exact Hk2.
  - subst s3. apply run_keeps_taken, Hk2.
Qed.

Lemma both_stored_fresh (self : t) (a b : call) (later : list call) :
  conn_open self = true ->
  (c_chat_id a, c_message_id a) <> (c_chat_id b, c_message_id b) ->
  c_message_text a = c_message_text b ->
  storable a = true ->
  storable b = true ->
  2 <= room (conn self) ->
  key_taken (conn self) (c_chat_id a) (c_message_id a) = false ->
  key_taken (conn self) (c_chat_id b) (c_message_id b) = false ->
  both_stored self a b later.
Proof.
  intros Ho0 Hkeys Htext Hsta Hstb Hroom Ha Hb. unfold both_stored.
  set (s1 := (insert self a).2). set (s2 := (insert s1 b).2).
  assert (Hroom0 : 1 <= room (conn self)) by lia.
  assert (Ho1 : conn_open s1 = true).
  { subst s1. rewrite insert_keeps_open. exact Ho0. }
  assert (Hroom1 : 1 <= room (conn s1)).
  { subst s1. pose proof (insert_room self a). lia. }
  destruct (insert_fresh self a Hsta Ho0 Hroom0 Ha) as [Hra Hsa].
  fold s1 in Hsa.
  assert (Hb1 : key_taken (conn s1) (c_chat_id b) (c_message_id b) = false).
  { subst s1. rewrite (insert_storable self a Hsta Ho0 Hroom0), Ha.
    cbn [fst snd conn negb].
    rewrite key_taken_select, select_append.
    rewrite (same_key_other _ _ a); [|congruence].
    rewrite app_nil_r, <- key_taken_select. exact Hb. }
  destruct (insert_fresh s1 b Hstb Ho1 Hroom1 Hb1) as [Hrb Hsb].
  fold s2 in Hsb.
  assert (Hta : key_taken (conn s1) (c_chat_id a) (c_message_id a) = true).
  { subst s1. apply insert_takes_key; assumption. }
  assert (Hsa2 : select_key (conn s2) (c_chat_id a) (c_message_id a)
                 = [row_of a]).
  { subst s2. rewrite (insert_keeps_taken s1 b _ _ Hta). exact Hsa. }
  split; [exact Hra|]. split; [exact Hrb|].
  split; [|split; [|split]].
  - rewrite run_keeps_taken; [exact Hsa2|].
    rewrite key_taken_select, Hsa2. reflexivity.
  - rewrite run_keeps_taken; [exact Hsb|].
    rewrite key_taken_select, Hsb. reflexivity.
  - unfold row_of, values. cbn [message_hash]. rewrite Htext. reflexivity.
  - unfold storable in Hsta. unfold row_of at 1, values. cbn [message_hash].
    unfold hash_text in *.
    destruct (Py.utf8_encode (str_lower (str_strip (c_message_text a))))
      as [bytes|]; [|discriminate].
    exists bytes. split; reflexivity.
Qed.

(** C8: two calls that SQLite takes, with different (chat_id, message_id)
    and the same [message_text], both return [True], both rows are stored
    and stay stored through later calls, and both carry the same
    [message_hash], the digest of the UTF-8 bytes of the trimmed,
    lowercased text: on a new database, and on every storage reached by
    earlier calls that holds neither key and has two rowids left. *)
Theorem distinct_keys_same_text (a b : call) :
  (c_chat_id a, c_message_id a) <> (c_chat_id b, c_message_id b) ->
  c_message_text a = c_message_text b ->
  storable a = true ->
  storable b = true ->
  (forall later, both_stored (__init__ None) a b later)
  /\ (forall file before later,
        let self := (run (__init__ file) before).2 in
        key_taken (conn self) (c_chat_id a) (c_message_id a) = false ->
        key_taken (conn self) (c_chat_id b) (c_message_id b) = false ->
        2 <= room (conn self) ->
        both_stored self a b later).
Proof.
  intros Hkeys Htext Hsa Hsb. split.
  - intros later. apply both_stored_fresh; auto.
    unfold room, new_rowid, SQLite.MAX_ROWID. cbn. lia.
  - intros file before later self Ha Hb Hroom.
    apply both_stored_fresh; auto.
    subst self. rewrite run_keeps_open. reflexivity.
Qed.

End StorageFacts.

(** ** The notification target *)
Section NotificationFacts.
Context `{rt : PyRuntime}.

Lemma resolve_with_handle (config : Config) (v : Py.value) :
  notification config !! "target_bot_username" = Some v ->
  Py.truthy v = true ->
  resolve_notification_target config
  = Py.Returned (TargetName (str_strip (Py.str_of v))).
Proof.
  intros Hv Ht. unfold resolve_notification_target, dict_get.
  rewrite Hv. simpl. rewrite Ht. reflexivity.
Qed.

Lemma resolve_without_handle (config : Config) :
  Py.truthy (dict_get (notification config) "target_bot_username") = false ->
  resolve_notification_target config
  = match notification config !! "target_telegram_id" with
    | Some v => Py.bind (py_int v) (fun z => Py.Returned (TargetId z))
    | None => Py.Raised (Py.KeyError "target_telegram_id")
    end.
Proof.
  intros Hf. unfold resolve_notification_target. rewrite Hf. reflexivity.
Qed.

(** C10: when the configuration holds both a handle (a non-empty [str]
    under [target_bot_username]) and a numeric target, the resolved target
    is the handle without the whitespace at its two ends, not the numeric
    identity; a numeric identity is returned only when the handle is absent
    or empty, and then it is [int] of [target_telegram_id]. *)
Theorem handle_preferred (config : Config) :
  (forall h v,
     notification config !! "target_bot_username" = Some (Py.VStr h) ->
     h <> [] ->
     notification config !! "target_telegram_id" = Some v ->
     resolve_notification_target config
     = Py.Returned (TargetName (str_strip h))
     /\ (exists pre post,
           h = pre ++ str_strip h ++ post
           /\ forallb isspace pre = true /\ forallb isspace post = true)
     /\ (forall c rest, str_strip h = c :: rest -> isspace c = false)
     /\ (forall c rest, str_strip h = rest ++ [c] -> isspace c = false))
  /\ (forall z,
        resolve_notification_target config = Py.Returned (TargetId z) ->
        (notification config !! "target_bot_username" = None
         \/ exists v,
              notification config !! "target_bot_username" = Some v
              /\ Py.truthy v = false)
        /\ (forall h,
              notification config !! "target_bot_username"
              = Some (Py.VStr h) -> h = [])
        /\ exists v,
             notification config !! "target_telegram_id" = Some v
             /\ py_int v = Py.Returned z).
Proof.
  split.
  - intros h v Hh Hne _. split; [|apply strip_spec].
    rewrite (resolve_with_handle config (Py.VStr h) Hh); [reflexivity|].
    destruct h; [congruence|reflexivity].
  - intros z Hres.
    destruct (notification config !! "target_bot_username") as [u|] eqn:Hu.
    + destruct (Py.truthy u) eqn:Ht.
      * rewrite (resolve_with_handle config u Hu Ht) in Hres. discriminate.
      * assert (Hf : Py.truthy
                       (dict_get (notification config) "target_bot_username")
                     = false).
        { unfold dict_get. rewrite Hu. exact Ht. }
        rewrite (resolve_without_handle config Hf) in Hres.
        split; [right; exists u; split; [reflexivity|exact Ht]|].
        split.
        { intros h [= ->]. destruct h; [reflexivity|discriminate]. }
        destruct (notification config !! "target_telegram_id") as [v|];
          [|discriminate].
        exists v. split; [reflexivity|].
        destruct (py_int v); simpl in Hres; congruence.
    + assert (Hf : Py.truthy
                     (dict_get (notification config) "target_bot_username")
                   = false).
      { unfold dict_get. rewrite Hu. reflexivity. }
      rewrite (resolve_without_handle config Hf) in Hres.
      split; [left; reflexivity|].
      split; [intros h Hh; discriminate|].
      destruct (notification config !! "target_telegram_id") as [v|];
        [|discriminate].
      exists v. split; [reflexivity|].
      destruct (py_int v); simpl in Hres; congruence.
Qed.

End NotificationFacts.

(** ** The code on concrete inputs, under the reference runtime *)
Section Concrete.
#[local] Existing Instance Reference.runtime.
Import LeadAnalyzer.

(** A closed equation or disequation, decided by running the code. *)
Ltac run_code := vm_compute; first [reflexivity | discriminate].

(** None of the listed keywords occurs in the text: one run per keyword. *)
Ltac each_keyword :=
  let kw := fresh "kw" in
  let Hin := fresh "Hin" in
  intros kw Hin; simpl in Hin;
  repeat (destruct Hin as [<- | Hin]; [run_code|]);
  contradiction.

(** [Demo.analyzer] is what [LeadAnalyzer(Demo.config)] builds. *)
Example analyzer_of_config :
  LeadAnalyzer.__init__ Demo.config = Py.Returned Demo.analyzer.
Proof. vm_compute. reflexivity. Qed.

(** [test_analyzer_detects_valid_buy_lead]. *)
Example detects_valid_buy_lead :
  is_lead (analyze Demo.analyzer (Some Demo.buy_text)) = true
  /\ category (analyze Demo.analyzer (Some Demo.buy_text)) = py "buy"
  /\ reasons (analyze Demo.analyzer (Some Demo.buy_text))
     = [py "buy_keywords:1"; py "urgency_keywords:1"; py "detail_keywords:1";
        py "has_budget"; py "has_location"; py "has_contact"].
Proof. vm_compute. repeat split. Qed.

(** [test_analyzer_rejects_irrelevant_message]. *)
Example rejects_irrelevant_message :
  analyze Demo.analyzer (Some Demo.news_text)
  = {| is_lead := false; reasons := [py "no_intent"]; category := py "none" |}.
Proof. vm_compute. reflexivity. Qed.

(** [test_runtime_config_accepts_bot_username_target], with whitespace
    around the handle and a numeric target beside it. *)
Example accepts_bot_username_target :
  validate_runtime_config Demo.config = Py.Returned tt
  /\ resolve_notification_target Demo.config
     = Py.Returned (TargetName (py "@my_leads_bot")).
Proof. vm_compute. split; reflexivity. Qed.

(** [test_storage_deduplicates_by_chat_and_message], on a new file. *)
Example storage_deduplicates :
  (LeadStorage.run (LeadStorage.__init__ None) [Demo.call1; Demo.call1]).1
  = [Py.Returned true; Py.Returned false].
Proof. vm_compute. reflexivity. Qed.

(** A call on a closed storage raises. *)
Example insert_after_close :
  (LeadStorage.insert (LeadStorage.close (LeadStorage.__init__ None))
     Demo.call1).1
  = Py.Raised Py.ProgrammingError.
Proof. vm_compute. reflexivity. Qed.

Lemma analyze_empty_message_witness :
  (Some (py "   ") = None
   \/ (exists s, Some (py "   ") = Some s /\ forallb isspace s = true)
   \/ clean (Some (py "   ")) = [])
  /\ analyze Demo.analyzer (Some (py "   ")) = empty_decision.
Proof.
  assert (H : Some (py "   ") = None
              \/ (exists s, Some (py "   ") = Some s
                            /\ forallb isspace s = true)
              \/ clean (Some (py "   ")) = []).
  { right. left. exists (py "   "). split; reflexivity. }
  exact (conj H
           (proj1 (analyze_empty_message Demo.analyzer (Some (py "   ")) H))).
Defined.

Lemma category_resolution_witness :
  clean (Some Demo.buy_text) <> []
  /\ category (analyze Demo.analyzer (Some Demo.buy_text))
     = category_of Demo.analyzer (clean (Some Demo.buy_text)).
Proof.
  assert (H : clean (Some Demo.buy_text) <> [])
    by run_code.
  exact (conj H
           (proj1 (category_resolution Demo.analyzer (Some Demo.buy_text) H))).
Defined.

Lemma lead_has_category_witness :
  require_explicit_intent Demo.analyzer = true
  /\ is_lead (analyze Demo.analyzer (Some Demo.buy_text)) = true
  /\ category (analyze Demo.analyzer (Some Demo.buy_text)) <> py "none".
Proof.
  assert (H1 : require_explicit_intent Demo.analyzer = true)
    by reflexivity.
  assert (H2 : is_lead (analyze Demo.analyzer (Some Demo.buy_text)) = true)
    by run_code.
  exact (conj H1 (conj H2
           (proj2 (lead_has_category Demo.analyzer (Some Demo.buy_text)
                     H1 H2)))).
Defined.

Lemma lead_scoring_witness :
  clean (Some Demo.buy_text) <> []
  /\ gate1_rejects Demo.analyzer (clean (Some Demo.buy_text)) = false
  /\ gate2_rejects Demo.analyzer (clean (Some Demo.buy_text)) = false
  /\ Claimed.score Demo.analyzer (clean (Some Demo.buy_text)) = 6
  /\ lead_score Demo.analyzer (clean (Some Demo.buy_text))
     = Claimed.score Demo.analyzer (clean (Some Demo.buy_text)).
Proof.
  assert (H : clean (Some Demo.buy_text) <> [])
    by run_code.
  assert (H1 : gate1_rejects Demo.analyzer (clean (Some Demo.buy_text))
               = false) by run_code.
  assert (H2 : gate2_rejects Demo.analyzer (clean (Some Demo.buy_text))
               = false) by run_code.
  assert (H3 : Claimed.score Demo.analyzer (clean (Some Demo.buy_text)) = 6)
    by run_code.
  exact (conj H (conj H1 (conj H2 (conj H3
           (proj1 (lead_scoring Demo.analyzer (Some Demo.buy_text)
                     H H1 H2)))))).
Defined.

(** A text with an intent keyword and no detail at all: below the
    threshold of 1, without a contact. *)
Lemma sufficiency_gate_witness :
  clean (Some (py "Продам срочно")) <> []
  /\ gate1_rejects Demo.analyzer (clean (Some (py "Продам срочно"))) = false
  /\ details_score (clean (Some (py "Продам срочно")))
     < min_details_required Demo.analyzer
  /\ has_contact (clean (Some (py "Продам срочно"))) = false
  /\ analyze Demo.analyzer (Some (py "Продам срочно"))
     = rejected (py "insufficient_details") Demo.analyzer
         (clean (Some (py "Продам срочно"))).
Proof.
  assert (H : clean (Some (py "Продам срочно")) <> [])
    by run_code.
  assert (H1 : gate1_rejects Demo.analyzer
                 (clean (Some (py "Продам срочно"))) = false)
    by run_code.
  assert (H2 : details_score (clean (Some (py "Продам срочно")))
               < min_details_required Demo.analyzer)
    by run_code.
  assert (H3 : has_contact (clean (Some (py "Продам срочно"))) = false)
    by run_code.
  exact (conj H (conj H1 (conj H2 (conj H3
           (proj2 (proj1 (proj2
              (sufficiency_gate Demo.analyzer (Some (py "Продам срочно"))
                 H H1)) H2 H3)))))).
Defined.

Lemma no_keyword_in_news (kw : pystr) :
  In kw (buy_keywords Demo.analyzer ++ sell_keywords Demo.analyzer
         ++ realtor_keywords Demo.analyzer) ->
  Py.str_in kw (clean (Some Demo.news_text)) = false.
Proof. revert kw. each_keyword. Defined.

Lemma intent_gate_witness :
  require_explicit_intent Demo.analyzer = true
  /\ clean (Some Demo.news_text) <> []
  /\ reasons (analyze Demo.analyzer (Some Demo.news_text))
     = reasons_of Demo.analyzer (clean (Some Demo.news_text))
       ++ [py "no_intent"].
Proof.
  assert (H1 : require_explicit_intent Demo.analyzer = true) by reflexivity.
  assert (H2 : clean (Some Demo.news_text) <> [])
    by run_code.
  exact (conj H1 (conj H2
           (proj1 (proj2
              (intent_gate Demo.analyzer (Some Demo.news_text) H1 H2
                 no_keyword_in_news))))).
Defined.

(** C3 as stated fails on a text of whitespace: no configured keyword
    occurs in it, and the decision carries [empty_message], not
    [no_intent]. *)
Lemma intent_gate_counterexample :
  require_explicit_intent Demo.analyzer = true
  /\ (forall kw,
        In kw (buy_keywords Demo.analyzer ++ sell_keywords Demo.analyzer
               ++ realtor_keywords Demo.analyzer) ->
        Py.str_in kw (clean (Some (py "   "))) = false)
  /\ analyze Demo.analyzer (Some (py "   ")) = empty_decision
  /\ reasons (analyze Demo.analyzer (Some (py "   "))) = [py "empty_message"]
  /\ ~ In (py "no_intent") (reasons (analyze Demo.analyzer (Some (py "   ")))).
Proof.
  split; [reflexivity|]. split; [each_keyword|].
  split; [run_code|]. split; [run_code|].
  vm_compute. intros [H | []]. discriminate H.
Qed.

Lemma reasons_assembly_witness :
  clean (Some (py "ремонт")) <> []
  /\ reasons_of Demo.lenient (clean (Some (py "ремонт")))
     = Claimed.reasons "detail" Demo.lenient (clean (Some (py "ремонт"))).
Proof.
  assert (H : clean (Some (py "ремонт")) <> [])
    by run_code.
  exact (conj H
           (proj1 (reasons_assembly Demo.lenient (Some (py "ремонт")) H))).
Defined.

(** C6 as stated fails for the details category: its count tag is
    [detail_keywords:n], not [details_keywords:n]. *)
Lemma reasons_assembly_counterexample :
  clean (Some (py "ремонт")) <> []
  /\ reasons (analyze Demo.lenient (Some (py "ремонт")))
     = [py "detail_keywords:1"]
  /\ reasons_of Demo.lenient (clean (Some (py "ремонт")))
     = [py "detail_keywords:1"]
  /\ Claimed.reasons "details" Demo.lenient (clean (Some (py "ремонт")))
     = [py "details_keywords:1"]
  /\ reasons_of Demo.lenient (clean (Some (py "ремонт")))
     <> Claimed.reasons "details" Demo.lenient (clean (Some (py "ремонт"))).
Proof.
  repeat split; run_code.
Qed.

Lemma duplicate_insert_witness :
  LeadStorage.storable Demo.call1_again = true
  /\ 1 <= LeadStorage.room
            (LeadStorage.conn
               (LeadStorage.run (LeadStorage.__init__ None) [Demo.call1]).2)
  /\ (LeadStorage.insert
        (LeadStorage.run (LeadStorage.__init__ None) [Demo.call1]).2
        Demo.call1_again).1
     = Py.Returned
         (negb
            (LeadStorage.key_taken
               (LeadStorage.conn
                  (LeadStorage.run (LeadStorage.__init__ None)
                     [Demo.call1]).2)
               (LeadStorage.c_chat_id Demo.call1_again)
               (LeadStorage.c_message_id Demo.call1_again))).
Proof.
  assert (H1 : LeadStorage.storable Demo.call1_again = true) by run_code.
  assert (H2 : 1 <= LeadStorage.room
                      (LeadStorage.conn
                         (LeadStorage.run (LeadStorage.__init__ None)
                            [Demo.call1]).2))
    by (apply Z.leb_le; run_code).
  exact (conj H1 (conj H2
           (proj1 (duplicate_insert None [Demo.call1] Demo.call1_again
                     [Demo.call2] H1 H2)))).
Defined.

Lemma utf8_encode_ascii (n : nat) :
  Py.utf8_encode (repeat 97%N n) = Some (repeat 97%N n).
Proof.
  induction n as [|n IH]; [reflexivity|].
  cbn [repeat Py.utf8_encode]. rewrite IH. reflexivity.
Qed.

(** Binding the oversized title raises [DataError]; the title itself is
    never written out. *)
Lemma bind_oversized_title :
  SQLite.bind_param (SQLite.Text Demo.oversized_title)
  = Py.Raised Py.DataError.
Proof.
  unfold SQLite.bind_param, Demo.oversized_title.
  rewrite utf8_encode_ascii, repeat_length.
  rewrite Z2Nat.id by (vm_compute; discriminate).
  reflexivity.
Qed.

Lemma insert_oversized (self : LeadStorage.t) :
  LeadStorage.conn_open self = true ->
  LeadStorage.insert self Demo.call1_oversized
  = (Py.Raised Py.DataError, self).
Proof.
  intros Ho. rewrite insert_cases, Ho.
  change (LeadStorage.c_message_text Demo.call1_oversized)
    with Demo.sell_text.
  assert (Hh : exists h, LeadStorage.hash_text Demo.sell_text = Py.Returned h)
    by (eexists; vm_compute; reflexivity).
  destruct Hh as [h Hh]. rewrite Hh. cbn [negb].
  assert (Hb : SQLite.bind_parameters
                 (LeadStorage.parameters
                    (LeadStorage.row_of Demo.call1_oversized))
               = Py.Raised Py.DataError).
  { unfold LeadStorage.parameters.
    change (LeadStorage.chat_title (LeadStorage.row_of Demo.call1_oversized))
      with Demo.oversized_title.
    change (LeadStorage.message_id (LeadStorage.row_of Demo.call1_oversized))
      with 1.
    change (LeadStorage.chat_id (LeadStorage.row_of Demo.call1_oversized))
      with 100.
    change (LeadStorage.user_id (LeadStorage.row_of Demo.call1_oversized))
      with (Some 200).
    cbn [SQLite.bind_parameters].
    rewrite bind_oversized_title. reflexivity. }
  rewrite Hb. reflexivity.
Qed.

(** C1 as stated fails for calls SQLite does not take and for a table
    without a rowid left.  After [call1] is stored, a call with its key
    raises [UnicodeEncodeError] when its text holds a lone surrogate and
    [DataError] when its title is over the length limit, where the claim
    has it return [False]; on a table whose ids have run out a call with a
    stored key raises [OperationalError]; and on a new database the first
    call with a key whose [message_id] is 2^63 raises [OverflowError] where
    the claim has it return [True].  None of these calls changes the
    storage. *)
Lemma duplicate_insert_counterexample :
  LeadStorage.key_taken
    (LeadStorage.conn (LeadStorage.insert (LeadStorage.__init__ None)
                         Demo.call1).2)
    (LeadStorage.c_chat_id Demo.call1_unpaired)
    (LeadStorage.c_message_id Demo.call1_unpaired) = true
  /\ LeadStorage.insert
       (LeadStorage.insert (LeadStorage.__init__ None) Demo.call1).2
       Demo.call1_unpaired
     = (Py.Raised Py.UnicodeEncodeError,
        (LeadStorage.insert (LeadStorage.__init__ None) Demo.call1).2)
  /\ (LeadStorage.insert
        (LeadStorage.insert (LeadStorage.__init__ None) Demo.call1).2
        Demo.call1_unpaired).1
     <> Py.Returned false
  /\ LeadStorage.key_taken
       (LeadStorage.conn (LeadStorage.insert (LeadStorage.__init__ None)
                            Demo.call1).2)
       (LeadStorage.c_chat_id Demo.call1_oversized)
       (LeadStorage.c_message_id Demo.call1_oversized) = true
  /\ LeadStorage.insert
       (LeadStorage.insert (LeadStorage.__init__ None) Demo.call1).2
       Demo.call1_oversized
     = (Py.Raised Py.DataError,
        (LeadStorage.insert (LeadStorage.__init__ None) Demo.call1).2)
  /\ LeadStorage.key_taken
       (LeadStorage.conn (LeadStorage.__init__ (Some Demo.exhausted)))
       (LeadStorage.c_chat_id Demo.call3)
       (LeadStorage.c_message_id Demo.call3) = true
  /\ LeadStorage.insert (LeadStorage.__init__ (Some Demo.exhausted))
       Demo.call3
     = (Py.Raised Py.OperationalError,
        LeadStorage.__init__ (Some Demo.exhausted))
  /\ LeadStorage.key_taken (LeadStorage.conn (LeadStorage.__init__ None))
       (LeadStorage.c_chat_id Demo.call_beyond_int64)
       (LeadStorage.c_message_id Demo.call_beyond_int64) = false
  /\ LeadStorage.insert (LeadStorage.__init__ None) Demo.call_beyond_int64
     = (Py.Raised Py.OverflowError, LeadStorage.__init__ None)
  /\ (LeadStorage.insert (LeadStorage.__init__ None)
        Demo.call_beyond_int64).1
     <> Py.Returned true.
Proof.
  split; [run_code|]. split; [run_code|]. split; [run_code|].
  split.
  { change (LeadStorage.c_chat_id Demo.call1_oversized) with 100.
    change (LeadStorage.c_message_id Demo.call1_oversized) with 1.
    run_code. }
  split; [apply insert_oversized; run_code|].
  repeat split; run_code.
Qed.

Lemma distinct_keys_same_text_witness :
  (LeadStorage.c_chat_id Demo.call1, LeadStorage.c_message_id Demo.call1)
  <> (LeadStorage.c_chat_id Demo.call2, LeadStorage.c_message_id Demo.call2)
  /\ LeadStorage.c_message_text Demo.call1
     = LeadStorage.c_message_text Demo.call2
  /\ LeadStorage.storable Demo.call1 = true
  /\ LeadStorage.storable Demo.call2 = true
  /\ LeadStorage.both_stored (LeadStorage.__init__ None) Demo.call1
       Demo.call2 [Demo.call1_again].
Proof.
  assert (H1 : (LeadStorage.c_chat_id Demo.call1,
                LeadStorage.c_message_id Demo.call1)
               <> (LeadStorage.c_chat_id Demo.call2,
                   LeadStorage.c_message_id Demo.call2))
    by run_code.
  assert (H2 : LeadStorage.c_message_text Demo.call1
               = LeadStorage.c_message_text Demo.call2)
    by run_code.
  assert (H3 : LeadStorage.storable Demo.call1 = true) by run_code.
  assert (H4 : LeadStorage.storable Demo.call2 = true) by run_code.
  exact (conj H1 (conj H2 (conj H3 (conj H4
           (proj1 (distinct_keys_same_text Demo.call1 Demo.call2
                     H1 H2 H3 H4)
              [Demo.call1_again]))))).
Defined.

(** C8 as stated fails for calls SQLite does not take and for a table
    without a rowid left: two calls with different keys and the same text,
    which holds a lone surrogate, both raise [UnicodeEncodeError] on a new
    database, and no row is stored; and [call1] and [call2], whose keys
    are free in a table whose ids have run out, both raise
    [OperationalError] there. *)
Lemma distinct_keys_same_text_counterexample :
  (LeadStorage.c_chat_id Demo.call1_unpaired,
   LeadStorage.c_message_id Demo.call1_unpaired)
  <> (LeadStorage.c_chat_id Demo.call2_unpaired,
      LeadStorage.c_message_id Demo.call2_unpaired)
  /\ LeadStorage.c_message_text Demo.call1_unpaired
     = LeadStorage.c_message_text Demo.call2_unpaired
  /\ LeadStorage.run (LeadStorage.__init__ None)
       [Demo.call1_unpaired; Demo.call2_unpaired]
     = ([Py.Raised Py.UnicodeEncodeError; Py.Raised Py.UnicodeEncodeError],
        LeadStorage.__init__ None)
  /\ ~ LeadStorage.both_stored (LeadStorage.__init__ None)
         Demo.call1_unpaired Demo.call2_unpaired []
  /\ LeadStorage.key_taken
       (LeadStorage.conn (LeadStorage.__init__ (Some Demo.exhausted)))
       (LeadStorage.c_chat_id Demo.call1)
       (LeadStorage.c_message_id Demo.call1) = false
  /\ LeadStorage.key_taken
       (LeadStorage.conn (LeadStorage.__init__ (Some Demo.exhausted)))
       (LeadStorage.c_chat_id Demo.call2)
       (LeadStorage.c_message_id Demo.call2) = false
  /\ LeadStorage.run (LeadStorage.__init__ (Some Demo.exhausted))
       [Demo.call1; Demo.call2]
     = ([Py.Raised Py.OperationalError; Py.Raised Py.OperationalError],
        LeadStorage.__init__ (Some Demo.exhausted)).
Proof.
  assert (Hrun : LeadStorage.run (LeadStorage.__init__ None)
                   [Demo.call1_unpaired; Demo.call2_unpaired]
                 = ([Py.Raised Py.UnicodeEncodeError;
                     Py.Raised Py.UnicodeEncodeError],
                    LeadStorage.__init__ None))
    by run_code.
  assert (Hfirst : (LeadStorage.insert (LeadStorage.__init__ None)
                      Demo.call1_unpaired).1
                   = Py.Raised Py.UnicodeEncodeError) by run_code.
  split; [run_code|]. split; [run_code|]. split; [exact Hrun|].
  split; [|repeat split; run_code].
  unfold LeadStorage.both_stored. intros (Ha & _).
  rewrite Hfirst in Ha. discriminate Ha.
Qed.

(** The three calls in a row on a new file: the redelivery is refused and
    the first row is the one stored. *)
Example redelivery_keeps_first_row :
  (LeadStorage.run (LeadStorage.__init__ None)
     [Demo.call1; Demo.call2; Demo.call1_again]).1
  = [Py.Returned true; Py.Returned true; Py.Returned false]
  /\ LeadStorage.select_key
       (LeadStorage.conn
          (LeadStorage.run (LeadStorage.__init__ None)
             [Demo.call1; Demo.call2; Demo.call1_again]).2) 100 1
     = [LeadStorage.row_of Demo.call1].
Proof. vm_compute. split; reflexivity. Qed.

End Concrete.

(** * Further properties of the code *)

(** ** Substrings and stripping *)
Section MoreStringFacts.

Lemma startswith_prefix (s p : pystr) :
  Py.startswith s p = true <-> exists post, s = p ++ post.
Proof.
  revert s. induction p as [|a p IH]; intros s.
  - split; [intros _; exists s; reflexivity | destruct s; reflexivity].
  - destruct s as [|b s]; simpl.
    + split; [discriminate | intros [post H]; discriminate].
    + rewrite andb_true_iff, N.eqb_eq, IH. split.
      * intros [-> [post ->]]. exists post. reflexivity.
      * intros [post [= -> ->]]. split; [reflexivity | exists post; reflexivity].
Qed.

(** [sub in s] holds exactly when [s] is [sub] between two strings. *)
Lemma str_in_occurs (sub s : pystr) :
  Py.str_in sub s = true <-> exists pre post, s = pre ++ sub ++ post.
Proof.
  induction s as [|c s IH].
  - cbn [Py.str_in]. rewrite orb_false_r, startswith_prefix. split.
    + intros [post H]. exists [], post. exact H.
    + intros (pre & post & H). symmetry in H.
      apply app_eq_nil in H as [-> H]. exists post. symmetry. exact H.
  - cbn [Py.str_in]. rewrite orb_true_iff, startswith_prefix, IH. split.
    + intros [[post H] | (pre & post & H)].
      * exists [], post. exact H.
      * exists (c :: pre), post. rewrite H. reflexivity.
    + intros (pre & post & H). destruct pre as [|a pre].
      * left. exists post. exact H.
      * right. injection H as _ H. exists pre, post. exact H.
Qed.

Lemma lstrip_app_space (sp : N -> bool) (pre s : pystr) :
  forallb sp pre = true ->
  Py.lstrip_with sp (pre ++ s) = Py.lstrip_with sp s.
Proof.
  induction pre as [|a pre IH]; simpl; [reflexivity|].
  intros H. apply andb_prop in H as [Ha Hpre]. rewrite Ha. auto.
Qed.

Lemma lstrip_app_rest (sp : N -> bool) (s t : pystr) :
  Py.lstrip_with sp s <> [] ->
  Py.lstrip_with sp (s ++ t) = Py.lstrip_with sp s ++ t.
Proof.
  induction s as [|a s IH]; simpl; [congruence|].
  destruct (sp a); [exact IH | reflexivity].
Qed.

Lemma lstrip_nil_space (sp : N -> bool) (s : pystr) :
  Py.lstrip_with sp s = [] -> forallb sp s = true.
Proof.
  induction s as [|a s IH]; simpl; [reflexivity|].
  destruct (sp a); [exact IH | discriminate].
Qed.

Lemma rstrip_app_space (sp : N -> bool) (s post : pystr) :
  forallb sp post = true ->
  Py.rstrip_with sp (s ++ post) = Py.rstrip_with sp s.
Proof.
  intros H. unfold Py.rstrip_with.
  rewrite rev_app_distr, lstrip_app_space; [reflexivity|].
  apply forallb_rev, H.
Qed.

(** Whitespace around a string does not change what [strip] returns. *)
Lemma strip_padding (sp : N -> bool) (pre s post : pystr) :
  forallb sp pre = true -> forallb sp post = true ->
  Py.strip_with sp (pre ++ s ++ post) = Py.strip_with sp s.
Proof.
  intros Hpre Hpost. unfold Py.strip_with.
  rewrite (lstrip_app_space sp pre _ Hpre).
  destruct (Py.lstrip_with sp s) as [|c rest] eqn:Hs.
  - rewrite lstrip_all_space; [reflexivity|].
    rewrite forallb_app, (lstrip_nil_space sp s Hs), Hpost. reflexivity.
  - rewrite lstrip_app_rest; [|rewrite Hs; discriminate].
    rewrite Hs. apply rstrip_app_space, Hpost.
Qed.

End MoreStringFacts.

(** ** More on the classifier *)
Section AnalyzerMore.
Context `{rt : PyRuntime}.
Import LeadAnalyzer.

Lemma clean_Some (s : pystr) : clean (Some s) = str_lower (str_strip s).
Proof. unfold clean, text_or_empty. destruct s; reflexivity. Qed.

(** A keyword is a hit exactly when it is configured and occurs in the
    cleaned text as a contiguous run of code points. *)
Theorem hits_are_occurrences (kws : list pystr) (cleaned kw : pystr) :
  In kw (hits kws cleaned)
  <-> In kw kws /\ exists pre post, cleaned = pre ++ kw ++ post.
Proof.
  unfold hits. rewrite filter_In, str_in_occurs. reflexivity.
Qed.

(** Whitespace before and after the text does not change the decision. *)
Theorem analyze_ignores_padding (self : t) (pre s post : pystr) :
  forallb isspace pre = true ->
  forallb isspace post = true ->
  analyze self (Some (pre ++ s ++ post)) = analyze self (Some s).
Proof.
  intros Hpre Hpost.
  assert (Hc : clean (Some (pre ++ s ++ post)) = clean (Some s)).
  { rewrite !clean_Some. unfold str_strip.
    rewrite (strip_padding isspace pre s post Hpre Hpost). reflexivity. }
  unfold analyze. rewrite Hc. reflexivity.
Qed.

Lemma reasons_of_signal (self : t) (cleaned : pystr) :
  Forall signal_tag (reasons_of self cleaned).
Proof.
  unfold reasons_of. cbv zeta.
  repeat (apply append_if_Forall;
          [|repeat split; vm_compute; discriminate]).
  constructor.
Qed.

Lemma not_in_reasons_of (self : t) (cleaned tag : pystr) :
  ~ signal_tag tag -> ~ In tag (reasons_of self cleaned).
Proof.
  intros Htag Hin. apply Htag.
  pose proof (reasons_of_signal self cleaned) as HF.
  rewrite Forall_forall in HF. apply HF, list_elem_of_In, Hin.
Qed.

Lemma gate_tag_not_signal :
  ~ signal_tag (py "no_intent")
  /\ ~ signal_tag (py "insufficient_details")
  /\ ~ signal_tag (py "empty_message").
Proof.
  repeat split; intros (H1 & H2 & H3);
    first [apply H1; reflexivity | apply H2; reflexivity
          | apply H3; reflexivity].
Qed.

Lemma gate_tags_differ :
  py "no_intent" <> py "insufficient_details"
  /\ py "no_intent" <> py "empty_message"
  /\ py "insufficient_details" <> py "empty_message".
Proof. repeat split; vm_compute; discriminate. Qed.

Lemma in_rejected (self : t) (cleaned tag x : pystr) :
  ~ signal_tag x ->
  In x (reasons (rejected tag self cleaned)) <-> tag = x.
Proof.
  intros Hx. cbn [reasons rejected]. rewrite in_app_iff. simpl.
  pose proof (not_in_reasons_of self cleaned x Hx). tauto.
Qed.

(** The three diagnostic tags tell which branch returned: [empty_message]
    is among the reasons exactly when the cleaned text is empty,
    [no_intent] exactly when the first gate rejected, and
    [insufficient_details] exactly when the second gate rejected. *)
Theorem reason_tags_identify_branch (self : t) (text : option pystr) :
  let d := analyze self text in
  (In (py "empty_message") (reasons d) <-> clean text = [])
  /\ (In (py "no_intent") (reasons d)
      <-> clean text <> [] /\ gate1_rejects self (clean text) = true)
  /\ (In (py "insufficient_details") (reasons d)
      <-> clean text <> [] /\ gate1_rejects self (clean text) = false
          /\ gate2_rejects self (clean text) = true).
Proof.
  intros d. subst d.
  destruct gate_tag_not_signal as (Hn & Hi & He).
  destruct gate_tags_differ as (Hni & Hne & Hie).
  destruct (Py.str_bool (clean text)) eqn:Hc.
  - apply str_bool_true in Hc. rewrite (analyze_nonempty self text Hc).
    destruct (gate1_rejects self (clean text)) eqn:Hg1;
      [|destruct (gate2_rejects self (clean text)) eqn:Hg2].
    + rewrite !in_rejected by assumption. intuition congruence.
    + rewrite !in_rejected by assumption. intuition congruence.
    + cbn [reasons scored].
      pose proof (not_in_reasons_of self (clean text) _ Hn).
      pose proof (not_in_reasons_of self (clean text) _ Hi).
      pose proof (not_in_reasons_of self (clean text) _ He).
      intuition congruence.
  - apply str_bool_false in Hc. rewrite (analyze_empty self text Hc).
    cbn [reasons empty_decision]. simpl. intuition congruence.
Qed.

Lemma append_if_length_le c tag (l : list pystr) (n : nat) :
  (List.length l <= n)%nat -> (List.length (append_if c tag l) <= S n)%nat.
Proof.
  intros H. unfold append_if. destruct c; [|lia].
  rewrite length_app. simpl. lia.
Qed.

(** Eight conditional appends to the empty list give at most eight
    reasons. *)
Ltac bound_appends :=
  repeat first [ apply append_if_length_le | apply Nat.le_0_l | apply le_n ].

Lemma firstn_snoc (l : list pystr) (x : pystr) :
  (List.length l <= 8)%nat ->
  firstn 8 (l ++ [x]) = l ++ [x] \/ l ++ [x] = firstn 8 (l ++ [x]) ++ [x].
Proof.
  intros H. destruct (Nat.eq_dec (List.length l) 8) as [H8 | Hlt].
  - right. rewrite firstn_app, H8, Nat.sub_diag. simpl.
    rewrite app_nil_r, firstn_all2 by lia. reflexivity.
  - left. apply firstn_all2. rewrite length_app. simpl. lia.
Qed.

(** A decision never has more than nine reasons, and the eight that
    [build_notification] lists for a lead are all of them, or all but a
    ninth, which is then [has_contact]. *)
Theorem reasons_fit_notification (self : t) (text : option pystr) :
  let d := analyze self text in
  (List.length (reasons d) <= 9)%nat
  /\ (is_lead d = true ->
      firstn 8 (reasons d) = reasons d
      \/ reasons d = firstn 8 (reasons d) ++ [py "has_contact"]).
Proof.
  intros d. subst d.
  destruct (Py.str_bool (clean text)) eqn:Hc.
  2:{ apply str_bool_false in Hc. rewrite (analyze_empty self text Hc).
      split; [simpl; lia | discriminate]. }
  apply str_bool_true in Hc. rewrite (analyze_nonempty self text Hc).
  destruct (gate1_rejects self (clean text)) eqn:Hg1.
  { split; [|discriminate]. cbn [reasons rejected].
    rewrite length_app. cbn [List.length].
    unfold gate1_rejects, intent_hits in Hg1.
    rewrite list_bool_app in Hg1.
    apply andb_prop in Hg1 as [Hg1 Hr]. apply andb_prop in Hg1 as [_ Hbs].
    apply negb_true_iff in Hr, Hbs. apply orb_false_elim in Hbs as [Hb Hs].
    enough (List.length (reasons_of self (clean text)) <= 6)%nat by lia.
    unfold reasons_of. cbv zeta. rewrite Hb, Hs, Hr. cbn [append_if].
    bound_appends. }
  destruct (gate2_rejects self (clean text)) eqn:Hg2.
  { split; [|discriminate]. cbn [reasons rejected].
    rewrite length_app. cbn [List.length].
    unfold gate2_rejects in Hg2. apply andb_prop in Hg2 as [_ Hcontact].
    apply negb_true_iff in Hcontact.
    enough (List.length (reasons_of self (clean text)) <= 8)%nat by lia.
    unfold reasons_of. cbv zeta. rewrite Hcontact. cbn [append_if].
    bound_appends. }
  cbn [reasons scored is_lead]. split.
  - unfold reasons_of. cbv zeta. bound_appends.
  - intros _. unfold reasons_of. cbv zeta.
    destruct (has_contact (clean text)); cbn [append_if].
    + apply firstn_snoc. bound_appends.
    + left. apply firstn_all2. bound_appends.
Qed.

End AnalyzerMore.

(** ** The analyzer built from a configuration *)
Section InitFacts.
Context `{rt : PyRuntime}.
Import LeadAnalyzer.

(** What [__init__] returns, when the threshold converts to [min]. *)
Lemma init_returns (config : Config) (a : t) :
  __init__ config = Py.Returned a ->
  exists min,
    py_int (dict_get_or (rules config) "min_details_required" (Py.VInt 1))
    = Py.Returned min
    /\ a = {| buy_keywords :=
                _normalize_list (dict_get_or (keywords config) "buy" []);
              sell_keywords :=
                _normalize_list (dict_get_or (keywords config) "sell" []);
              urgency_keywords :=
                _normalize_list
                  (dict_get_or (keywords config) "urgency_interest" []);
              realtor_keywords :=
                _normalize_list
                  (dict_get_or (keywords config) "realtor_help" []);
              detail_keywords :=
                _normalize_list (dict_get_or (keywords config) "details" []);
              require_explicit_intent :=
                Py.truthy
                  (dict_get_or (rules config) "require_explicit_intent"
                     (Py.VBool true));
              min_details_required := if min <? 0 then 0 else min;
              contact_bonus :=
                Py.truthy
                  (dict_get_or (rules config) "contact_bonus"
                     (Py.VBool true)) |}.
Proof.
  unfold __init__. cbv zeta.
  destruct (py_int
              (dict_get_or (rules config) "min_details_required" (Py.VInt 1)))
    as [min|e]; simpl; [|discriminate].
  intros [= <-]. exists min. split; reflexivity.
Qed.

(** The analyzer is built unless [int(min_details_required)] raises, and
    then that exception is the one raised; a built analyzer has a
    threshold that is not negative, the configured one when that is not
    negative. *)
Theorem init_clamps_threshold (config : Config) :
  match __init__ config with
  | Py.Returned a =>
      0 <= min_details_required a
      /\ exists min,
           py_int
             (dict_get_or (rules config) "min_details_required" (Py.VInt 1))
           = Py.Returned min
           /\ min_details_required a = Z.max 0 min
  | Py.Raised e =>
      py_int (dict_get_or (rules config) "min_details_required" (Py.VInt 1))
      = Py.Raised e
  end.
Proof.
  destruct (__init__ config) as [a|e] eqn:Hinit.
  - destruct (init_returns config a Hinit) as (min & Hmin & ->).
    cbn [min_details_required].
    split; [|exists min; split; [exact Hmin|]];
      destruct (Z.ltb_spec min 0); lia.
  - unfold __init__ in Hinit. cbv zeta in Hinit.
    destruct (py_int
                (dict_get_or (rules config) "min_details_required"
                   (Py.VInt 1))) as [min|e']; simpl in Hinit;
      congruence.
Qed.

(** A keyword list holds exactly the stripped, lowercased forms of the
    configured entries that are strings with something besides whitespace:
    other values and blank strings are dropped. *)
Theorem normalize_list_membership (values : list Py.value) (kw : pystr) :
  In kw (_normalize_list values)
  <-> exists v,
        In (Py.VStr v) values /\ str_strip v <> []
        /\ kw = str_lower (str_strip v).
Proof.
  induction values as [|x values IH].
  - simpl. split; [contradiction | intros (v & [] & _)].
  - assert (Hskip : (forall v, x <> Py.VStr v) ->
                    (exists v, In (Py.VStr v) (x :: values)
                               /\ str_strip v <> []
                               /\ kw = str_lower (str_strip v))
                    <-> exists v, In (Py.VStr v) values
                                  /\ str_strip v <> []
                                  /\ kw = str_lower (str_strip v)).
    { intros Hx. split; intros (v & Hin & Hv).
      - destruct Hin as [-> | Hin]; [destruct (Hx v eq_refl)|].
        exists v. split; assumption.
      - exists v. split; [right; exact Hin | exact Hv]. }
    destruct x as [| b | z | v0]; cbn [_normalize_list];
      try (rewrite IH; symmetry; apply Hskip; intros v; discriminate).
    destruct (Py.str_bool (str_strip v0)) eqn:Hb.
    + apply str_bool_true in Hb. simpl. rewrite IH. split.
      * intros [<- | (v & Hin & Hv)].
        -- exists v0. split; [left; reflexivity | split; [exact Hb | reflexivity]].
        -- exists v. split; [right; exact Hin | exact Hv].
      * intros (v & [[= ->] | Hin] & Hne & ->).
        -- left. reflexivity.
        -- right. exists v. split; [exact Hin | split; [exact Hne | reflexivity]].
    + apply str_bool_false in Hb. rewrite IH. split.
      * intros (v & Hin & Hv). exists v. split; [right; exact Hin | exact Hv].
      * intros (v & [[= ->] | Hin] & Hne & ->); [congruence|].
        exists v. split; [exact Hin | split; [exact Hne | reflexivity]].
Qed.

Lemma normalize_list_nonempty (values : list Py.value) (kw : pystr) :
  (forall s, s <> [] -> str_lower s <> []) ->
  In kw (_normalize_list values) -> kw <> [].
Proof.
  intros Hlower. induction values as [|x values IH]; [contradiction|].
  destruct x as [| b | z | v]; cbn [_normalize_list]; try exact IH.
  destruct (Py.str_bool (str_strip v)) eqn:Hb; [|exact IH].
  intros [<- | Hin]; [|exact (IH Hin)].
  apply Hlower, str_bool_true, Hb.
Qed.

(** When lowercasing never empties a string, no keyword of a built
    analyzer is empty, so no keyword occurs in every text. *)
Theorem init_keywords_nonempty (config : Config) (a : t) :
  (forall s, s <> [] -> str_lower s <> []) ->
  __init__ config = Py.Returned a ->
  forall kw, In kw (all_keywords a) ->
    kw <> [] /\ Py.str_in kw [] = false.
Proof.
  intros Hlower Hinit kw Hin.
  destruct (init_returns config a Hinit) as (min & _ & ->).
  unfold all_keywords in Hin. cbn [buy_keywords sell_keywords
    urgency_keywords realtor_keywords detail_keywords] in Hin.
  assert (Hne : kw <> []).
  { repeat (apply in_app_or in Hin as [Hin | Hin];
            [apply (normalize_list_nonempty _ kw Hlower Hin)|]).
    apply (normalize_list_nonempty _ kw Hlower Hin). }
  split; [exact Hne|]. destruct kw; [congruence | reflexivity].
Qed.



(** Buy and sell keywords alone do not make a lead: a lead has a detail
    signal, an urgency hit, a realtor hit, or a contact that counts. *)
Theorem lead_needs_more_than_intent (self : t) (text : option pystr) :
  is_lead (analyze self text) = true ->
  0 < details_score (clean text)
  \/ urgency_hits self (clean text) <> []
  \/ realtor_hits self (clean text) <> []
  \/ (contact_bonus self = true /\ has_contact (clean text) = true).
Proof.
  intros Hlead.
  destruct (Py.str_bool (clean text)) eqn:Hc.
  2:{ apply str_bool_false in Hc.
      rewrite (analyze_empty self text Hc) in Hlead. discriminate. }
  apply str_bool_true in Hc.
  rewrite (analyze_nonempty self text Hc) in Hlead.
  destruct (gate1_rejects self (clean text)); [discriminate|].
  destruct (gate2_rejects self (clean text)); [discriminate|].
  cbn [is_lead scored] in Hlead. apply Z.leb_le in Hlead.
  unfold lead_score, add_if in Hlead. cbv zeta in Hlead.
  destruct (urgency_hits self (clean text)) eqn:Hu;
    [|right; left; discriminate].
  destruct (realtor_hits self (clean text)) eqn:Hr;
    [|right; right; left; discriminate].
  destruct (contact_bonus self) eqn:Hcb, (has_contact (clean text)) eqn:Hct;
    try (right; right; right; split; reflexivity);
    left; simpl in Hlead;
    destruct (Py.list_bool (intent_hits self (clean text))),
      (0 <? details_score (clean text)) eqn:Hd;
    try (apply Z.ltb_lt in Hd; exact Hd); lia.
Qed.

End InitFacts.

(** ** More on the store *)
Section StorageMore.
Context `{rt : PyRuntime}.
Import LeadStorage.

Lemma run_cons_results (self : t) (c : call) (rest : list call) :
  (run self (c :: rest)).1
  = (insert self c).1 :: (run (insert self c).2 rest).1.
Proof.
  cbn [run]. destruct (insert self c) as [r self']. cbn [fst snd].
  destruct (run self' rest) as [rs self'']. reflexivity.
Qed.

Lemma key_taken_keys (d : database) (chat msg : Z) :
  key_taken d chat msg = true <-> (chat, msg) ∈ Table.keys d.
Proof.
  unfold key_taken, Table.keys.
  rewrite existsb_exists, list_elem_of_fmap. split.
  - intros ([i r] & Hin & Hkey). exists (i, r).
    split; [|apply list_elem_of_In, Hin].
    cbn [snd] in Hkey. unfold same_key in Hkey.
    apply andb_prop in Hkey as [Hc Hm].
    apply Z.eqb_eq in Hc. apply Z.eqb_eq in Hm.
    unfold Table.key_of. cbn [snd]. rewrite Hc, Hm. reflexivity.
  - intros ([i r] & Hkey & Hin). exists (i, r).
    split; [apply list_elem_of_In, Hin|].
    unfold Table.key_of in Hkey. simpl in Hkey. injection Hkey as -> ->.
    unfold same_key. simpl. rewrite !Z.eqb_refl. reflexivity.
Qed.

Lemma keys_append (d : database) (r : row) :
  Table.keys (append_row d r) = Table.keys d ++ [Table.key_of r].
Proof. unfold Table.keys, append_row. simpl. apply map_app. Qed.

Lemma ids_append (d : database) (r : row) :
  Table.ids (append_row d r) = Table.ids d ++ [new_rowid d].
Proof. unfold Table.ids, append_row. simpl. apply map_app. Qed.

(** While no id is above the counter, the next id is the counter's. *)
Lemma new_rowid_counter (d : database) :
  Forall (fun i => i <= last_id d) (Table.ids d) ->
  new_rowid d = last_id d + 1.
Proof.
  intros H. unfold new_rowid. f_equal. apply fold_max_above. exact H.
Qed.

Lemma sorted_snoc (l : list Z) (y : Z) :
  StronglySorted Z.lt l -> Forall (fun x => x < y) l ->
  StronglySorted Z.lt (l ++ [y]).
Proof.
  induction l as [|a l IH]; intros Hs Hf; simpl.
  - constructor; constructor.
  - inversion Hs as [|? ? Hs' Ha]; subst.
    inversion Hf as [|? ? Hay Hf']; subst.
    constructor; [apply IH; assumption|].
    apply Forall_app. split; [exact Ha|]. constructor; [exact Hay|constructor].
Qed.

Lemma append_consistent (d : database) (r : row) :
  Table.consistent d ->
  key_taken d (chat_id r) (message_id r) = false ->
  Table.consistent (append_row d r).
Proof.
  intros (Hk & Hs & Hb) Hfree. unfold Table.consistent.
  rewrite keys_append, ids_append, (new_rowid_counter d Hb).
  split; [|split].
  - apply NoDup_app. split; [exact Hk|]. split; [|apply NoDup_singleton].
    intros k Hin Hk'. apply list_elem_of_singleton in Hk'. subst k.
    apply key_taken_keys in Hin. congruence.
  - apply sorted_snoc; [exact Hs|].
    eapply Forall_impl; [exact Hb|]. intros i Hi. simpl in Hi. lia.
  - unfold append_row. cbn [last_id]. rewrite (new_rowid_counter d Hb).
    apply Forall_app. split.
    + eapply Forall_impl; [exact Hb|]. intros i Hi. simpl in *. lia.
    + constructor; [lia | constructor].
Qed.

Lemma insert_consistent (self : t) (c : call) :
  Table.consistent (conn self) ->
  Table.consistent (conn (insert self c).2).
Proof.
  intros H.
  destruct (insert_outcome self c) as [(r & -> & _) | (_ & Hc & ->)];
    [exact H|].
  cbn [snd conn]. apply append_consistent; [exact H|exact Hc].
Qed.

Lemma run_consistent (calls : list call) (self : t) :
  Table.consistent (conn self) ->
  Table.consistent (conn (run self calls).2).
Proof.
  revert self. induction calls as [|c rest IH]; intros self H; [exact H|].
  rewrite run_cons. apply IH, insert_consistent, H.
Qed.

Lemma select_at_most_one (d : database) (chat msg : Z) :
  NoDup (Table.keys d) -> (List.length (select_key d chat msg) <= 1)%nat.
Proof.
  unfold Table.keys, select_key.
  induction (leads d) as [|[i r] rows IH]; intros Hnd; simpl; [lia|].
  simpl in Hnd. apply NoDup_cons in Hnd as [Hnotin Hnd].
  destruct (same_key chat msg r) eqn:Hk; [|apply IH, Hnd].
  simpl. enough (List.filter (same_key chat msg) (map snd rows) = []) as ->
    by (simpl; lia).
  destruct (List.filter (same_key chat msg) (map snd rows)) as [|r' l] eqn:Hf;
    [reflexivity|].
  exfalso. apply Hnotin.
  assert (Hin : In r' (List.filter (same_key chat msg) (map snd rows)))
    by (rewrite Hf; left; reflexivity).
  apply filter_In in Hin as [Hin Hk'].
  apply in_map_iff in Hin as ([i' r''] & Hr & Hin). simpl in Hr. subst r''.
  apply list_elem_of_fmap. exists (i', r').
  split; [|apply list_elem_of_In, Hin].
  unfold same_key in Hk, Hk'.
  apply andb_prop in Hk as [Hc Hm]. apply andb_prop in Hk' as [Hc' Hm'].
  apply Z.eqb_eq in Hc, Hm, Hc', Hm'.
  unfold Table.key_of. simpl. congruence.
Qed.

(** A table in which the keys are unique and the ids increase up to the
    counter stays so through every sequence of calls, and never holds more
    than one row for a (chat_id, message_id). *)
Theorem run_keeps_table_consistent (file : option database)
    (calls : list call) (chat msg : Z) :
  Table.consistent (_init_schema file) ->
  Table.consistent (conn (run (__init__ file) calls).2)
  /\ (List.length (select_key (conn (run (__init__ file) calls).2) chat msg)
      <= 1)%nat.
Proof.
  intros H.
  assert (Hc : Table.consistent (conn (run (__init__ file) calls).2))
    by (apply run_consistent; exact H).
  split; [exact Hc|]. apply select_at_most_one. apply Hc.
Qed.

Lemma insert_appends (self : t) (c : call) :
  map snd (leads (conn (insert self c).2))
  = map snd (leads (conn self))
    ++ (if Table.inserted (insert self c).1 then [row_of c] else []).
Proof.
  destruct (insert_outcome self c) as [(r & -> & Hr) | (_ & _ & ->)].
  - cbn [fst snd]. rewrite Hr. symmetry. apply app_nil_r.
  - cbn [fst snd conn Table.inserted].
    unfold append_row. cbn [leads]. rewrite map_app. reflexivity.
Qed.

(** The table only grows, at its end, and by exactly the rows of the calls
    that returned [True], in the order of the calls: no call changes or
    removes a row. *)
Theorem run_only_appends (self : t) (calls : list call) :
  map snd (leads (conn (run self calls).2))
  = map snd (leads (conn self))
    ++ map row_of (Table.inserted_calls self calls).
Proof.
  revert self. induction calls as [|c rest IH]; intros self.
  - simpl. symmetry. apply app_nil_r.
  - rewrite run_cons, IH, insert_appends.
    unfold Table.inserted_calls. rewrite run_cons_results.
    cbn [combine List.filter snd].
    destruct (Table.inserted (insert self c).1); cbn [map fst].
    + rewrite <- app_assoc. reflexivity.
    + rewrite app_nil_r. reflexivity.
Qed.

(** A call repeated right away finds the storage as its first run left it:
    unchanged, or with its key taken. *)
Lemma insert_again (self : t) (c : call) :
  (insert (insert self c).2 c).2 = (insert self c).2
  /\ Table.inserted (insert (insert self c).2 c).1 = false.
Proof.
  destruct (insert_outcome self c) as [(r & Heq & Hr) | (_ & _ & Heq)];
    rewrite Heq; cbn [snd].
  - rewrite Heq. split; [reflexivity | exact Hr].
  - apply insert_on_taken_key. cbn [conn].
    rewrite key_taken_select, select_append, same_key_row_of.
    rewrite list_bool_app. apply orb_true_r.
Qed.

Lemma insert_closed (self : t) (c : call) :
  conn_open self = false ->
  (insert self c).2 = self /\ Table.inserted (insert self c).1 = false.
Proof.
  intros Hc.
  destruct (insert_outcome self c) as [(r & -> & Hr) | (Ho & _)];
    [split; [reflexivity | exact Hr] | congruence].
Qed.

Lemma results_by_keys_run (calls : list call) (self : t)
    (seen : gset (Z * Z)) :
  conn_open self = true ->
  (forall k, k ∈ seen <-> k ∈ Table.keys (conn self)) ->
  Forall (fun c => storable c = true) calls ->
  Z.of_nat (List.length calls) <= room (conn self) ->
  (run self calls).1
  = map Py.Returned
      (Table.results_by_keys seen (map Table.call_key calls)).
Proof.
  revert self seen.
  induction calls as [|c rest IH]; intros self seen Ho Hseen Hst Hroom;
    [reflexivity|].
  apply Forall_cons in Hst as [Hc Hst]. cbn [List.length] in Hroom.
  assert (Hroom1 : 1 <= room (conn self)) by lia.
  rewrite run_cons_results. cbn [map Table.results_by_keys].
  assert (Ho' : conn_open (insert self c).2 = true)
    by (rewrite insert_keeps_open; exact Ho).
  assert (Hroom' : Z.of_nat (List.length rest)
                   <= room (conn (insert self c).2))
    by (pose proof (insert_room self c); lia).
  revert Ho' Hroom'. rewrite (insert_storable self c Hc Ho Hroom1).
  destruct (key_taken (conn self) (c_chat_id c) (c_message_id c)) eqn:Hk;
    cbn [fst snd]; intros Ho' Hroom'.
  - rewrite decide_True.
    2:{ apply Hseen, key_taken_keys, Hk. }
    cbn [map]. f_equal. apply IH; assumption.
  - rewrite decide_False.
    2:{ intros Hin. apply Hseen, key_taken_keys in Hin.
        unfold Table.call_key in Hin. congruence. }
    cbn [map]. f_equal. apply IH; try assumption.
    intros k. cbn [conn]. rewrite keys_append, elem_of_union,
      elem_of_singleton, elem_of_app, list_elem_of_singleton, Hseen.
    change (Table.key_of (row_of c)) with (Table.call_key c). tauto.
Qed.

(** What a sequence of calls that SQLite takes returns, on a table with a
    rowid left for each, depends only on the set of keys already stored:
    each call returns [True] exactly when its key is neither stored at the
    start nor the key of an earlier call, and no call raises. *)
Theorem run_results_by_keys (file : option database) (calls : list call) :
  Forall (fun c => storable c = true) calls ->
  Z.of_nat (List.length calls) <= room (_init_schema file) ->
  (run (__init__ file) calls).1
  = map Py.Returned
      (Table.results_by_keys
         (list_to_set (Table.keys (_init_schema file)))
         (map Table.call_key calls)).
Proof.
  intros Hst Hroom. apply results_by_keys_run; try assumption;
    [reflexivity|].
  intros k. cbn [conn __init__]. apply elem_of_list_to_set.
Qed.

(** After [close] every call raises to the caller and the storage stays as
    it was: [UnicodeEncodeError] when the text of the call has no hash,
    which is computed first, and [ProgrammingError] otherwise. *)
Theorem closed_storage_raises (self : t) (calls : list call) :
  run (close self) calls
  = (map (fun c =>
            Py.Raised
              match hash_text (c_message_text c) with
              | Py.Returned _ => Py.ProgrammingError
              | Py.Raised e => e
              end) calls,
     close self).
Proof.
  induction calls as [|c rest IH]; [reflexivity|].
  cbn [run]. rewrite insert_cases. cbn [close conn_open negb].
  fold (close self).
  destruct (hash_text (c_message_text c)) eqn:Hh; rewrite IH; cbn [map];
    rewrite Hh; reflexivity.
Qed.

(** The stored text is the text as given, while the hash ignores the
    whitespace around it: texts that differ only there get the same
    [message_hash]. *)
Theorem hash_ignores_padding (a b : call) (pre post : pystr) :
  forallb isspace pre = true ->
  forallb isspace post = true ->
  c_message_text a = pre ++ c_message_text b ++ post ->
  message_hash (row_of a) = message_hash (row_of b)
  /\ message_text (row_of a) = c_message_text a
  /\ message_text (row_of b) = c_message_text b.
Proof.
  intros Hpre Hpost Htext. split; [|split; reflexivity].
  unfold row_of, values, hash_text. cbn [message_hash]. rewrite Htext.
  unfold str_strip.
  rewrite (strip_padding isspace pre _ post Hpre Hpost). reflexivity.
Qed.

End StorageMore.
(** ** Startup: the notification target and the prompt *)
Section StartupFacts.
Context `{rt : PyRuntime}.

Lemma dict_get_truthy (d : gmap string Py.value) (key : string) :
  Py.truthy (dict_get d key) = true ->
  d !! key = Some (dict_get d key).
Proof.
  unfold dict_get. destruct (d !! key); [reflexivity | discriminate].
Qed.

Lemma dict_get_not_none (d : gmap string Py.value) (key : string) :
  is_none (dict_get d key) = false ->
  d !! key = Some (dict_get d key).
Proof.
  unfold dict_get. destruct (d !! key); [reflexivity | discriminate].
Qed.

(** A configuration that [validate_runtime_config] accepts always
    resolves: to the stripped handle, which then starts with [@], or, when
    there is no handle, to [int] of the numeric target. *)
Theorem validated_target_resolves (config : Config) :
  validate_runtime_config config = Py.Returned tt ->
  (exists h,
     notification config !! "target_bot_username" = Some (Py.VStr h)
     /\ resolve_notification_target config
        = Py.Returned (TargetName (str_strip h))
     /\ Py.startswith (str_strip h) (py "@") = true)
  \/ (exists v z,
        notification config !! "target_telegram_id" = Some v
        /\ py_int v = Py.Returned z
        /\ resolve_notification_target config = Py.Returned (TargetId z)).
Proof.
  intros Hval. unfold validate_runtime_config in Hval. cbv zeta in Hval.
  destruct (Py.truthy
              (dict_get (notification config) "target_bot_username")) eqn:Hu.
  - left. pose proof (dict_get_truthy _ _ Hu) as Hlook.
    destruct (dict_get (notification config) "target_bot_username")
      as [| b | z | h] eqn:Hh.
    1-3: exfalso; revert Hval; cbn [is_str negb orb];
         destruct (is_none _); cbn [negb andb];
         try destruct (py_int _); cbn [negb]; discriminate.
    exists h. split; [exact Hlook|].
    split; [apply (resolve_with_handle config (Py.VStr h) Hlook Hu)|].
    change (Py.str_of (Py.VStr h)) with h in Hval.
    destruct (Py.startswith (str_strip h) (py "@")); [reflexivity|].
    exfalso. revert Hval. cbn [is_str negb orb].
    destruct (is_none _); cbn [negb andb];
      try destruct (py_int _); cbn [negb]; discriminate.
  - right.
    destruct (is_none (dict_get (notification config) "target_telegram_id"))
      eqn:Hnone; [discriminate|].
    pose proof (dict_get_not_none _ _ Hnone) as Hlook.
    cbn [negb andb] in Hval.
    destruct (py_int (dict_get (notification config) "target_telegram_id"))
      as [z|e] eqn:Hint; [|discriminate].
    exists (dict_get (notification config) "target_telegram_id"), z.
    split; [exact Hlook|]. split; [exact Hint|].
    rewrite (resolve_without_handle config Hu), Hlook, Hint. reflexivity.
Qed.

(** [prompt_if_empty] never returns an empty string: it returns the given
    value as it is, or the stripped answer, and raises [ValueError] when
    the answer is blank. *)
Theorem prompt_never_empty (value : option pystr) (typed : pystr) :
  match prompt_if_empty value typed with
  | Py.Returned s =>
      s <> []
      /\ (value = Some s
          \/ (LeadAnalyzer.text_or_empty value = [] /\ s = str_strip typed))
  | Py.Raised e =>
      e = Py.ValueError /\ LeadAnalyzer.text_or_empty value = []
      /\ str_strip typed = []
  end
  /\ (LeadAnalyzer.text_or_empty value = [] ->
      forallb isspace typed = true ->
      prompt_if_empty value typed = Py.Raised Py.ValueError).
Proof.
  unfold prompt_if_empty. cbv zeta. split.
  - destruct (Py.str_bool (LeadAnalyzer.text_or_empty value)) eqn:Hv.
    + apply str_bool_true in Hv. split; [exact Hv|]. left.
      destruct value as [s|]; simpl in *; [|congruence].
      destruct (Py.str_bool s); [reflexivity | congruence].
    + apply str_bool_false in Hv.
      destruct (Py.str_bool (str_strip typed)) eqn:Ht; cbn [negb].
      * apply str_bool_true in Ht. split; [exact Ht|]. right.
        split; [exact Hv | reflexivity].
      * apply str_bool_false in Ht. auto.
  - intros Hv Hsp. rewrite Hv. cbn [Py.str_bool].
    unfold str_strip. rewrite (strip_all_space isspace typed Hsp).
    reflexivity.
Qed.

End StartupFacts.

(** ** The message handler *)
Section HandlerFacts.
Context `{rt : PyRuntime}.
Variable analyzer : LeadAnalyzer.t.
Variable notify_target : target.
Variable astimezone_utc : datetime -> datetime.

Abbreviation handler := (Bot.handler analyzer notify_target astimezone_utc).
Abbreviation handle_all := (Bot.handle_all analyzer notify_target astimezone_utc).
Abbreviation call_of := (Bot.call_of analyzer astimezone_utc).
Abbreviation decision_of ev := (LeadAnalyzer.analyze analyzer (Bot.raw_text ev)).

Lemma handler_skip (w : Bot.world) (st : Bot.state) (ev : Bot.event) :
  Bot.accepted ev = false -> handler w st ev = st.
Proof.
  unfold Bot.accepted, Bot.handler. intros H.
  destruct (Bot.is_group ev || Bot.is_channel ev); [|reflexivity].
  cbn [andb negb] in *. rewrite H. reflexivity.
Qed.

(** What one accepted event does to the storage, the counters and the
    outbox, in terms of the call it makes. *)
Lemma handler_step (w : Bot.world) (st : Bot.state) (ev : Bot.event) :
  Bot.accepted ev = true ->
  let sent :=
    Table.inserted (LeadStorage.insert (Bot.storage st) (call_of ev)).1
    && is_lead (decision_of ev) in
  Bot.storage (handler w st ev)
  = (LeadStorage.insert (Bot.storage st) (call_of ev)).2
  /\ Bot.processed_count (handler w st ev) = Bot.processed_count st + 1
  /\ Bot.lead_count (handler w st ev)
     = Bot.lead_count st + (if sent then 1 else 0)
  /\ Bot.outbox (handler w st ev)
     = Bot.outbox st
       ++ (if sent
           then [(notify_target,
                  Bot.build_notification (Bot.created w) ev (decision_of ev))]
           else []).
Proof.
  unfold Bot.accepted. intros H. apply andb_prop in H as [Hg Ht].
  unfold Bot.handler. rewrite Hg, Ht. cbn [negb]. cbv zeta.
  change (LeadStorage.insert_message (Bot.storage st) (Bot.message_id ev)
            (Bot.chat_id ev) (Bot.sender_id ev) (Bot.chat_title_of ev)
            (LeadAnalyzer.text_or_empty (Bot.raw_text ev))
            (category (decision_of ev)) (Bot.status_of (decision_of ev))
            (reasons (decision_of ev)) (astimezone_utc (Bot.date ev)))
    with (LeadStorage.insert (Bot.storage st) (call_of ev)).
  destruct (LeadStorage.insert (Bot.storage st) (call_of ev))
    as [[[|]|e] s']; cbn [fst snd Table.inserted andb].
  - destruct (is_lead (decision_of ev)).
    + destruct (Bot.outcome w);
        cbn [Bot.storage Bot.processed_count Bot.lead_count Bot.outbox];
        repeat split.
    + cbn [Bot.storage Bot.processed_count Bot.lead_count Bot.outbox].
      repeat split; [lia | symmetry; apply app_nil_r].
  - cbn [Bot.storage Bot.processed_count Bot.lead_count Bot.outbox].
    repeat split; [lia | symmetry; apply app_nil_r].
  - cbn [Bot.storage Bot.processed_count Bot.lead_count Bot.outbox].
    repeat split; [lia | symmetry; apply app_nil_r].
Qed.

Lemma handle_all_cons (st : Bot.state) (w : Bot.world) (ev : Bot.event)
    (rest : list (Bot.world * Bot.event)) :
  handle_all st ((w, ev) :: rest) = handle_all (handler w st ev) rest.
Proof. reflexivity. Qed.

Lemma handler_counts_step (w : Bot.world) (st : Bot.state) (ev : Bot.event) :
  Bot.processed_count (handler w st ev)
  = Bot.processed_count st + (if Bot.accepted ev then 1 else 0)
  /\ Bot.lead_count st <= Bot.lead_count (handler w st ev)
     <= Bot.lead_count st + (if Bot.accepted ev then 1 else 0)
  /\ Z.of_nat (List.length (Bot.outbox (handler w st ev)))
     - Bot.lead_count (handler w st ev)
     = Z.of_nat (List.length (Bot.outbox st)) - Bot.lead_count st
  /\ (Forall (fun m => m.1 = notify_target) (Bot.outbox st) ->
      Forall (fun m => m.1 = notify_target) (Bot.outbox (handler w st ev))).
Proof.
  destruct (Bot.accepted ev) eqn:Ha.
  - destruct (handler_step w st ev Ha) as (_ & Hp & Hl & Ho).
    rewrite Hp, Hl, Ho.
    destruct (Table.inserted _ && is_lead _).
    + rewrite length_app. cbn [List.length].
      repeat split; try lia.
      intros HF. apply Forall_app. split; [exact HF|].
      constructor; [reflexivity | constructor].
    + rewrite app_nil_r. repeat split; try lia. auto.
  - rewrite (handler_skip w st ev Ha). repeat split; try lia. auto.
Qed.

(** From the start of a session, [processed_count] is the number of group
    or channel events with a text, duplicates included; [lead_count] never
    exceeds it; and there is one [send_message] call per counted lead,
    each to the resolved target. *)
Theorem handler_counters (storage : LeadStorage.t)
    (evs : list (Bot.world * Bot.event)) :
  let st := handle_all (Bot.start storage) evs in
  Bot.processed_count st
  = Z.of_nat (List.length (List.filter Bot.accepted (map snd evs)))
  /\ 0 <= Bot.lead_count st <= Bot.processed_count st
  /\ Z.of_nat (List.length (Bot.outbox st)) = Bot.lead_count st
  /\ Forall (fun m => m.1 = notify_target) (Bot.outbox st).
Proof.
  intros st. subst st.
  assert (Hgen : forall evs st0,
            let st := handle_all st0 evs in
            Bot.processed_count st
            = Bot.processed_count st0
              + Z.of_nat (List.length
                            (List.filter Bot.accepted (map snd evs)))
            /\ Bot.lead_count st0 <= Bot.lead_count st
               <= Bot.lead_count st0
                  + Z.of_nat (List.length
                                (List.filter Bot.accepted (map snd evs)))
            /\ Z.of_nat (List.length (Bot.outbox st)) - Bot.lead_count st
               = Z.of_nat (List.length (Bot.outbox st0)) - Bot.lead_count st0
            /\ (Forall (fun m => m.1 = notify_target) (Bot.outbox st0) ->
                Forall (fun m => m.1 = notify_target) (Bot.outbox st))).
  { clear evs. induction evs as [|[w ev] rest IH]; intros st0.
    - cbn. repeat split; try lia. auto.
    - rewrite handle_all_cons. cbv zeta.
      destruct (IH (handler w st0 ev)) as (Hp & Hl & Ho & HF).
      destruct (handler_counts_step w st0 ev) as (Hp1 & Hl1 & Ho1 & HF1).
      cbn [map snd List.filter].
      destruct (Bot.accepted ev); cbn [List.length];
        repeat split; try lia; auto. }
  destruct (Hgen evs (Bot.start storage)) as (Hp & Hl & Ho & HF).
  cbn [Bot.start Bot.processed_count Bot.lead_count Bot.outbox List.length]
    in *.
  repeat split; try lia. apply HF. constructor.
Qed.

Lemma status_of_lead (d : LeadDecision) :
  bool_decide (Bot.status_of d = py "lead") = is_lead d.
Proof.
  unfold Bot.status_of. destruct (is_lead d).
  - apply bool_decide_eq_true. reflexivity.
  - apply bool_decide_eq_false. vm_compute. discriminate.
Qed.

Lemma lead_rows_insert (self : LeadStorage.t) (c : LeadStorage.call) :
  Bot.lead_rows (LeadStorage.conn (LeadStorage.insert self c).2)
  = Bot.lead_rows (LeadStorage.conn self)
    ++ (if Table.inserted (LeadStorage.insert self c).1
           && bool_decide (LeadStorage.c_status c = py "lead")
        then [LeadStorage.row_of c] else []).
Proof.
  unfold Bot.lead_rows. rewrite insert_appends, List.filter_app.
  destruct (Table.inserted (LeadStorage.insert self c).1); cbn [andb].
  - cbn [List.filter].
    change (LeadStorage.status (LeadStorage.row_of c))
      with (LeadStorage.c_status c).
    destruct (bool_decide (LeadStorage.c_status c = py "lead")); reflexivity.
  - reflexivity.
Qed.

(** The stored leads and the notifications stay in step: through every
    sequence of events, the rows with status [lead] added to the table are
    as many as the [send_message] calls made. *)
Theorem one_notification_per_stored_lead (st0 : Bot.state)
    (evs : list (Bot.world * Bot.event)) :
  let st := handle_all st0 evs in
  (List.length (Bot.lead_rows (LeadStorage.conn (Bot.storage st)))
   + List.length (Bot.outbox st0)
   = List.length (Bot.lead_rows (LeadStorage.conn (Bot.storage st0)))
     + List.length (Bot.outbox st))%nat.
Proof.
  revert st0. induction evs as [|[w ev] rest IH]; intros st0; [reflexivity|].
  rewrite handle_all_cons. cbv zeta. specialize (IH (handler w st0 ev)).
  cbv zeta in IH.
  enough (List.length
            (Bot.lead_rows (LeadStorage.conn (Bot.storage (handler w st0 ev))))
          + List.length (Bot.outbox st0)
          = List.length (Bot.lead_rows (LeadStorage.conn (Bot.storage st0)))
            + List.length (Bot.outbox (handler w st0 ev)))%nat by lia.
  destruct (Bot.accepted ev) eqn:Ha.
  - destruct (handler_step w st0 ev Ha) as (Hs & _ & _ & Ho).
    rewrite Hs, Ho, lead_rows_insert.
    change (LeadStorage.c_status (call_of ev))
      with (Bot.status_of (decision_of ev)).
    rewrite status_of_lead, !length_app.
    destruct (Table.inserted _ && is_lead _); cbn [List.length]; lia.
  - rewrite (handler_skip w st0 ev Ha). reflexivity.
Qed.

Lemma accepted_text (ev : Bot.event) :
  Bot.accepted ev = true ->
  LeadAnalyzer.text_or_empty (Bot.raw_text ev) <> []
  /\ Some (LeadAnalyzer.text_or_empty (Bot.raw_text ev)) = Bot.raw_text ev.
Proof.
  unfold Bot.accepted. intros H. apply andb_prop in H as [_ H].
  split; [apply str_bool_true, H|].
  destruct (Bot.raw_text ev) as [s|]; [|discriminate].
  simpl in *. destruct (Py.str_bool s); [reflexivity | discriminate].
Qed.

Lemma call_of_classified (ev : Bot.event) :
  Bot.accepted ev = true ->
  Bot.classified analyzer (LeadStorage.row_of (call_of ev)).
Proof.
  intros Ha. destruct (accepted_text ev Ha) as [Hne Hsome].
  unfold Bot.classified. cbv zeta.
  change (LeadStorage.message_text (LeadStorage.row_of (call_of ev)))
    with (LeadAnalyzer.text_or_empty (Bot.raw_text ev)).
  rewrite Hsome. split; [exact Hne|]. repeat split.
Qed.

(** When the rows already stored agree with the analyzer, so do all rows
    after any sequence of events: each has a non-empty text, the status
    [lead] or [not_lead] that [analyze] gives that text, and its category
    and reasons. *)
Theorem stored_rows_classified (st0 : Bot.state)
    (evs : list (Bot.world * Bot.event)) :
  Forall (Bot.classified analyzer)
    (map snd (LeadStorage.leads (LeadStorage.conn (Bot.storage st0)))) ->
  Forall (Bot.classified analyzer)
    (map snd
       (LeadStorage.leads
          (LeadStorage.conn (Bot.storage (handle_all st0 evs))))).
Proof.
  revert st0. induction evs as [|[w ev] rest IH]; intros st0 H; [exact H|].
  rewrite handle_all_cons. apply IH.
  destruct (Bot.accepted ev) eqn:Ha.
  - destruct (handler_step w st0 ev Ha) as (Hs & _).
    rewrite Hs, insert_appends. apply Forall_app. split; [exact H|].
    destruct (Table.inserted _); [|constructor].
    constructor; [apply call_of_classified, Ha | constructor].
  - rewrite (handler_skip w st0 ev Ha). exact H.
Qed.

(** Every [send_message] call of a session is for an event of that
    session that passed the two early returns and that [analyze] takes for
    a lead; its text is the notification built for that event and
    decision. *)
Theorem notifications_are_leads (storage : LeadStorage.t)
    (evs : list (Bot.world * Bot.event)) (m : target * pystr) :
  In m (Bot.outbox (handle_all (Bot.start storage) evs)) ->
  exists w ev,
    In (w, ev) evs
    /\ Bot.accepted ev = true
    /\ is_lead (decision_of ev) = true
    /\ m = (notify_target,
            Bot.build_notification (Bot.created w) ev (decision_of ev)).
Proof.
  assert (Hgen : forall evs st0,
            In m (Bot.outbox (handle_all st0 evs)) ->
            In m (Bot.outbox st0)
            \/ exists w ev,
                 In (w, ev) evs
                 /\ Bot.accepted ev = true
                 /\ is_lead (decision_of ev) = true
                 /\ m = (notify_target,
                         Bot.build_notification (Bot.created w) ev
                           (decision_of ev))).
  { clear evs. induction evs as [|[w ev] rest IH]; intros st0 Hin;
      [left; exact Hin|].
    rewrite handle_all_cons in Hin.
    destruct (IH _ Hin) as [Hold | (w' & ev' & Hin' & Hrest)].
    - destruct (Bot.accepted ev) eqn:Ha.
      + destruct (handler_step w st0 ev Ha) as (_ & _ & _ & Ho).
        rewrite Ho in Hold. apply in_app_or in Hold as [Hold | Hnew];
          [left; exact Hold|].
        destruct (Table.inserted _) eqn:Hi; cbn [andb] in Hnew;
          [|contradiction].
        destruct (is_lead (decision_of ev)) eqn:Hl; [|contradiction].
        destruct Hnew as [<- | []]. right. exists w, ev.
        split; [left; reflexivity|]. repeat split; assumption.
      + rewrite (handler_skip w st0 ev Ha) in Hold. left. exact Hold.
    - right. exists w', ev'. split; [right; exact Hin' | exact Hrest]. }
  intros Hin. destruct (Hgen evs (Bot.start storage) Hin) as [[] | H].
  exact H.
Qed.

(** Handling an event a second time, right after the first, changes
    neither the storage nor the outbox nor [lead_count]: a redelivered
    message is stored and notified at most once. *)
Theorem redelivery_changes_nothing (st : Bot.state) (ev : Bot.event)
    (w1 w2 : Bot.world) :
  let st1 := handler w1 st ev in
  let st2 := handler w2 st1 ev in
  Bot.storage st2 = Bot.storage st1
  /\ Bot.outbox st2 = Bot.outbox st1
  /\ Bot.lead_count st2 = Bot.lead_count st1.
Proof.
  intros st1 st2. subst st2.
  destruct (Bot.accepted ev) eqn:Ha.
  2:{ rewrite (handler_skip w2 st1 ev Ha). repeat split. }
  destruct (handler_step w2 st1 ev Ha) as (Hs & _ & Hl & Ho).
  rewrite Hs, Hl, Ho.
  subst st1. destruct (handler_step w1 st ev Ha) as (Hs1 & _).
  rewrite Hs1.
  destruct (insert_again (Bot.storage st) (call_of ev)) as [Hsame Hfalse].
  rewrite Hsame, Hfalse. cbn [andb]. rewrite app_nil_r. repeat split. lia.
Qed.

(** Once the storage is closed the handler stores nothing and sends
    nothing, whatever events arrive. *)
Theorem closed_storage_sends_nothing (st0 : Bot.state)
    (evs : list (Bot.world * Bot.event)) :
  LeadStorage.conn_open (Bot.storage st0) = false ->
  let st := handle_all st0 evs in
  Bot.storage st = Bot.storage st0
  /\ Bot.outbox st = Bot.outbox st0
  /\ Bot.lead_count st = Bot.lead_count st0.
Proof.
  revert st0. induction evs as [|[w ev] rest IH]; intros st0 Hc;
    [repeat split|].
  rewrite handle_all_cons. cbv zeta.
  assert (Hstep : Bot.storage (handler w st0 ev) = Bot.storage st0
                  /\ Bot.outbox (handler w st0 ev) = Bot.outbox st0
                  /\ Bot.lead_count (handler w st0 ev) = Bot.lead_count st0).
  { destruct (Bot.accepted ev) eqn:Ha.
    - destruct (handler_step w st0 ev Ha) as (Hs & _ & Hl & Ho).
      destruct (insert_closed (Bot.storage st0) (call_of ev) Hc)
        as [Hsame Hfalse].
      rewrite Hs, Hl, Ho, Hsame, Hfalse.
      cbn [andb]. rewrite app_nil_r. repeat split. lia.
    - rewrite (handler_skip w st0 ev Ha). repeat split. }
  destruct Hstep as (Hs & Ho & Hl).
  destruct (IH (handler w st0 ev)) as (Hs' & Ho' & Hl').
  { rewrite Hs. exact Hc. }
  cbv zeta in *. rewrite Hs', Ho', Hl'. repeat split; assumption.
Qed.

(** How the sends end changes only the log: two runs over the same events
    with the same clock readings end with the same storage, counters and
    outbox, whichever sends failed. *)
Theorem send_failures_change_only_log (st0 : Bot.state)
    (evs evs' : list (Bot.world * Bot.event)) :
  Forall2 (fun e e' => e.2 = e'.2 /\ Bot.created e.1 = Bot.created e'.1)
    evs evs' ->
  let st := handle_all st0 evs in
  let st' := handle_all st0 evs' in
  Bot.storage st = Bot.storage st'
  /\ Bot.processed_count st = Bot.processed_count st'
  /\ Bot.lead_count st = Bot.lead_count st'
  /\ Bot.outbox st = Bot.outbox st'.
Proof.
  intros H.
  assert (Hgen : forall s s',
            Bot.storage s = Bot.storage s' ->
            Bot.processed_count s = Bot.processed_count s' ->
            Bot.lead_count s = Bot.lead_count s' ->
            Bot.outbox s = Bot.outbox s' ->
            Bot.storage (handle_all s evs) = Bot.storage (handle_all s' evs')
            /\ Bot.processed_count (handle_all s evs)
               = Bot.processed_count (handle_all s' evs')
            /\ Bot.lead_count (handle_all s evs)
               = Bot.lead_count (handle_all s' evs')
            /\ Bot.outbox (handle_all s evs)
               = Bot.outbox (handle_all s' evs')).
  { induction H as [|[w ev] [w' ev'] rest rest' [Hev Hcr] _ IH];
      intros s s' Hs Hp Hl Ho; [repeat split; assumption|].
    cbn [snd fst] in Hev, Hcr. subst ev'.
    rewrite !handle_all_cons. apply IH.
    all: destruct (Bot.accepted ev) eqn:Ha;
      [ destruct (handler_step w s ev Ha) as (Hs1 & Hp1 & Hl1 & Ho1);
        destruct (handler_step w' s' ev Ha) as (Hs2 & Hp2 & Hl2 & Ho2);
        rewrite ?Hs1, ?Hp1, ?Hl1, ?Ho1, ?Hs2, ?Hp2, ?Hl2, ?Ho2,
          ?Hs, ?Hp, ?Hl, ?Ho, ?Hcr; reflexivity
      | rewrite !(handler_skip _ _ ev Ha); assumption ]. }
  apply Hgen; reflexivity.
Qed.

End HandlerFacts.

(** ** The store across sessions *)
Section RestartFacts.
Context `{rt : PyRuntime}.
Import LeadStorage.

Lemma key_taken_step (self : t) (c : call) (chat msg : Z) :
  key_taken (conn self) chat msg = true ->
  key_taken (conn (insert self c).2) chat msg = true.
Proof.
  intros H. rewrite key_taken_select, (insert_keeps_taken self c chat msg H),
    <- key_taken_select. exact H.
Qed.




End RestartFacts.

(** ** The reasons column *)
Section ReasonsColumn.
Context `{rt : PyRuntime}.
Import LeadAnalyzer.

Abbreviation no_comma := (forallb (fun c => negb (c =? 44)%N)).

Lemma digits_no_comma (d : Decimal.uint) : no_comma (Py.digits d) = true.
Proof. induction d; simpl; auto. Qed.

Lemma count_tag_comma_free (prefix : pystr) (hs : list pystr) :
  comma_free prefix -> comma_free (count_tag prefix hs).
Proof.
  intros [Hne Hp]. unfold count_tag, comma_free. split.
  - destruct prefix; [congruence | discriminate].
  - rewrite forallb_app, Hp. apply digits_no_comma.
Qed.

Lemma literal_comma_free (s : pystr) :
  Py.str_bool s && no_comma s = true -> comma_free s.
Proof.
  intros H. apply andb_prop in H as [Hb Hc].
  split; [apply str_bool_true, Hb | exact Hc].
Qed.

Lemma reasons_of_comma_free (self : t) (cleaned : pystr) :
  Forall comma_free (reasons_of self cleaned).
Proof.
  unfold reasons_of. cbv zeta.
  repeat (apply append_if_Forall;
          [|first [ apply count_tag_comma_free, literal_comma_free;
                    vm_compute; reflexivity
                  | apply literal_comma_free; vm_compute; reflexivity ]]).
  constructor.
Qed.

Lemma reasons_comma_free (self : t) (text : option pystr) :
  Forall comma_free (reasons (analyze self text)).
Proof.
  destruct (Py.str_bool (clean text)) eqn:Hc.
  - apply str_bool_true in Hc. rewrite (analyze_nonempty self text Hc).
    pose proof (reasons_of_comma_free self (clean text)) as HF.
    destruct (gate1_rejects self (clean text));
      [|destruct (gate2_rejects self (clean text))];
      cbn [reasons rejected scored]; try exact HF;
      (apply Forall_app; split; [exact HF|]);
      (constructor; [|constructor]);
      apply literal_comma_free; vm_compute; reflexivity.
  - apply str_bool_false in Hc. rewrite (analyze_empty self text Hc).
    cbn [reasons empty_decision]. constructor; [|constructor].
    apply literal_comma_free. vm_compute. reflexivity.
Qed.

Lemma first_item_unique (p q t1 t2 : pystr) :
  no_comma p = true -> no_comma q = true ->
  tail_ok t1 -> tail_ok t2 ->
  p ++ t1 = q ++ t2 -> p = q /\ t1 = t2.
Proof.
  revert q. induction p as [|a p IH]; intros q Hp Hq Ht1 Ht2 Heq.
  - destruct q as [|b q]; [split; [reflexivity | exact Heq]|].
    simpl in *. apply andb_prop in Hq as [Hb _].
    destruct Ht1 as [-> | [r ->]]; [discriminate|].
    injection Heq as <- _. discriminate.
  - destruct q as [|b q].
    + simpl in *. apply andb_prop in Hp as [Ha _].
      destruct Ht2 as [-> | [r ->]]; [discriminate|].
      injection Heq as -> _. discriminate.
    + simpl in *. apply andb_prop in Hp as [_ Hp].
      apply andb_prop in Hq as [_ Hq].
      injection Heq as -> Heq.
      destruct (IH q Hp Hq Ht1 Ht2 Heq) as [-> ->]. split; reflexivity.
Qed.

Lemma join_cons (p : pystr) (rest : list pystr) :
  Py.join (py ",") (p :: rest)
  = p ++ match rest with
         | [] => []
         | _ :: _ => 44%N :: Py.join (py ",") rest
         end.
Proof.
  destruct rest as [|q rest]; [symmetry; apply app_nil_r|]. reflexivity.
Qed.

Lemma join_tail_ok (rest : list pystr) :
  tail_ok match rest with
          | [] => []
          | _ :: _ => 44%N :: Py.join (py ",") rest
          end.
Proof. destruct rest; [left; reflexivity | right; eexists; reflexivity]. Qed.

Lemma join_injective (l1 l2 : list pystr) :
  Forall comma_free l1 -> Forall comma_free l2 ->
  Py.join (py ",") l1 = Py.join (py ",") l2 -> l1 = l2.
Proof.
  revert l2. induction l1 as [|p r1 IH]; intros l2 H1 H2 Heq.
  - destruct l2 as [|q r2]; [reflexivity|].
    inversion H2 as [|? ? [Hq _] _]; subst.
    rewrite join_cons in Heq. simpl in Heq.
    destruct q; [congruence | discriminate].
  - inversion H1 as [|? ? [Hp Hpc] H1']; subst.
    destruct l2 as [|q r2].
    + rewrite join_cons in Heq. simpl in Heq.
      destruct p; [congruence | discriminate].
    + inversion H2 as [|? ? [Hq Hqc] H2']; subst.
      rewrite !join_cons in Heq.
      destruct (first_item_unique p q _ _ Hpc Hqc (join_tail_ok r1)
                  (join_tail_ok r2) Heq) as [-> Ht].
      f_equal. destruct r1 as [|a r1], r2 as [|b r2];
        try discriminate; [reflexivity|].
      injection Ht as Ht. apply IH; assumption.
Qed.

(** The [reasons] column is an unambiguous encoding: no reason of a
    decision is empty or holds a comma, so two decisions stored with the
    same comma-joined column have the same list of reasons. *)
Theorem reasons_column_determines_reasons (self self' : t)
    (text text' : option pystr) :
  Py.join (py ",") (reasons (analyze self text))
  = Py.join (py ",") (reasons (analyze self' text')) ->
  reasons (analyze self text) = reasons (analyze self' text').
Proof.
  apply join_injective; apply reasons_comma_free.
Qed.

End ReasonsColumn.

(** ** The further properties on concrete inputs *)
Section MoreConcrete.
#[local] Existing Instance Reference.runtime.

Ltac run_code := vm_compute; first [reflexivity | discriminate].

Lemma reference_lower_nonempty (s : pystr) :
  s <> [] -> str_lower s <> [].
Proof. destruct s; [congruence | discriminate]. Qed.

(** [Samples.details_only] is what [Samples.details_only_config] builds. *)
Example details_only_of_config :
  LeadAnalyzer.__init__ Samples.details_only_config
  = Py.Returned Samples.details_only.
Proof. vm_compute. reflexivity. Qed.

Lemma analyze_ignores_padding_witness :
  forallb isspace (py "  ") = true
  /\ forallb isspace (py " ") = true
  /\ LeadAnalyzer.analyze Demo.analyzer
       (Some (py "  " ++ Demo.buy_text ++ py " "))
     = LeadAnalyzer.analyze Demo.analyzer (Some Demo.buy_text).
Proof.
  assert (H1 : forallb isspace (py "  ") = true) by run_code.
  assert (H2 : forallb isspace (py " ") = true) by run_code.
  exact (conj H1 (conj H2
           (analyze_ignores_padding Demo.analyzer (py "  ") Demo.buy_text
              (py " ") H1 H2))).
Defined.

Lemma init_keywords_nonempty_witness :
  (forall s, s <> [] -> str_lower s <> [])
  /\ LeadAnalyzer.__init__ Demo.config = Py.Returned Demo.analyzer
  /\ (forall kw, In kw (all_keywords Demo.analyzer) ->
        kw <> [] /\ Py.str_in kw [] = false).
Proof.
  assert (H : LeadAnalyzer.__init__ Demo.config = Py.Returned Demo.analyzer)
    by run_code.
  exact (conj reference_lower_nonempty (conj H
           (init_keywords_nonempty Demo.config Demo.analyzer
              reference_lower_nonempty H))).
Defined.


Lemma lead_needs_more_than_intent_witness :
  is_lead (LeadAnalyzer.analyze Demo.analyzer (Some Demo.buy_text)) = true
  /\ (0 < LeadAnalyzer.details_score (LeadAnalyzer.clean (Some Demo.buy_text))
      \/ LeadAnalyzer.urgency_hits Demo.analyzer
           (LeadAnalyzer.clean (Some Demo.buy_text)) <> []
      \/ LeadAnalyzer.realtor_hits Demo.analyzer
           (LeadAnalyzer.clean (Some Demo.buy_text)) <> []
      \/ (LeadAnalyzer.contact_bonus Demo.analyzer = true
          /\ LeadAnalyzer.has_contact
               (LeadAnalyzer.clean (Some Demo.buy_text)) = true)).
Proof.
  assert (H : is_lead (LeadAnalyzer.analyze Demo.analyzer
                         (Some Demo.buy_text)) = true) by run_code.
  exact (conj H
           (lead_needs_more_than_intent Demo.analyzer (Some Demo.buy_text) H)).
Defined.

Lemma empty_table_consistent : Table.consistent (LeadStorage._init_schema None).
Proof.
  split; [apply NoDup_nil; exact I|]. split; constructor.
Qed.

Lemma run_keeps_table_consistent_witness :
  Table.consistent (LeadStorage._init_schema None)
  /\ Table.consistent
       (LeadStorage.conn
          (LeadStorage.run (LeadStorage.__init__ None)
             [Demo.call1; Demo.call1_again; Demo.call2]).2).
Proof.
  exact (conj empty_table_consistent
           (proj1 (run_keeps_table_consistent None
                     [Demo.call1; Demo.call1_again; Demo.call2] 100 1
                     empty_table_consistent))).
Defined.

Lemma hash_ignores_padding_witness :
  forallb isspace (py "  ") = true
  /\ forallb isspace (py " ") = true
  /\ LeadStorage.c_message_text Samples.padded_call
     = py "  " ++ LeadStorage.c_message_text Demo.call1 ++ py " "
  /\ LeadStorage.message_hash (LeadStorage.row_of Samples.padded_call)
     = LeadStorage.message_hash (LeadStorage.row_of Demo.call1).
Proof.
  assert (H1 : forallb isspace (py "  ") = true) by run_code.
  assert (H2 : forallb isspace (py " ") = true) by run_code.
  assert (H3 : LeadStorage.c_message_text Samples.padded_call
               = py "  " ++ LeadStorage.c_message_text Demo.call1 ++ py " ")
    by run_code.
  exact (conj H1 (conj H2 (conj H3
           (proj1 (hash_ignores_padding Samples.padded_call Demo.call1
                     (py "  ") (py " ") H1 H2 H3))))).
Defined.

Lemma validated_target_resolves_witness :
  validate_runtime_config Demo.config = Py.Returned tt
  /\ ((exists h,
         notification Demo.config !! "target_bot_username"
         = Some (Py.VStr h)
         /\ resolve_notification_target Demo.config
            = Py.Returned (TargetName (str_strip h))
         /\ Py.startswith (str_strip h) (py "@") = true)
      \/ (exists v z,
            notification Demo.config !! "target_telegram_id" = Some v
            /\ py_int v = Py.Returned z
            /\ resolve_notification_target Demo.config
               = Py.Returned (TargetId z))).
Proof.
  assert (H : validate_runtime_config Demo.config = Py.Returned tt)
    by run_code.
  exact (conj H (validated_target_resolves Demo.config H)).
Defined.

(** One lead event handled twice on a new database: stored once, counted
    twice as processed, notified once. *)
Example lead_event_twice :
  let st :=
    Samples.handle_all Samples.fresh
      [(Samples.delivered, Samples.lead_event);
       (Samples.flood_wait, Samples.lead_event)] in
  Bot.processed_count st = 2
  /\ Bot.lead_count st = 1
  /\ List.length (Bot.outbox st) = 1%nat
  /\ List.length (LeadStorage.leads (LeadStorage.conn (Bot.storage st)))
     = 1%nat
  /\ Bot.log st
     = [Bot.LogLead (py "Приморский") 100 (Some 200); Bot.LogDuplicate 100 7].
Proof. vm_compute. repeat split. Qed.

Lemma notifications_are_leads_witness :
  In (Samples.target,
      Bot.build_notification (Bot.created Samples.delivered)
        Samples.lead_event
        (LeadAnalyzer.analyze Demo.analyzer (Bot.raw_text Samples.lead_event)))
    (Bot.outbox
       (Bot.handle_all Demo.analyzer Samples.target (fun d => d)
          (Bot.start (LeadStorage.__init__ None))
          [(Samples.delivered, Samples.lead_event)]))
  /\ exists w ev,
       In (w, ev) [(Samples.delivered, Samples.lead_event)]
       /\ Bot.accepted ev = true
       /\ is_lead (LeadAnalyzer.analyze Demo.analyzer (Bot.raw_text ev)) = true
       /\ (Samples.target,
           Bot.build_notification (Bot.created Samples.delivered)
             Samples.lead_event
             (LeadAnalyzer.analyze Demo.analyzer
                (Bot.raw_text Samples.lead_event)))
          = (Samples.target,
             Bot.build_notification (Bot.created w) ev
               (LeadAnalyzer.analyze Demo.analyzer (Bot.raw_text ev))).
Proof.
  assert (H : In (Samples.target,
                  Bot.build_notification (Bot.created Samples.delivered)
                    Samples.lead_event
                    (LeadAnalyzer.analyze Demo.analyzer
                       (Bot.raw_text Samples.lead_event)))
                (Bot.outbox
                   (Bot.handle_all Demo.analyzer Samples.target (fun d => d)
                      (Bot.start (LeadStorage.__init__ None))
                      [(Samples.delivered, Samples.lead_event)]))).
  { assert (Hout : Bot.outbox
                     (Bot.handle_all Demo.analyzer Samples.target
                        (fun d => d) (Bot.start (LeadStorage.__init__ None))
                        [(Samples.delivered, Samples.lead_event)])
                   = [(Samples.target,
                       Bot.build_notification (Bot.created Samples.delivered)
                         Samples.lead_event
                         (LeadAnalyzer.analyze Demo.analyzer
                            (Bot.raw_text Samples.lead_event)))])
      by run_code.
    rewrite Hout. apply in_eq. }
  exact (conj H
           (notifications_are_leads Demo.analyzer Samples.target (fun d => d)
              (LeadStorage.__init__ None)
              [(Samples.delivered, Samples.lead_event)] _ H)).
Defined.

Lemma stored_rows_classified_witness :
  Forall (Bot.classified Demo.analyzer)
    (map snd
       (LeadStorage.leads (LeadStorage.conn (Bot.storage Samples.fresh))))
  /\ Forall (Bot.classified Demo.analyzer)
       (map snd
          (LeadStorage.leads
             (LeadStorage.conn
                (Bot.storage
                   (Bot.handle_all Demo.analyzer Samples.target (fun d => d)
                      Samples.fresh
                      [(Samples.delivered, Samples.lead_event)]))))).
Proof.
  assert (H : Forall (Bot.classified Demo.analyzer)
                (map snd
                   (LeadStorage.leads
                      (LeadStorage.conn (Bot.storage Samples.fresh)))))
    by constructor.
  exact (conj H
           (stored_rows_classified Demo.analyzer Samples.target (fun d => d)
              Samples.fresh [(Samples.delivered, Samples.lead_event)] H)).
Defined.

Lemma closed_storage_sends_nothing_witness :
  LeadStorage.conn_open (Bot.storage Samples.closed) = false
  /\ Bot.outbox
       (Bot.handle_all Demo.analyzer Samples.target (fun d => d)
          Samples.closed [(Samples.delivered, Samples.lead_event)])
     = Bot.outbox Samples.closed.
Proof.
  assert (H : LeadStorage.conn_open (Bot.storage Samples.closed) = false)
    by reflexivity.
  exact (conj H
           (proj1 (proj2
              (closed_storage_sends_nothing Demo.analyzer Samples.target
                 (fun d => d) Samples.closed
                 [(Samples.delivered, Samples.lead_event)] H)))).
Defined.

Lemma send_failures_change_only_log_witness :
  Forall2 (fun e e' => e.2 = e'.2 /\ Bot.created e.1 = Bot.created e'.1)
    [(Samples.delivered, Samples.lead_event)]
    [(Samples.flood_wait, Samples.lead_event)]
  /\ Bot.storage
       (Bot.handle_all Demo.analyzer Samples.target (fun d => d)
          Samples.fresh [(Samples.delivered, Samples.lead_event)])
     = Bot.storage
         (Bot.handle_all Demo.analyzer Samples.target (fun d => d)
            Samples.fresh [(Samples.flood_wait, Samples.lead_event)]).
Proof.
  assert (H : Forall2
                (fun e e' => e.2 = e'.2 /\ Bot.created e.1 = Bot.created e'.1)
                [(Samples.delivered, Samples.lead_event)]
                [(Samples.flood_wait, Samples.lead_event)]).
  { constructor; [|constructor]. cbn [fst snd].
    unfold Samples.delivered, Samples.flood_wait. cbn [Bot.created].
    split; reflexivity. }
  exact (conj H
           (proj1
              (send_failures_change_only_log Demo.analyzer Samples.target
                 (fun d => d) Samples.fresh _ _ H))).
Defined.

Lemma run_results_by_keys_witness :
  Forall (fun c => LeadStorage.storable c = true)
    [Demo.call1; Demo.call1_again; Demo.call2]
  /\ Z.of_nat (List.length [Demo.call1; Demo.call1_again; Demo.call2])
     <= LeadStorage.room (LeadStorage._init_schema None)
  /\ (LeadStorage.run (LeadStorage.__init__ None)
        [Demo.call1; Demo.call1_again; Demo.call2]).1
     = map Py.Returned
         (Table.results_by_keys
            (list_to_set (Table.keys (LeadStorage._init_schema None)))
            (map Table.call_key [Demo.call1; Demo.call1_again; Demo.call2])).
Proof.
  assert (H1 : Forall (fun c => LeadStorage.storable c = true)
                 [Demo.call1; Demo.call1_again; Demo.call2]).
  { repeat constructor; run_code. }
  assert (H2 : Z.of_nat
                 (List.length [Demo.call1; Demo.call1_again; Demo.call2])
               <= LeadStorage.room (LeadStorage._init_schema None))
    by (apply Z.leb_le; run_code).
  exact (conj H1 (conj H2
           (run_results_by_keys None
              [Demo.call1; Demo.call1_again; Demo.call2] H1 H2))).
Defined.

(** The three calls give [True], [False], [True]. *)
Example results_of_three_calls :
  (LeadStorage.run (LeadStorage.__init__ None)
     [Demo.call1; Demo.call1_again; Demo.call2]).1
  = [Py.Returned true; Py.Returned false; Py.Returned true].
Proof. run_code. Qed.

(** Calls on a closed storage: one with a text that has no hash, one with
    a text that has. *)
Example closed_storage_exceptions :
  LeadStorage.run (LeadStorage.close (LeadStorage.__init__ None))
    [Demo.call1_unpaired; Demo.call1]
  = ([Py.Raised Py.UnicodeEncodeError; Py.Raised Py.ProgrammingError],
     LeadStorage.close (LeadStorage.__init__ None)).
Proof. run_code. Qed.


Lemma reasons_column_determines_reasons_witness :
  Py.join (py ",")
    (reasons (LeadAnalyzer.analyze Demo.analyzer (Some Demo.buy_text)))
  = Py.join (py ",")
      (reasons (LeadAnalyzer.analyze Demo.lenient (Some Demo.buy_text)))
  /\ reasons (LeadAnalyzer.analyze Demo.analyzer (Some Demo.buy_text))
     = reasons (LeadAnalyzer.analyze Demo.lenient (Some Demo.buy_text)).
Proof.
  assert (H : Py.join (py ",")
                (reasons
                   (LeadAnalyzer.analyze Demo.analyzer (Some Demo.buy_text)))
              = Py.join (py ",")
                  (reasons
                     (LeadAnalyzer.analyze Demo.lenient
                        (Some Demo.buy_text)))) by run_code.
  exact (conj H
           (reasons_column_determines_reasons Demo.analyzer Demo.lenient
              (Some Demo.buy_text) (Some Demo.buy_text) H)).
Defined.

End MoreConcrete.
